(** * csv-analyst: a model of [main.py] and the properties of its tools

    The server keeps one process-wide [STATE] (current table, last result,
    source path, sandbox root) and exposes ten tools over it.  The tools are
    embedded here as computations in a small state-and-failure monad, in the
    order in which [main.py] reads, checks and assigns.

    [main.py] rests on three libraries whose code is not part of the
    repository: pathlib/os (paths and the file system), pandas (tables) and
    the Python builtins ([str], [str.lower], [re]).  What the tools need of
    them is written out where it is structural (path parsing, containment,
    row selection, grouping, the dtype rules of comparisons) and left as a
    field of a class where it is numeric or textual detail (float
    statistics, Unicode lower-casing, regular expressions, the contents of
    the disk). *)

From Stdlib Require Import ZArith String Ascii List Bool.
From stdpp Require Import base option list strings gmap sorting pretty.

Open Scope string_scope.
Set Warnings "-register-all".

(* ================================================================== *)
(** * Python strings *)

(** [s.endswith(suffix)] *)
Fixpoint endswith (s suffix : string) : bool :=
  if String.eqb s suffix then true
  else match s with
       | EmptyString => false
       | String _ s' => endswith s' suffix
       end.

(** [s.startswith(prefix)] *)
Definition startswith (s pre : string) : bool := String.prefix pre s.

(** [s.split(sep)] for a one-character separator. *)
Fixpoint split_sep (sep : ascii) (s : string) : list string :=
  match s with
  | EmptyString => [EmptyString]
  | String c s' =>
      if Ascii.eqb c sep then EmptyString :: split_sep sep s'
      else match split_sep sep s' with
           | [] => [String c EmptyString]
           | w :: ws => String c w :: ws
           end
  end.

(** [sep.join(parts)] *)
Definition join (sep : string) (parts : list string) : string :=
  String.concat sep parts.

(* ================================================================== *)
(** * Exceptions *)

Inductive ExcClass :=
| ValueError | TypeError | RuntimeError | KeyError
| AttributeError | FileNotFoundError | PermissionError | OSError
| RegexError.           (* re.error *)

Record PyExc := mkExc { exc_class : ExcClass; exc_msg : string }.

(** A library call either returns or raises. *)
Inductive Exc (A : Type) :=
| Returned (a : A)
| Raised (e : PyExc).
Arguments Returned {A} a.
Arguments Raised {A} e.

#[global] Instance Exc_ret : MRet Exc := fun A a => Returned a.
#[global] Instance Exc_bind : MBind Exc := fun A B f m =>
  match m with
  | Returned a => f a
  | Raised e => Raised e
  end.

(** [[f(x) for x in xs]] where [f] may raise. *)
Fixpoint exc_map {A B} (f : A -> Exc B) (xs : list A) : Exc (list B) :=
  match xs with
  | [] => Returned []
  | x :: xs' =>
      match f x with
      | Returned y =>
          match exc_map f xs' with
          | Returned ys => Returned (y :: ys)
          | Raised e => Raised e
          end
      | Raised e => Raised e
      end
  end.

(* ================================================================== *)
(** * pathlib (POSIX flavour) *)

(** A parsed path: the root ([""] for a relative path, ["/"] or ["//"]) and
    the components after it. *)
Record PurePath := mkPath { anchor : string; tail : list string }.

(** [posixpath.splitroot]: exactly two leading slashes are kept as a root of
    their own, one or three and more collapse to ["/"]. *)
Definition splitroot (p : string) : string * string :=
  match p with
  | String "/" (String "/" (String "/" r)) => ("/", String "/" (String "/" r))
  | String "/" (String "/" r) => ("//", r)
  | String "/" r => ("/", r)
  | _ => ("", p)
  end.

(** [Path(s)]: empty components and ["."] are dropped, [".."] is kept. *)
Definition parse_path (s : string) : PurePath :=
  let '(r, rel) := splitroot s in
  {| anchor := r;
     tail := List.filter (fun x => negb (String.eqb x "") && negb (String.eqb x "."))
               (split_sep "/" rel) |}.

(** [str(p)] *)
Definition path_str (p : PurePath) : string :=
  if String.eqb (anchor p) "" then
    match tail p with
    | [] => "."
    | _ => join "/" (tail p)
    end
  else anchor p ++ join "/" (tail p).

(** [p.is_absolute()] *)
Definition is_absolute (p : PurePath) : bool := negb (String.eqb (anchor p) "").

(** [base / p] *)
Definition joinpath (base p : PurePath) : PurePath :=
  if is_absolute p then p
  else {| anchor := anchor base; tail := tail base ++ tail p |}.

(** [p.parent] *)
Definition parent (p : PurePath) : PurePath :=
  {| anchor := anchor p; tail := removelast (tail p) |}.

Fixpoint is_prefix (xs ys : list string) : bool :=
  match xs, ys with
  | [], _ => true
  | x :: xs', y :: ys' => String.eqb x y && is_prefix xs' ys'
  | _ :: _, [] => false
  end.

(** [p.relative_to(base)] returns (rather than raising [ValueError]) exactly
    when [base] is [p] or one of its parents; the comparison is on the parsed
    components, never on the disk. *)
Definition is_relative_to (p base : PurePath) : bool :=
  String.eqb (anchor p) (anchor base) && is_prefix (tail base) (tail p).

(** The disk and the password database, as seen during one call. *)
Class FileSystem := {
  (** home directory of a user ([""] is the current one), when known *)
  fs_home : string -> option string;
  (** [Path.resolve()] of an absolute path: symlinks and [".."] resolved *)
  fs_realpath : PurePath -> Exc PurePath;
  fs_exists : PurePath -> bool;
  fs_is_file : PurePath -> bool;
  fs_is_dir : PurePath -> bool;
  (** [p.mkdir(parents=True, exist_ok=True)] *)
  fs_mkdir : PurePath -> Exc unit;
}.

Section Pathlib.
Context `{FileSystem}.

(** [p.expanduser()] *)
Definition expanduser (p : PurePath) : Exc PurePath :=
  match anchor p, tail p with
  | EmptyString, String "~" user :: rest =>
      match fs_home user with
      | Some h =>
          let hp := parse_path h in
          Returned {| anchor := anchor hp; tail := tail hp ++ rest |}
      | None =>
          Raised (mkExc RuntimeError "Could not determine home directory.")
      end
  | _, _ => Returned p
  end.

(** The four lines that open [_resolve_csv_path] and, again,
    [export_last_result]:
<<
    p = Path(user_path).expanduser()
    if not p.is_absolute(): p = (STATE.base_dir / p).resolve()
    else:                   p = p.resolve()
>> *)
Definition resolve_under (base : PurePath) (user_path : string) : Exc PurePath :=
  p ← expanduser (parse_path user_path);
  if negb (is_absolute p) then fs_realpath (joinpath base p)
  else fs_realpath p.
End Pathlib.

(* ================================================================== *)
(** * Values and tables *)

(** int64 and float64 values are not computed with, only compared; their
    carrier is a parameter.  [NaN] is not a [num]: it is the cell [Null]. *)
Class Number := {
  num : Type;
  num_eq_dec :: EqDecision num;
  num_ltb : num -> num -> bool;
  (** [True == 1] and [False == 0] *)
  num_of_bool : bool -> num;
}.

(** The dtypes [read_csv] infers. *)
Inductive Dtype := Int64 | Float64 | BoolT | ObjectT.

(** [str(dtype)] *)
Definition dtype_name (d : Dtype) : string :=
  match d with
  | Int64 => "int64"
  | Float64 => "float64"
  | BoolT => "bool"
  | ObjectT => "object"
  end.

(** [select_dtypes(include="number")]: [np.number] covers the integer and
    float dtypes and leaves [bool] out. *)
Definition is_number_dtype (d : Dtype) : bool :=
  match d with
  | Int64 | Float64 => true
  | BoolT | ObjectT => false
  end.

(** numpy kinds [u i f c b], the left side of pandas'
    [is_numeric_v_string_like]. *)
Definition is_numeric_kind (d : Dtype) : bool :=
  match d with
  | Int64 | Float64 | BoolT => true
  | ObjectT => false
  end.

Inductive CmpOp := OpEq | OpNe | OpGt | OpGe | OpLt | OpLe.

Definition cmp_of_string (s : string) : option CmpOp :=
  if String.eqb s "==" then Some OpEq
  else if String.eqb s "!=" then Some OpNe
  else if String.eqb s ">" then Some OpGt
  else if String.eqb s ">=" then Some OpGe
  else if String.eqb s "<" then Some OpLt
  else if String.eqb s "<=" then Some OpLe
  else None.

Definition cmp_holds (op : CmpOp) (c : comparison) : bool :=
  match op, c with
  | OpEq, Eq => true
  | OpNe, (Lt | Gt) => true
  | OpGt, Gt => true
  | OpGe, (Gt | Eq) => true
  | OpLt, Lt => true
  | OpLe, (Lt | Eq) => true
  | _, _ => false
  end.

(** What a comparison yields where one side is missing, or where the two
    sides have no common type and the operator is [==] or [!=]. *)
Definition cmp_unequal (op : CmpOp) : bool :=
  match op with
  | OpNe => true
  | _ => false
  end.

Inductive StrOp := Contains | Startswith | Endswith.

Definition strop_of_string (s : string) : option StrOp :=
  if String.eqb s "contains" then Some Contains
  else if String.eqb s "startswith" then Some Startswith
  else if String.eqb s "endswith" then Some Endswith
  else None.

Abbreviation Mask := (list bool).

(** [df[mask]], [series[mask]] *)
Fixpoint select {A} (m : Mask) (l : list A) : list A :=
  match m, l with
  | b :: m', x :: l' => if b then x :: select m' l' else select m' l'
  | _, _ => []
  end.

(** [l.head(n)] / [l[:n]]: a negative [n] counts from the end. *)
Definition py_head {A} (n : Z) (l : list A) : list A :=
  if (0 <=? n)%Z then firstn (Z.to_nat n) l
  else firstn (length l - Z.to_nat (- n)) l.

(** [d[k] = v] on a dict kept in insertion order. *)
Fixpoint dict_set {V} (k : string) (v : V) (d : list (string * V)) : list (string * V) :=
  match d with
  | [] => [(k, v)]
  | (k', v') :: d' =>
      if String.eqb k' k then (k', v) :: d' else (k', v') :: dict_set k v d'
  end.

Fixpoint index_of (c : string) (cs : list string) : option nat :=
  match cs with
  | [] => None
  | c' :: cs' => if String.eqb c' c then Some 0 else S <$> index_of c cs'
  end.

Section Values.
Context `{Number}.

(** A cell of a table. *)
Inductive Scalar :=
| Null
| Num (x : num)
| Bool (b : bool)
| Str (s : string).

#[global] Instance Scalar_eq_dec : EqDecision Scalar.
Proof. solve_decision. Defined.

(** A JSON value as the tool receives it ([Any]). *)
Inductive PyVal :=
| VNone
| VBool (b : bool)
| VNum (x : num)
| VStr (s : string)
| VList (l : list PyVal)
| VDict (d : list (string * PyVal)).

(** [bool(v)] *)
Definition truthy (v : PyVal) : bool :=
  match v with
  | VNone => false
  | VBool b => b
  | VNum x => negb (bool_decide (x = num_of_bool false))
  | VStr s => negb (String.eqb s "")
  | VList l => negb (bool_decide (length l = 0))
  | VDict d => negb (bool_decide (length d = 0))
  end.

Record Series := mkSeries { s_dtype : Dtype; s_values : list Scalar }.

(** A DataFrame, row by row; [schema] lists the columns in order with
    their dtypes.  Index labels are not modelled: every table here
    carries the default positional index or is used positionally. *)
Record DataFrame := mkDF {
  schema : list (string * Dtype);
  rows : list (list Scalar);
}.

(** [df.columns] *)
Definition columns (d : DataFrame) : list string := map fst (schema d).
(** [df.shape[0]] *)
Definition nrows (d : DataFrame) : nat := length (rows d).
(** [df.shape[1]] *)
Definition ncols (d : DataFrame) : nat := length (schema d).

Definition cell (i : nat) (r : list Scalar) : Scalar := nth i r Null.

Definition column_at (d : DataFrame) (i : nat) : Series :=
  {| s_dtype := nth i (map snd (schema d)) ObjectT;
     s_values := map (cell i) (rows d) |}.

(** [df[c]] *)
Definition getitem (d : DataFrame) (c : string) : Exc Series :=
  match index_of c (columns d) with
  | Some i => Returned (column_at d i)
  | None => Raised (mkExc KeyError c)
  end.

(** [df[cs]] for a list of names. *)
Definition getitem_list (d : DataFrame) (cs : list string) : Exc DataFrame :=
  ixs ← exc_map (fun c => match index_of c (columns d) with
                          | Some i => Returned i
                          | None => Raised (mkExc KeyError c)
                          end) cs;
  Returned {| schema := map (fun i => nth i (schema d) ("", ObjectT)) ixs;
              rows := map (fun r => map (fun i => cell i r) ixs) (rows d) |}.

(** [df[mask]] *)
Definition getitem_mask (d : DataFrame) (m : Mask) : DataFrame :=
  {| schema := schema d; rows := select m (rows d) |}.

(** [df.head(n)] *)
Definition df_head (n : Z) (d : DataFrame) : DataFrame :=
  {| schema := schema d; rows := py_head n (rows d) |}.

(** One element of [df.to_dict(orient="records")]. *)
Definition Record_ := list (string * Scalar).

Definition to_record (cs : list string) (r : list Scalar) : Record_ :=
  fold_left (fun acc kv => dict_set (fst kv) (snd kv) acc) (combine cs r) [].

(** [df.to_dict(orient="records")] *)
Definition to_dict_records (d : DataFrame) : list Record_ :=
  map (to_record (columns d)) (rows d).

(** [series.isna().sum()] *)
Definition count_na (s : Series) : nat :=
  length (List.filter (fun x => bool_decide (x = Null)) (s_values s)).

(** ** Scalar comparison, as Python does it *)

Definition num_compare (a b : num) : comparison :=
  if bool_decide (a = b) then Eq else if num_ltb a b then Lt else Gt.

(** [None] where Python has no ordering between the two types
    ([str] against a number). *)
Definition py_order (x : Scalar) (v : PyVal) : option comparison :=
  match x, v with
  | Num a, VNum b => Some (num_compare a b)
  | Num a, VBool b => Some (num_compare a (num_of_bool b))
  | Bool a, VNum b => Some (num_compare (num_of_bool a) b)
  | Bool a, VBool b => Some (num_compare (num_of_bool a) (num_of_bool b))
  | Str a, VStr b => Some (String.compare a b)
  | _, _ => None
  end.

(** [x op v] for a non-null [x]: [==] and [!=] between unrelated types
    are [False] and [True], an ordering raises [TypeError]. *)
Definition py_cmp (op : CmpOp) (x : Scalar) (v : PyVal) : Exc bool :=
  match py_order x v with
  | Some c => Returned (cmp_holds op c)
  | None =>
      match op with
      | OpEq | OpNe => Returned (cmp_unequal op)
      | _ => Raised (mkExc TypeError "'<' not supported between instances")
      end
  end.

(** pandas [ops.invalid_comparison]: a numeric array against a string. *)
Definition invalid_comparison (op : CmpOp) (n : nat) : Exc Mask :=
  match op with
  | OpEq => Returned (repeat false n)
  | OpNe => Returned (repeat true n)
  | _ => Raised (mkExc TypeError "Invalid comparison between dtype and str")
  end.

(** pandas [libops.scalar_compare] on an object column: a missing cell
    is unequal to everything, any other cell is compared by Python. *)
Definition object_cmp (op : CmpOp) (v : PyVal) (x : Scalar) : Exc bool :=
  match x with
  | Null => Returned (cmp_unequal op)
  | _ => py_cmp op x v
  end.

(** numpy comparison of a numeric cell with a number. *)
Definition numeric_cmp (op : CmpOp) (v : PyVal) (x : Scalar) : bool :=
  match py_order x v with
  | Some c => cmp_holds op c
  | None => cmp_unequal op
  end.

(** ** What is left to the libraries *)

Class Library := {
  (** [s.lower()] *)
  py_lower : string -> string;
  (** [str(x)] of a JSON number, of a JSON list or object *)
  py_str_num : num -> string;
  py_str_container : PyVal -> string;
  (** [re.compile(pat)]: [None] when [pat] is not a regular expression,
      else the test [pat.search(x) is not None] *)
  re_compile : string -> option (string -> bool);
  (** the text of a numeric cell under [astype("string")] *)
  pd_str_num : Dtype -> num -> string;
  (** one element of a comparison against a list or an object *)
  pd_cmp_other : CmpOp -> Dtype -> Scalar -> PyVal -> Exc bool;
  (** one element of [series.isin(values)] *)
  pd_isin : Dtype -> Scalar -> list PyVal -> Exc bool;
  (** count, mean, std, min, 25%, 50%, 75%, max of one column *)
  pd_describe_1d : Dtype -> list Scalar -> list Scalar;
  (** [series.value_counts(dropna=, normalize=)] as (value, metric) pairs *)
  pd_value_counts : Series -> bool -> bool -> list (Scalar * Scalar);
  (** one aggregate (sum, mean, min, max, count, nunique) of the cells of
      one column within one group, and the dtype of the resulting column *)
  pd_agg : string -> Dtype -> list Scalar -> Exc Scalar;
  pd_agg_dtype : string -> Dtype -> Dtype;
  (** [pd.read_csv(path, sep=, encoding=)]; repeated header names are
      renamed apart ([a], [a.1], ...), so the names of a loaded table are
      distinct *)
  pd_read_csv : PurePath -> string -> option string -> Exc DataFrame;
  pd_read_csv_unique : forall p sep enc d,
    pd_read_csv p sep enc = Returned d -> NoDup (columns d);
  (** [df.to_csv(path, index=False)] *)
  pd_to_csv : DataFrame -> PurePath -> Exc unit;
}.

Context `{Library}.

(** [str(v)] *)
Definition py_str (v : PyVal) : string :=
  match v with
  | VNone => "None"
  | VBool true => "True"
  | VBool false => "False"
  | VNum x => py_str_num x
  | VStr s => s
  | VList _ | VDict _ => py_str_container v
  end.

(** ** Series comparison: [series.eq(v)], [.ne], [.gt], [.ge], [.lt], [.le]

    pandas [Series._flex_method] and [ops.comparison_op]:
    - a list must have the length of the series ([ValueError] otherwise)
      and is then compared element by element;
    - [None] is unequal to every cell;
    - a string against a numeric array is [invalid_comparison];
    - an object column, or a string value, goes through the
      element-wise object comparison;
    - otherwise numpy compares numbers. *)
Definition series_cmp (op : CmpOp) (s : Series) (v : PyVal) : Exc Mask :=
  match v with
  | VList l =>
      if bool_decide (length l = length (s_values s)) then
        exc_map (fun xv => pd_cmp_other op (s_dtype s) (fst xv) (snd xv))
                (combine (s_values s) l)
      else Raised (mkExc ValueError "Lengths must be equal")
  | VDict _ =>
      exc_map (fun x => pd_cmp_other op (s_dtype s) x v) (s_values s)
  | VNone => Returned (map (fun _ => cmp_unequal op) (s_values s))
  | VStr _ =>
      if is_numeric_kind (s_dtype s)
      then invalid_comparison op (length (s_values s))
      else exc_map (object_cmp op v) (s_values s)
  | VNum _ | VBool _ =>
      if is_numeric_kind (s_dtype s)
      then Returned (map (numeric_cmp op v) (s_values s))
      else exc_map (object_cmp op v) (s_values s)
  end.

(** ** String predicates *)

(** One cell under [series.astype("string")]: [None] is [pd.NA]. *)
Definition astype_string (d : Dtype) (x : Scalar) : option string :=
  match x with
  | Null => None
  | Str s => Some s
  | Num n => Some (pd_str_num d n)
  | Bool true => Some "True"
  | Bool false => Some "False"
  end.

(** [s.str.contains(needle, na=False)] (a regular-expression search),
    [s.str.startswith(needle, na=False)], [s.str.endswith(needle, na=False)]
    on a string series. *)
Definition str_predicate (op : StrOp) (needle : string) (s : list (option string)) : Exc Mask :=
  match op with
  | Contains =>
      match re_compile needle with
      | Some search => Returned (map (fun c => from_option search false c) s)
      | None => Raised (mkExc RegexError needle)
      end
  | Startswith =>
      Returned (map (fun c => from_option (fun t => startswith t needle) false c) s)
  | Endswith =>
      Returned (map (fun c => from_option (fun t => endswith t needle) false c) s)
  end.

(** ** describe *)

Definition describe_stats : list string :=
  ["count"; "mean"; "std"; "min"; "25%"; "50%"; "75%"; "max"].

(** [(i, name, dtype)] of the columns [select_dtypes(include="number")]
    keeps. *)
Definition number_columns (d : DataFrame) : list (nat * (string * Dtype)) :=
  List.filter (fun c => is_number_dtype (snd (snd c)))
              (combine (seq 0 (ncols d)) (schema d)).

(** [df.describe(include="number").transpose().reset_index()
      .rename(columns={"index": "column"})]

    pandas [DataFrameDescriber]: a table without columns is refused; the
    selected columns are described one by one and the results are
    concatenated, and [concat] of no object at all raises. *)
Definition describe_number (d : DataFrame) : Exc DataFrame :=
  if bool_decide (ncols d = 0) then
    Raised (mkExc ValueError "Cannot describe a DataFrame without columns")
  else
    match number_columns d with
    | [] => Raised (mkExc ValueError "No objects to concatenate")
    | sel =>
        Returned
          {| schema := ("column", ObjectT) :: map (fun n => (n, Float64)) describe_stats;
             rows := map (fun c => Str (fst (snd c)) ::
                                   pd_describe_1d (snd (snd c))
                                     (s_values (column_at d (fst c)))) sel |}
    end.

(** ** groupby *)

(** Order of group keys under [sort=True]: numbers, then text, missing
    values last. *)
Definition scalar_num (x : Scalar) : option num :=
  match x with
  | Num a => Some a
  | Bool b => Some (num_of_bool b)
  | _ => None
  end.

Definition scalar_leb (x y : Scalar) : bool :=
  match x, y with
  | _, Null => true
  | Null, _ => false
  | Str a, Str b => String.leb a b
  | Str _, _ => false
  | _, Str _ => true
  | _, _ =>
      match scalar_num x, scalar_num y with
      | Some a, Some b => negb (num_ltb b a)
      | _, _ => true
      end
  end.

Fixpoint key_leb (k1 k2 : list Scalar) : bool :=
  match k1, k2 with
  | [], _ => true
  | _ :: _, [] => false
  | x :: k1', y :: k2' =>
      if bool_decide (x = y) then key_leb k1' k2' else scalar_leb x y
  end.

Definition key_le (k1 k2 : list Scalar) : Prop := Is_true (key_leb k1 k2).

#[global] Instance key_le_dec k1 k2 : Decision (key_le k1 k2).
Proof. unfold key_le. apply _. Defined.

Definition group_key (ixs : list nat) (r : list Scalar) : list Scalar :=
  map (fun i => cell i r) ixs.

Definition has_null (k : list Scalar) : bool :=
  existsb (fun x => bool_decide (x = Null)) k.

(** The distinct keys, sorted.  [dropna=True] discards every row whose key
    has a missing component; [dropna=False] keeps them. *)
Definition group_keys (dropna : bool) (ixs : list nat) (rs : list (list Scalar))
  : list (list Scalar) :=
  let ks := map (group_key ixs) rs in
  let ks := if dropna then List.filter (fun k => negb (has_null k)) ks else ks in
  merge_sort key_le (remove_dups ks).

Definition group_members (ixs : list nat) (k : list Scalar) (rs : list (list Scalar))
  : list (list Scalar) :=
  List.filter (fun r => bool_decide (group_key ixs r = k)) rs.

(** The result of [df.groupby(...).agg(...)]: the keys are the index, its
    levels named after the group columns; the columns are
    (column, function) pairs. *)
Record Grouped := mkGrouped {
  g_levels : list (string * Dtype);
  g_keys : list (list Scalar);
  g_columns : list ((string * string) * Dtype);
  g_data : list (list Scalar);
}.

Definition lookup_column (d : DataFrame) (c : string) : Exc (nat * Dtype) :=
  match index_of c (columns d) with
  | Some i => Returned (i, nth i (map snd (schema d)) ObjectT)
  | None => Raised (mkExc KeyError c)
  end.

(** The (column, function) pairs of an aggregation dict, in dict order. *)
Definition agg_pairs (agg_map : list (string * list string)) : list (string * string) :=
  concat (map (fun cf => map (fun f => (fst cf, f)) (snd cf)) agg_map).

(** [df.groupby(group_columns, dropna=dropna).agg(agg_map)]

    pandas refuses an empty list of keys ([ValueError]: no group keys
    passed) and an empty aggregation dict ([ValueError] from [concat]).
    A function listed twice for one column is computed twice: with a dict
    the result columns are keyed by position, so both are kept. *)
Definition groupby_agg (d : DataFrame) (group_columns : list string) (dropna : bool)
    (agg_map : list (string * list string)) : Exc Grouped :=
  if bool_decide (group_columns = []) then
    Raised (mkExc ValueError "No group keys passed!")
  else
    levels ← exc_map (lookup_column d) group_columns;
    if bool_decide (agg_map = []) then
      Raised (mkExc ValueError "No objects to concatenate")
    else
      specs ← exc_map (fun cf => id ← lookup_column d (fst cf);
                                 Returned (cf, id)) (agg_pairs agg_map);
      let ixs := map fst levels in
      let keys := group_keys dropna ixs (rows d) in
      data ← exc_map (fun k =>
                exc_map (fun sp : (string * string) * (nat * Dtype) =>
                           pd_agg (snd (fst sp)) (snd (snd sp))
                                  (map (cell (fst (snd sp)))
                                       (group_members ixs k (rows d))))
                        specs) keys;
      Returned
        {| g_levels := combine group_columns (map snd levels);
           g_keys := keys;
           g_columns := map (fun sp : (string * string) * (nat * Dtype) =>
                               (fst sp, pd_agg_dtype (snd (fst sp)) (snd (snd sp)))) specs;
           g_data := data |}.

(** A table that still carries the group keys as its index. *)
Record IndexedFrame := mkIndexed {
  ix_levels : list (string * Dtype);
  ix_keys : list (list Scalar);
  ix_body : DataFrame;
}.

(** [grouped.columns = ["_".join([c, f]) for c, f in grouped.columns]] *)
Definition flatten_columns (g : Grouped) : IndexedFrame :=
  {| ix_levels := g_levels g;
     ix_keys := g_keys g;
     ix_body := {| schema := map (fun cfd : (string * string) * Dtype =>
                                    (join "_" [fst (fst cfd); snd (fst cfd)], snd cfd))
                                 (g_columns g);
                   rows := g_data g |} |}.

(** [reset_index] inserts the index levels in front of the columns, the
    last level first, and refuses ([ValueError]: cannot insert, already
    exists) a level whose name is already a column. *)
Fixpoint insert_levels (levels_rev cols : list (string * Dtype))
  : Exc (list (string * Dtype)) :=
  match levels_rev with
  | [] => Returned cols
  | l :: rest =>
      if bool_decide (fst l ∈ map fst cols) then
        Raised (mkExc ValueError "cannot insert, already exists")
      else insert_levels rest (l :: cols)
  end.

(** [frame.reset_index()] *)
Definition reset_index (f : IndexedFrame) : Exc DataFrame :=
  sch ← insert_levels (rev (ix_levels f)) (schema (ix_body f));
  Returned {| schema := sch;
              rows := zip_with app (ix_keys f) (rows (ix_body f)) |}.
End Values.

(* ================================================================== *)
(** * The process state and the tools of [main.py] *)

Section Tools.
Context `{Library} `{FileSystem}.

(** [class _State] *)
Record State := mkState {
  csv_path : option string;
  df : option DataFrame;
  last_result : option DataFrame;
  base_dir : PurePath;
}.

(** The [{"ok": False, "error": ...}] results, one constructor per message
    of [main.py]; the values interpolated into the message are kept as
    arguments. *)
Inductive ToolError :=
| UnknownColumns (missing : list string)        (* preview *)
| UnknownColumn (column : string)               (* value_counts *)
| BadLogic                                      (* logic must be 'and' or 'or' *)
| UnknownFilterColumn (col : PyVal)             (* Unknown or missing column in filter *)
| ComparisonFailed (col op : string) (val : PyVal) (e : PyExc)
| InValueNotList                                (* For op='in', value must be a list. *)
| UnsupportedOp (op : PyVal)
| UnknownGroupColumns (missing : list string)
| UnknownAggColumn (col : PyVal)
| UnsupportedAgg (fn : PyVal)
| NoLastResult
| OutputAccessDenied (base : PurePath).

(** How the body of a tool ends: it returns a success payload, it returns
    an error result, or an exception leaves it. *)
Inductive Outcome (A : Type) :=
| Done (a : A)
| Failed (e : ToolError)
| Thrown (x : PyExc).
Arguments Done {A} a.
Arguments Failed {A} e.
Arguments Thrown {A} x.

#[global] Instance Outcome_ret : MRet Outcome := fun A a => Done a.
#[global] Instance Outcome_bind : MBind Outcome := fun A B f m =>
  match m with
  | Done a => f a
  | Failed e => Failed e
  | Thrown x => Thrown x
  end.

Definition of_exc {A} (r : Exc A) : Outcome A :=
  match r with
  | Returned a => Done a
  | Raised x => Thrown x
  end.

(** A statement sequence over [STATE]: the state that comes out is the
    state at the point where the sequence ended, also when it ended in an
    error. *)
Definition M (A : Type) : Type := State -> Outcome A * State.

#[global] Instance M_ret : MRet M := fun A a st => (Done a, st).
#[global] Instance M_bind : MBind M := fun A B f m st =>
  match m st with
  | (Done a, st') => f a st'
  | (Failed e, st') => (Failed e, st')
  | (Thrown x, st') => (Thrown x, st')
  end.

Definition get_state : M State := fun st => (Done st, st).
(** a step that does not touch [STATE] *)
Definition pure {A} (o : Outcome A) : M A := fun st => (o, st).
(** a library call *)
Definition call {A} (r : Exc A) : M A := pure (of_exc r).
(** [return {"ok": False, "error": e}] *)
Definition reply_error {A} (e : ToolError) : M A := pure (Failed e).
(** [raise x] *)
Definition throw {A} (x : PyExc) : M A := pure (Thrown x).

(** [STATE.last_result = r] *)
Definition set_last_result (r : option DataFrame) : M unit := fun st =>
  (Done tt, {| csv_path := csv_path st; df := df st;
               last_result := r; base_dir := base_dir st |}).
(** [STATE.csv_path = p] *)
Definition set_csv_path (p : option string) : M unit := fun st =>
  (Done tt, {| csv_path := p; df := df st;
               last_result := last_result st; base_dir := base_dir st |}).
(** [STATE.df = d] *)
Definition set_df (d : option DataFrame) : M unit := fun st =>
  (Done tt, {| csv_path := csv_path st; df := d;
               last_result := last_result st; base_dir := base_dir st |}).
(** [STATE.base_dir = b] *)
Definition set_base_dir (b : PurePath) : M unit := fun st =>
  (Done tt, {| csv_path := csv_path st; df := df st;
               last_result := last_result st; base_dir := b |}).

(** ** Helpers *)

Definition _resolve_csv_path (user_path : string) : M PurePath :=
  st ← get_state;
  p ← call (resolve_under (base_dir st) user_path);
  if negb (endswith (py_lower (path_str p)) ".csv") then
    throw (mkExc ValueError "Only .csv files are allowed.")
  else if negb (fs_exists p) || negb (fs_is_file p) then
    throw (mkExc FileNotFoundError ("CSV file not found: " ++ path_str p))
  else
    let base := base_dir st in
    if negb (is_relative_to p base) then
      throw (mkExc PermissionError
               ("Access denied. File must be under base directory: "
                ++ path_str base
                ++ ". Set CSV_MCP_BASEDIR to change the allowed root."))
    else mret p.

Definition _ensure_loaded : M DataFrame :=
  st ← get_state;
  match df st with
  | None => throw (mkExc RuntimeError "No CSV loaded. Call load_csv first.")
  | Some d => mret d
  end.

Definition _df_to_rows (d : DataFrame) (limit : Z) : list Record_ :=
  if (limit <=? 0)%Z then []
  else to_dict_records (df_head limit d).

Record Profile := mkProfile {
  row_count : nat;
  column_count : nat;
  profile_columns : list string;
  profile_dtypes : list (string * string);
  missing_by_column : list (string * nat);
}.

(** [df[c]] inside [_basic_profile]: with a repeated name [df[c]] is a
    table, which has no [dtype]. *)
Definition profile_column (d : DataFrame) (c : string) : Exc Series :=
  if bool_decide (length (List.filter (String.eqb c) (columns d)) = 1)
  then getitem d c
  else Raised (mkExc AttributeError "'DataFrame' object has no attribute 'dtype'").

(** A value does not compare with the cells of a column: text against a
    numeric column, or text and numbers against each other in a cell of an
    object column. *)
Definition incomparable (s : Series) (v : PyVal) : bool :=
  let mixed := existsb (fun x => negb (bool_decide (x = Null))
                                 && bool_decide (py_order x v = None))
                       (s_values s) in
  match v with
  | VStr _ => is_numeric_kind (s_dtype s) || mixed
  | VNum _ | VBool _ => negb (is_numeric_kind (s_dtype s)) && mixed
  | _ => false
  end.

Definition is_ordering (op : CmpOp) : bool :=
  match op with
  | OpEq | OpNe => false
  | _ => true
  end.

Definition _basic_profile (d : DataFrame) : Exc Profile :=
  dts ← exc_map (fun c => s ← profile_column d c;
                          Returned (c, dtype_name (s_dtype s))) (columns d);
  miss ← exc_map (fun c => s ← profile_column d c;
                           Returned (c, count_na s)) (columns d);
  Returned {| row_count := nrows d;
              column_count := ncols d;
              profile_columns := columns d;
              profile_dtypes := dts;
              missing_by_column := miss |}.

(** ** Results *)

Inductive Response :=
| BaseDirSet (base : string)                    (* {"ok": True, "base_dir"} *)
| BaseDir (base : string)                       (* {"base_dir"} *)
| Loaded (path : option string) (profile : Profile) (preview : list Record_)
| Schema (path : option string) (profile : Profile)
| Rows (rows : list Record_)
| Summary (summary : list Record_)
| Counts (column : string) (results : list (Scalar * Scalar))
| Selected (row_count : nat) (rows : list Record_)
| Exported (output_path : string) (rows_written : nat).

(** ** Tools *)

Definition set_base_directory (path : string) : M Response :=
  base ← call (p ← expanduser (parse_path path); fs_realpath p);
  if negb (fs_exists base) || negb (fs_is_dir base) then
    throw (mkExc FileNotFoundError ("Directory not found: " ++ path_str base))
  else
    _ ← set_base_dir base;
    st ← get_state;
    mret (BaseDirSet (path_str (base_dir st))).

Definition get_base_directory : M Response :=
  st ← get_state;
  mret (BaseDir (path_str (base_dir st))).

Definition load_csv (path : string) (delimiter : string)
    (encoding : option string) (sample_rows : Z) : M Response :=
  csv ← _resolve_csv_path path;
  let enc := match encoding with
             | Some e => if String.eqb e "" then None else Some e
             | None => None
             end in
  d ← call (pd_read_csv csv delimiter enc);
  _ ← set_csv_path (Some (path_str csv));
  _ ← set_df (Some d);
  _ ← set_last_result None;
  st ← get_state;
  profile ← call (_basic_profile d);
  mret (Loaded (csv_path st) profile (_df_to_rows d sample_rows)).

Definition get_schema : M Response :=
  d ← _ensure_loaded;
  st ← get_state;
  profile ← call (_basic_profile d);
  mret (Schema (csv_path st) profile).

Definition preview (rows_ : Z) (cols : option (list string)) : M Response :=
  d ← _ensure_loaded;
  out ← match cols with
        | Some (c :: cs) =>
            let missing := List.filter (fun c => negb (bool_decide (c ∈ columns d)))
                                       (c :: cs) in
            match missing with
            | _ :: _ => reply_error (UnknownColumns missing)
            | [] => call (getitem_list d (c :: cs))
            end
        | _ => mret d
        end;
  _ ← set_last_result (Some out);
  mret (Rows (_df_to_rows out rows_)).

Definition describe_numeric : M Response :=
  d ← _ensure_loaded;
  desc ← call (describe_number d);
  _ ← set_last_result (Some desc);
  mret (Summary (to_dict_records desc)).

(** [pd.DataFrame(result)] for the list of [{"value", "metric"}] dicts;
    an empty list gives a table without columns. *)
Definition counts_frame (value_dtype : Dtype) (normalize : bool)
    (result : list (Scalar * Scalar)) : DataFrame :=
  match result with
  | [] => {| schema := []; rows := [] |}
  | _ => {| schema := [("value", value_dtype);
                       ("metric", if normalize then Float64 else Int64)];
            rows := map (fun vm => [fst vm; snd vm]) result |}
  end.

Definition value_counts (column : string) (limit : Z) (normalize dropna : bool)
  : M Response :=
  d ← _ensure_loaded;
  if negb (bool_decide (column ∈ columns d)) then
    reply_error (UnknownColumn column)
  else
    s ← call (getitem d column);
    let vc := py_head limit (pd_value_counts s dropna normalize) in
    _ ← set_last_result (Some (counts_frame (s_dtype s) normalize vc));
    mret (Counts column vc).

(** [f.get(k)] on a descriptor *)
Definition dict_get (f : gmap string PyVal) (k : string) : PyVal :=
  default VNone (f !! k).

(** [if not col or col not in df.columns: return <error>]

    A string is looked up among the column names.  A list or an object
    that is not empty passes [not col] and then cannot be hashed by
    [Index.__contains__] ([TypeError]).  Numbers and [True] are hashable
    and are never the name of a column read from a CSV header. *)
Definition check_column (d : DataFrame) (err : PyVal -> ToolError) (col : PyVal)
  : Outcome string :=
  if negb (truthy col) then Failed (err col)
  else match col with
       | VStr c =>
           if bool_decide (c ∈ columns d) then Done c else Failed (err col)
       | VList _ | VDict _ => Thrown (mkExc TypeError "unhashable type")
       | _ => Failed (err col)
       end.

(** [bool(f.get("case_sensitive", False))] *)
Definition case_sensitive_of (f : gmap string PyVal) : bool :=
  truthy (default (VBool false) (f !! "case_sensitive")).

(** The text as the string predicates see it: as it is when the
    descriptor is case sensitive, lower-cased otherwise. *)
Definition case_fold (case_sensitive : bool) (t : string) : string :=
  if case_sensitive then t else py_lower t.

(** The body of the [for f in filters] loop of [filter_rows] up to the
    mask [m] of the descriptor. *)
Definition eval_filter (d : DataFrame) (f : gmap string PyVal) : Outcome Mask :=
  let col := dict_get f "column" in
  let op := dict_get f "op" in
  let val := dict_get f "value" in
  let case_sensitive := case_sensitive_of f in
  c ← check_column d UnknownFilterColumn col;
  series ← of_exc (getitem d c);
  match op with
  | VStr o =>
      match cmp_of_string o with
      | Some cop =>
          match series_cmp cop series val with
          | Returned m => Done m
          | Raised e => Failed (ComparisonFailed c o val e)
          end
      | None =>
          match strop_of_string o with
          | Some sop =>
              let s := map (astype_string (s_dtype series)) (s_values series) in
              let needle := py_str val in
              let s := if case_sensitive then s else map (fmap py_lower) s in
              let needle := if case_sensitive then needle else py_lower needle in
              of_exc (str_predicate sop needle s)
          | None =>
              if String.eqb o "in" then
                match val with
                | VList l =>
                    of_exc (exc_map (fun x => pd_isin (s_dtype series) x l)
                                    (s_values series))
                | _ => Failed InValueNotList
                end
              else Failed (UnsupportedOp op)
          end
      end
  | _ => Failed (UnsupportedOp op)
  end.

(** [mask = m] the first time round, then
    [(mask & m) if logic == "and" else (mask | m)]. *)
Definition combine_mask (logic : string) (mask : option Mask) (m : Mask) : option Mask :=
  match mask with
  | None => Some m
  | Some acc =>
      Some (if String.eqb logic "and" then zip_with andb acc m
            else zip_with orb acc m)
  end.

Fixpoint filter_loop (d : DataFrame) (logic : string) (mask : option Mask)
    (filters : list (gmap string PyVal)) : Outcome (option Mask) :=
  match filters with
  | [] => Done mask
  | f :: rest =>
      m ← eval_filter d f;
      filter_loop d logic (combine_mask logic mask m) rest
  end.

(** [out = df if mask is None else df[mask]] *)
Definition select_rows (d : DataFrame) (mask : option Mask) : DataFrame :=
  match mask with
  | None => d
  | Some m => getitem_mask d m
  end.

(** Row [i] of the table is among the rows a mask selects. *)
Definition row_selected (mask : option Mask) (i : nat) : bool :=
  match mask with
  | None => true
  | Some m => default false (m !! i)
  end.

Definition filter_rows (filters : list (gmap string PyVal)) (logic : string)
    (limit : Z) : M Response :=
  d ← _ensure_loaded;
  if negb (bool_decide (logic ∈ ["and"; "or"])) then reply_error BadLogic
  else
    mask ← pure (filter_loop d logic None filters);
    let out := select_rows d mask in
    _ ← set_last_result (Some out);
    mret (Selected (nrows out) (_df_to_rows out limit)).

(** [agg_map.setdefault(col, []).append(fn)] on a dict in insertion
    order. *)
Fixpoint setdefault_append (col fn : string) (m : list (string * list string))
  : list (string * list string) :=
  match m with
  | [] => [(col, [fn])]
  | (c, fns) :: m' =>
      if String.eqb c col then (c, (fns ++ [fn])%list) :: m'
      else (c, fns) :: setdefault_append col fn m'
  end.

Definition agg_functions : list string :=
  ["sum"; "mean"; "min"; "max"; "count"; "nunique"].

(** The [for a in aggregations] loop of [groupby_aggregate]. *)
Fixpoint agg_loop (d : DataFrame) (agg_map : list (string * list string))
    (aggregations : list (gmap string PyVal)) : Outcome (list (string * list string)) :=
  match aggregations with
  | [] => Done agg_map
  | a :: rest =>
      let col := dict_get a "column" in
      let fn := dict_get a "agg" in
      c ← check_column d UnknownAggColumn col;
      match fn with
      | VStr f =>
          if bool_decide (f ∈ agg_functions)
          then agg_loop d (setdefault_append c f agg_map) rest
          else Failed (UnsupportedAgg fn)
      | _ => Failed (UnsupportedAgg fn)
      end
  end.

Definition groupby_aggregate (group_columns : list string)
    (aggregations : list (gmap string PyVal)) (limit : Z) : M Response :=
  d ← _ensure_loaded;
  let missing := List.filter (fun c => negb (bool_decide (c ∈ columns d)))
                             group_columns in
  match missing with
  | _ :: _ => reply_error (UnknownGroupColumns missing)
  | [] =>
      agg_map ← pure (agg_loop d [] aggregations);
      grouped ← call (groupby_agg d group_columns false agg_map);
      let flat := flatten_columns grouped in
      grouped ← call (reset_index flat);
      _ ← set_last_result (Some grouped);
      mret (Selected (nrows grouped) (_df_to_rows grouped limit))
  end.

Definition export_last_result (output_path : string) : M Response :=
  st ← get_state;
  match last_result st with
  | None => reply_error NoLastResult
  | Some result =>
      out ← call (resolve_under (base_dir st) output_path);
      let base := base_dir st in
      if negb (is_relative_to out base) then
        reply_error (OutputAccessDenied base)
      else
        _ ← call (fs_mkdir (parent out));
        _ ← call (pd_to_csv result out);
        mret (Exported (path_str out) (nrows result))
  end.

(** ** The call interface: an operation name with its arguments *)

Inductive Request :=
| SetBaseDirectory (path : string)
| GetBaseDirectory
| LoadCsv (path delimiter : string) (encoding : option string) (sample_rows : Z)
| GetSchema
| Preview (rows_ : Z) (cols : option (list string))
| DescribeNumeric
| ValueCounts (column : string) (limit : Z) (normalize dropna : bool)
| FilterRows (filters : list (gmap string PyVal)) (logic : string) (limit : Z)
| GroupbyAggregate (group_columns : list string)
    (aggregations : list (gmap string PyVal)) (limit : Z)
| ExportLastResult (output_path : string).

Definition handle (r : Request) : M Response :=
  match r with
  | SetBaseDirectory p => set_base_directory p
  | GetBaseDirectory => get_base_directory
  | LoadCsv p sep enc n => load_csv p sep enc n
  | GetSchema => get_schema
  | Preview n cs => preview n cs
  | DescribeNumeric => describe_numeric
  | ValueCounts c n norm dn => value_counts c n norm dn
  | FilterRows fs logic n => filter_rows fs logic n
  | GroupbyAggregate gs aggs n => groupby_aggregate gs aggs n
  | ExportLastResult p => export_last_result p
  end.

(** The call did not succeed: it returned an error result or raised. *)
Definition is_error {A} (o : Outcome A) : bool :=
  match o with
  | Done _ => false
  | _ => true
  end.

(** ** Vocabulary of the properties *)

(** The error [_resolve_csv_path] ends in, from the resolved path: the
    three checks in the order of the source. *)
Definition csv_path_verdict (base p : PurePath) : option ExcClass :=
  if negb (endswith (py_lower (path_str p)) ".csv") then Some ValueError
  else if negb (fs_exists p) || negb (fs_is_file p) then Some FileNotFoundError
  else if negb (is_relative_to p base) then Some PermissionError
  else None.

(** [m1] selects no row that [m2] does not. *)
Definition mask_le (m1 m2 : Mask) : Prop :=
  Forall2 (fun a b : bool => a = true -> b = true) m1 m2.

(** What one cell contributes to the mask of a string predicate. *)
Definition str_cell_spec (sop : StrOp) (needle : string) (c : option string)
    (b : bool) : Prop :=
  match c with
  | None => b = false
  | Some t =>
      match sop with
      | Contains => exists search, re_compile needle = Some search /\ b = search t
      | Startswith => b = startswith t needle
      | Endswith => b = endswith t needle
      end
  end.

(** A descriptor asks for function [snd p] of column [fst p]. *)
Definition requests (a : gmap string PyVal) (p : string * string) : Prop :=
  dict_get a "column" = VStr (fst p) /\ dict_get a "agg" = VStr (snd p).

(** A computation that never assigns to [STATE]. *)
Definition read_only {A} (m : M A) : Prop := forall st, snd (m st) = st.

(** A computation whose failures leave [STATE] as it was. *)
Definition error_safe {A} (m : M A) : Prop :=
  forall st, is_error (fst (m st)) = true -> snd (m st) = st.

(** A computation that always returns. *)
Definition total {A} (m : M A) : Prop := forall st, is_error (fst (m st)) = false.

(** ** Start-up and sequences of calls *)

(** [_State._default_base_dir]; [env_dir] is [os.getenv("CSV_MCP_BASEDIR")]
    and [Path.home()] is the expansion of ["~"]. *)
Definition _default_base_dir (env_dir : option string) : Exc PurePath :=
  let home := p ← expanduser (parse_path "~"); fs_realpath p in
  match env_dir with
  | Some e =>
      if negb (String.eqb e "") then p ← expanduser (parse_path e); fs_realpath p
      else home
  | None => home
  end.

(** [STATE = _State()] *)
Definition initial_state (env_dir : option string) : Exc State :=
  base ← _default_base_dir env_dir;
  Returned {| csv_path := None; df := None; last_result := None; base_dir := base |}.

(** The state after a sequence of calls, served one at a time. *)
Definition run_requests (rs : list Request) (st : State) : State :=
  fold_left (fun st r => snd (handle r st)) rs st.

(** What holds of [STATE] from start-up on: the path and the table are set
    together, and the column names of the table are distinct. *)
Definition well_formed (st : State) : Prop :=
  (csv_path st = None <-> df st = None)
  /\ forall d, df st = Some d -> NoDup (columns d).

(** ** Vocabulary of the further properties *)

(** The tools that begin with [df = _ensure_loaded()]. *)
Definition needs_table (r : Request) : bool :=
  match r with
  | GetSchema | Preview _ _ | DescribeNumeric | ValueCounts _ _ _ _
  | FilterRows _ _ _ | GroupbyAggregate _ _ _ => true
  | SetBaseDirectory _ | GetBaseDirectory | LoadCsv _ _ _ _
  | ExportLastResult _ => false
  end.

Definition not_loaded : PyExc :=
  mkExc RuntimeError "No CSV loaded. Call load_csv first.".

Definition is_set_base_directory (r : Request) : bool :=
  match r with
  | SetBaseDirectory _ => true
  | _ => false
  end.

Definition is_load_csv (r : Request) : bool :=
  match r with
  | LoadCsv _ _ _ _ => true
  | _ => false
  end.

Definition is_export (r : Request) : bool :=
  match r with
  | ExportLastResult _ => true
  | _ => false
  end.

(** The tools with an assignment to [STATE.last_result] in their body. *)
Definition assigns_last_result (r : Request) : bool :=
  match r with
  | LoadCsv _ _ _ _ | Preview _ _ | DescribeNumeric | ValueCounts _ _ _ _
  | FilterRows _ _ _ | GroupbyAggregate _ _ _ => true
  | SetBaseDirectory _ | GetBaseDirectory | GetSchema | ExportLastResult _ => false
  end.

(** [mask.sum()] *)
Definition count_true (m : Mask) : nat := length (List.filter (fun b : bool => b) m).

(** The (column, function) pair of a well-formed aggregation descriptor. *)
Definition requested_pair (a : gmap string PyVal) : option (string * string) :=
  match dict_get a "column", dict_get a "agg" with
  | VStr c, VStr f => Some (c, f)
  | _, _ => None
  end.

Definition requested_pairs (aggregations : list (gmap string PyVal))
  : list (string * string) :=
  omap requested_pair aggregations.

(** The pairs of one column, in the order of the list. *)
Definition pairs_of (c : string) (ps : list (string * string)) : list (string * string) :=
  List.filter (fun p => String.eqb (fst p) c) ps.

(** The distinct elements of a list, in order of first appearance. *)
Definition first_seen (l : list string) : list string :=
  fold_left (fun acc c => if bool_decide (c ∈ acc) then acc else (acc ++ [c])%list) l [].

(** The pairs grouped by column: the columns in order of first request,
    each with its functions in the order requested. *)
Definition grouped_by_column (ps : list (string * string)) : list (string * list string) :=
  map (fun c => (c, map snd (pairs_of c ps))) (first_seen (map fst ps)).

(** [fn not in ["sum", "mean", "min", "max", "count", "nunique"]] *)
Definition unsupported_agg (fn : PyVal) : bool :=
  match fn with
  | VStr f => negb (bool_decide (f ∈ agg_functions))
  | _ => true
  end.

(** [op] names none of the ten operators of [filter_rows]. *)
Definition unknown_op (op : PyVal) : bool :=
  match op with
  | VStr o =>
      match cmp_of_string o, strop_of_string o with
      | None, None => negb (String.eqb o "in")
      | _, _ => false
      end
  | _ => true
  end.

(** [col] is turned away by [not col or col not in df.columns]: it is
    absent or falsy, a name that is not a column, or a number. *)
Definition unknown_column (d : DataFrame) (col : PyVal) : bool :=
  negb (truthy col)
  || match col with
     | VStr c => negb (bool_decide (c ∈ columns d))
     | VList _ | VDict _ => false
     | _ => true
     end.
End Tools.

(* ================================================================== *)
(** * The client's request counter ([load_csv.py]) *)

(** [_next_id()]: returns the global [_request_id] and increments it. *)
Definition _next_id (_request_id : Z) : Z * Z :=
  let val := _request_id in
  (val, (_request_id + 1)%Z).

(** [[_next_id() for _ in range(n)]] *)
Fixpoint next_ids (n : nat) (_request_id : Z) : list Z * Z :=
  match n with
  | O => ([], _request_id)
  | S n' =>
      let '(val, s) := _next_id _request_id in
      let '(vals, s') := next_ids n' s in
      (val :: vals, s')
  end.

Arguments Done {_ _} a.
Arguments Failed {_ _} e.
Arguments Thrown {_ _} x.

(* ================================================================== *)
(** * A sample world

    Integer-valued cells, a disk without symbolic links, and stand-ins for
    the library kernels that are exact on the integers.  It is the world in
    which the scenarios below are run. *)

Module Sample.

Definition ZNumber : Number :=
  {| num := Z;
     num_eq_dec := Z.eq_dec;
     num_ltb := Z.ltb;
     num_of_bool := fun b : bool => if b then 1%Z else 0%Z |}.

(** ** The disk *)

Definition directories : list PurePath :=
  [ mkPath "/" [];
    mkPath "/" ["srv"];
    mkPath "/" ["srv"; "data"];
    mkPath "/" ["srv"; "other"];
    mkPath "/" ["home"];
    mkPath "/" ["home"; "alice"];
    mkPath "/" ["etc"] ].

Definition files : list PurePath :=
  [ mkPath "/" ["srv"; "data"; "tickets.csv"];
    mkPath "/" ["srv"; "data"; "notes.txt"];
    mkPath "/" ["srv"; "other"; "secret.csv"];
    mkPath "/" ["etc"; "passwd"] ].

Definition path_eqb (p q : PurePath) : bool :=
  String.eqb (anchor p) (anchor q)
  && bool_decide (tail p = tail q).

(** [posixpath.normpath] on the components: [".."] removes the component
    before it and is dropped at the root. *)
Fixpoint normalize (stack parts : list string) : list string :=
  match parts with
  | [] => rev stack
  | p :: ps =>
      if String.eqb p ".." then normalize (List.tl stack) ps
      else normalize (p :: stack) ps
  end.

(** Without symbolic links [resolve()] is [normpath]; a relative path is
    taken from the working directory [/srv]. *)
Definition realpath (p : PurePath) : Exc PurePath :=
  if is_absolute p
  then Returned (mkPath (anchor p) (normalize [] (tail p)))
  else Returned (mkPath "/" (normalize [] ("srv" :: tail p))).

Definition disk : FileSystem :=
  {| fs_home := fun user => if String.eqb user "" then Some "/home/alice" else None;
     fs_realpath := realpath;
     fs_exists := fun p => existsb (path_eqb p) (directories ++ files);
     fs_is_file := fun p => existsb (path_eqb p) files;
     fs_is_dir := fun p => existsb (path_eqb p) directories;
     fs_mkdir := fun p =>
       if existsb (path_eqb p) files
       then Raised (mkExc OSError "File exists")
       else Returned tt |}.

(** ** Text *)

Definition ascii_lower (c : ascii) : ascii :=
  let n := nat_of_ascii c in
  if (65 <=? n)%nat && (n <=? 90)%nat then ascii_of_nat (n + 32) else c.

Fixpoint lower (s : string) : string :=
  match s with
  | EmptyString => EmptyString
  | String c s' => String (ascii_lower c) (lower s')
  end.

Fixpoint contains (needle s : string) : bool :=
  if String.prefix needle s then true
  else match s with
       | EmptyString => false
       | String _ s' => contains needle s'
       end.

Definition is_special (c : ascii) : bool :=
  existsb (Ascii.eqb c) (list_ascii_of_string "\^$.|?*+()[]{}").

(** A pattern without special characters searches for itself; the sample
    [re] knows no other pattern. *)
Definition compile (pat : string) : option (string -> bool) :=
  if existsb is_special (list_ascii_of_string pat) then None
  else Some (contains pat).

(** ** Tables *)

Definition int (z : Z) : @Scalar ZNumber := @Num ZNumber z.

Definition tickets : @DataFrame ZNumber :=
  {| schema := [("Id", Int64); ("Status", ObjectT); ("Owner", ObjectT)];
     rows := [ [int 1; Str "Open"; Str "Ann"];
               [int 2; Str "Closed"; Null];
               [int 3; Str "Open"; Null] ] |}.

Definition notes : @DataFrame ZNumber :=
  {| schema := [("Title", ObjectT); ("Body", ObjectT)];
     rows := [ [Str "a"; Str "first"]; [Str "b"; Null] ] |}.

Definition read_csv (p : PurePath) (sep : string) (enc : option string)
  : Exc (@DataFrame ZNumber) :=
  if path_eqb p (mkPath "/" ["srv"; "data"; "tickets.csv"]) then Returned tickets
  else Raised (mkExc FileNotFoundError (path_str p)).

Definition non_null (xs : list (@Scalar ZNumber)) : list (@Scalar ZNumber) :=
  List.filter (fun x => negb (bool_decide (x = Null))) xs.

Definition numbers (xs : list (@Scalar ZNumber)) : list Z :=
  omap (fun x : @Scalar ZNumber =>
          match x return option Z with
          | Num n => Some n
          | Bool b => Some (if b then 1 else 0)%Z
          | _ => None
          end) xs.

Definition size (xs : list (@Scalar ZNumber)) : @Scalar ZNumber :=
  int (Z.of_nat (length xs)).

(** The six aggregates on integer cells; the mean is given where it is
    an integer. *)
Definition agg (fn : string) (d : Dtype) (xs : list (@Scalar ZNumber))
  : Exc (@Scalar ZNumber) :=
  let ns := numbers xs in
  if String.eqb fn "count" then Returned (size (non_null xs))
  else if String.eqb fn "nunique" then Returned (size (remove_dups (non_null xs)))
  else if negb (is_numeric_kind d) then
    Raised (mkExc TypeError "agg function failed")
  else if String.eqb fn "sum" then Returned (int (foldr Z.add 0%Z ns))
  else match ns with
       | [] => Returned Null
       | n :: ns' =>
           if String.eqb fn "min" then Returned (int (foldr Z.min n ns'))
           else if String.eqb fn "max" then Returned (int (foldr Z.max n ns'))
           else if (foldr Z.add 0%Z ns mod Z.of_nat (length ns) =? 0)%Z
           then Returned (int (foldr Z.add 0%Z ns / Z.of_nat (length ns)))
           else Raised (mkExc ValueError "mean is not an integer")
       end.

Definition agg_dtype (fn : string) (d : Dtype) : Dtype :=
  if String.eqb fn "count" || String.eqb fn "nunique" then Int64
  else if String.eqb fn "mean" then Float64
  else d.

Definition more_frequent (occ : @Scalar ZNumber -> nat)
    (a b : @Scalar ZNumber * @Scalar ZNumber) : Prop :=
  (occ (fst b) <= occ (fst a))%nat.

#[local] Instance more_frequent_dec occ a b : Decision (more_frequent occ a b).
Proof. unfold more_frequent. apply _. Defined.

(** Distinct values with their number of occurrences, most frequent
    first.  Proportions are not integers: the sample reports counts. *)
Definition counts (s : @Series ZNumber) (dropna normalize : bool)
  : list (@Scalar ZNumber * @Scalar ZNumber) :=
  let xs := if dropna then non_null (s_values s) else s_values s in
  let occurrences x := length (List.filter (fun y => bool_decide (y = x)) xs) in
  merge_sort (more_frequent occurrences)
    (map (fun x => (x, int (Z.of_nat (occurrences x)))) (remove_dups xs)).

Definition read_csv_unique p sep enc d :
  read_csv p sep enc = Returned d -> NoDup (columns d).
Proof.
  unfold read_csv. destruct (path_eqb _ _); [|discriminate].
  intros [= <-]. apply (bool_decide_unpack _). vm_compute. reflexivity.
Qed.

Definition pandas : @Library ZNumber :=
  {| py_lower := lower;
     py_str_num := fun n : @num ZNumber => pretty (n : Z);
     py_str_container := fun _ => "[...]";
     re_compile := compile;
     pd_str_num := fun _ (n : @num ZNumber) => pretty (n : Z);
     pd_cmp_other := fun _ _ _ _ => Raised (mkExc TypeError "unsupported comparison");
     pd_isin := fun _ x l =>
       Returned (existsb (fun v => bool_decide (py_order x v = Some Eq)) l);
     pd_describe_1d := fun _ xs => size (non_null xs) :: repeat Null 7;
     pd_value_counts := counts;
     pd_agg := agg;
     pd_agg_dtype := agg_dtype;
     pd_read_csv := read_csv;
     pd_read_csv_unique := read_csv_unique;
     pd_to_csv := fun _ _ => Returned tt |}.

(** [{"column": c, "op": o, "value": v, "case_sensitive": cs}] *)
Definition descriptor (c o : string) (v : @PyVal ZNumber) (cs : bool)
  : gmap string (@PyVal ZNumber) :=
  {[ "column" := VStr c; "op" := VStr o; "value" := v;
     "case_sensitive" := VBool cs ]}.

(** [{"column": c, "agg": fn}] *)
Definition aggregation (c fn : string) : gmap string (@PyVal ZNumber) :=
  {[ "column" := VStr c; "agg" := VStr fn ]}.

(** A server started with [CSV_MCP_BASEDIR=/srv/data]. *)
Definition fresh : @State ZNumber :=
  {| csv_path := None; df := None; last_result := None;
     base_dir := mkPath "/" ["srv"; "data"] |}.

Definition loaded (d : @DataFrame ZNumber) : @State ZNumber :=
  {| csv_path := Some "/srv/data/tickets.csv"; df := Some d;
     last_result := None; base_dir := mkPath "/" ["srv"; "data"] |}.

(** The rows [rs] of [tickets], and the state once they are the last
    result. *)
Definition keep (rs : list (list (@Scalar ZNumber))) : @DataFrame ZNumber :=
  {| schema := schema tickets; rows := rs |}.

Definition with_result (r : @DataFrame ZNumber) : @State ZNumber :=
  {| csv_path := Some "/srv/data/tickets.csv"; df := Some tickets;
     last_result := Some r; base_dir := mkPath "/" ["srv"; "data"] |}.

Definition ticket1 : list (@Scalar ZNumber) := [int 1; Str "Open"; Str "Ann"].
Definition ticket2 : list (@Scalar ZNumber) := [int 2; Str "Closed"; Null].
Definition ticket3 : list (@Scalar ZNumber) := [int 3; Str "Open"; Null].

(** [tickets] grouped by [Owner], with the count and the maximum of
    [Id]. *)
Definition by_owner : @DataFrame ZNumber :=
  {| schema := [("Owner", ObjectT); ("Id_count", Int64); ("Id_max", Int64)];
     rows := [ [Str "Ann"; int 1; int 1]; [Null; int 2; int 3] ] |}.

(** [tickets] grouped by [Owner], with the sum of [Id] asked for twice. *)
Definition by_owner_sum_twice : @DataFrame ZNumber :=
  {| schema := [("Owner", ObjectT); ("Id_sum", Int64); ("Id_sum", Int64)];
     rows := [ [Str "Ann"; int 1; int 1]; [Null; int 5; int 5] ] |}.

Definition status_open := descriptor "Status" "==" (VStr "Open") false.
Definition owner_has_an := descriptor "Owner" "contains" (VStr "AN") false.
Definition owner_starts_an := descriptor "Owner" "startswith" (VStr "AN") false.
Definition id_equals_text := descriptor "Id" "==" (VStr "Open") false.
Definition id_above_text := descriptor "Id" ">" (VStr "Open") false.

Definition owner_not_ann := descriptor "Owner" "!=" (VStr "Ann") false.
Definition status_like := descriptor "Status" "like" (VStr "Op") false.

Definition tickets_profile : @Profile :=
  {| row_count := 3;
     column_count := 3;
     profile_columns := ["Id"; "Status"; "Owner"];
     profile_dtypes := [("Id", "int64"); ("Status", "object"); ("Owner", "object")];
     missing_by_column := [("Id", 0); ("Status", 0); ("Owner", 2)] |}.

(** [Owner] and [Id] of [tickets], in that order. *)
Definition owners_and_ids : @DataFrame ZNumber :=
  {| schema := [("Owner", ObjectT); ("Id", Int64)];
     rows := [ [Str "Ann"; int 1]; [Null; int 2]; [Null; int 3] ] |}.

(** Three calls: a load, a filter, a change of base directory. *)
Definition session : list (@Request ZNumber) :=
  [ LoadCsv "tickets.csv" "," None 2;
    FilterRows [status_open] "and" 1;
    SetBaseDirectory "/srv/other" ].

End Sample.

(* ================================================================== *)
(** * Properties *)

Section Properties.
Context `{Library} `{FileSystem}.

(** ** Reasoning about statement sequences *)

Lemma read_only_safe {A} (m : M A) : read_only m -> error_safe m.
Proof. intros Hm st _. apply Hm. Qed.

Lemma total_safe {A} (m : M A) : total m -> error_safe m.
Proof. intros Hm st He. rewrite Hm in He. discriminate. Qed.

Lemma read_only_pure {A} (o : Outcome A) : read_only (pure o).
Proof. intros st. reflexivity. Qed.

Lemma read_only_get : read_only get_state.
Proof. intros st. reflexivity. Qed.

Lemma read_only_ret {A} (a : A) : read_only (mret a : M A).
Proof. intros st. reflexivity. Qed.

Lemma read_only_bind {A B} (m : M A) (k : A -> M B) :
  read_only m -> (forall a, read_only (k a)) -> read_only (m ≫= k).
Proof.
  intros Hm Hk st. unfold mbind, M_bind.
  specialize (Hm st). destruct (m st) as [[a|e|x] st1]; simpl in *; subst; auto.
  apply Hk.
Qed.

Lemma safe_bind {A B} (m : M A) (k : A -> M B) :
  read_only m -> (forall a, error_safe (k a)) -> error_safe (m ≫= k).
Proof.
  intros Hm Hk st. unfold mbind, M_bind.
  specialize (Hm st). destruct (m st) as [[a|e|x] st1]; simpl in *; subst; auto.
  apply Hk.
Qed.

Lemma total_ret {A} (a : A) : total (mret a : M A).
Proof. intros st. reflexivity. Qed.

Lemma total_bind {A B} (m : M A) (k : A -> M B) :
  total m -> (forall a, total (k a)) -> total (m ≫= k).
Proof.
  intros Hm Hk st. unfold mbind, M_bind.
  specialize (Hm st). destruct (m st) as [[a|e|x] st1]; simpl in *;
    try discriminate.
  apply Hk.
Qed.

Lemma total_set_last_result r : total (set_last_result r).
Proof. intros st. reflexivity. Qed.

Lemma total_set_csv_path p : total (set_csv_path p).
Proof. intros st. reflexivity. Qed.

Lemma total_set_df d : total (set_df d).
Proof. intros st. reflexivity. Qed.

Lemma total_set_base_dir b : total (set_base_dir b).
Proof. intros st. reflexivity. Qed.

Lemma total_get : total get_state.
Proof. intros st. reflexivity. Qed.

Lemma read_only_ensure_loaded : read_only _ensure_loaded.
Proof.
  apply read_only_bind; [apply read_only_get|].
  intros st. destruct (df st); [apply read_only_ret | apply read_only_pure].
Qed.

Lemma read_only_resolve_csv_path p : read_only (_resolve_csv_path p).
Proof.
  apply read_only_bind; [apply read_only_get|]. intros st.
  apply read_only_bind; [apply read_only_pure|]. intros q.
  repeat (match goal with |- read_only (if ?b then _ else _) => destruct b end);
    try apply read_only_pure.
  cbv zeta.
  repeat (match goal with |- read_only (if ?b then _ else _) => destruct b end);
    try apply read_only_pure; apply read_only_ret.
Qed.

Ltac read_only_step :=
  first
    [ apply read_only_ensure_loaded
    | apply read_only_resolve_csv_path
    | apply read_only_get
    | apply read_only_ret
    | apply read_only_pure
    | apply read_only_bind; [|intros ?]
    | match goal with
      | |- read_only (if ?b then _ else _) => destruct b
      | |- read_only (match ?x with _ => _ end) => destruct x
      | |- read_only (let _ := _ in _) => cbv zeta
      end ].

Ltac total_step :=
  first
    [ apply total_ret
    | apply total_get
    | apply total_set_last_result
    | apply total_set_csv_path
    | apply total_set_df
    | apply total_set_base_dir
    | apply total_bind; [|intros ?] ].

Lemma safe_call_bind {A B} (r : Exc A) (k : A -> M B) :
  (forall a, r = Returned a -> error_safe (k a)) -> error_safe (call r ≫= k).
Proof.
  intros Hk st. unfold mbind, M_bind, call, pure.
  destruct r as [a|e]; simpl; auto. apply Hk. reflexivity.
Qed.

(** ** The post-assignment steps of [load_csv] cannot fail *)

Lemma exc_map_returns {A B} (f : A -> Exc B) (xs : list A) :
  (forall x, x ∈ xs -> exists y, f x = Returned y) ->
  exists ys, exc_map f xs = Returned ys.
Proof.
  induction xs as [|x xs IH]; intros Hf; simpl.
  - eexists; reflexivity.
  - destruct (Hf x) as [y ->]; [left|].
    destruct IH as [ys ->]; [intros z Hz; apply Hf; right; exact Hz|].
    eexists; reflexivity.
Qed.

Lemma index_of_elem (c : string) (cs : list string) :
  c ∈ cs -> exists i, index_of c cs = Some i.
Proof.
  induction cs as [|c' cs IH]; intros Hin.
  - inversion Hin.
  - simpl. destruct (String.eqb c' c) eqn:E; [eexists; reflexivity|].
    apply String.eqb_neq in E.
    inversion Hin; subst; [congruence|].
    destruct IH as [i ->]; [assumption|]. eexists; reflexivity.
Qed.

Lemma filter_eqb_absent (c : string) (cs : list string) :
  c ∉ cs -> List.filter (String.eqb c) cs = [].
Proof.
  induction cs as [|c' cs IH]; intros Hnin; simpl; [reflexivity|].
  destruct (String.eqb c c') eqn:E.
  - apply String.eqb_eq in E. subst. exfalso. apply Hnin. left.
  - apply IH. intros Hin. apply Hnin. right. exact Hin.
Qed.

Lemma filter_eqb_once (c : string) (cs : list string) :
  NoDup cs -> c ∈ cs -> length (List.filter (String.eqb c) cs) = 1.
Proof.
  induction 1 as [|c' cs Hnin Hnd IH]; intros Hin.
  - inversion Hin.
  - simpl. destruct (String.eqb c c') eqn:E.
    + apply String.eqb_eq in E. subst.
      rewrite filter_eqb_absent by assumption. reflexivity.
    + apply String.eqb_neq in E.
      inversion Hin; subst; [congruence|]. auto.
Qed.

Lemma getitem_returns (d : DataFrame) (c : string) :
  c ∈ columns d -> exists s, getitem d c = Returned s.
Proof.
  intros Hin. unfold getitem.
  destruct (index_of_elem c (columns d) Hin) as [i ->]. eexists; reflexivity.
Qed.

Lemma profile_column_returns (d : DataFrame) (c : string) :
  NoDup (columns d) -> c ∈ columns d -> exists s, profile_column d c = Returned s.
Proof.
  intros Hnd Hin. unfold profile_column.
  rewrite filter_eqb_once by assumption.
  rewrite bool_decide_eq_true_2 by reflexivity.
  apply getitem_returns. exact Hin.
Qed.

Lemma basic_profile_returns (d : DataFrame) :
  NoDup (columns d) -> exists p, _basic_profile d = Returned p.
Proof.
  intros Hnd. unfold _basic_profile.
  destruct (exc_map_returns
              (fun c => s ← profile_column d c; Returned (c, dtype_name (s_dtype s)))
              (columns d)) as [dts ->].
  { intros c Hc. destruct (profile_column_returns d c Hnd Hc) as [s ->].
    eexists; reflexivity. }
  destruct (exc_map_returns
              (fun c => s ← profile_column d c; Returned (c, count_na s))
              (columns d)) as [miss ->].
  { intros c Hc. destruct (profile_column_returns d c Hnd Hc) as [s ->].
    eexists; reflexivity. }
  eexists; reflexivity.
Qed.

(** ** Each tool fails without a trace *)

Lemma safe_set_base_directory p : error_safe (set_base_directory p).
Proof.
  unfold set_base_directory.
  apply safe_bind; [apply read_only_pure|]. intros base.
  destruct (negb (fs_exists base) || negb (fs_is_dir base)).
  - apply read_only_safe, read_only_pure.
  - apply total_safe. repeat total_step.
Qed.

Lemma safe_get_base_directory : error_safe get_base_directory.
Proof. apply read_only_safe. unfold get_base_directory. repeat read_only_step. Qed.

Lemma safe_load_csv p sep enc n : error_safe (load_csv p sep enc n).
Proof.
  unfold load_csv.
  apply safe_bind; [apply read_only_resolve_csv_path|]. intros csv. cbv zeta.
  apply safe_call_bind. intros d Hd.
  apply pd_read_csv_unique in Hd.
  destruct (basic_profile_returns d Hd) as [prof Hprof].
  apply total_safe. rewrite Hprof.
  repeat total_step.
Qed.

Lemma safe_get_schema : error_safe get_schema.
Proof. apply read_only_safe. unfold get_schema. repeat read_only_step. Qed.

Lemma safe_preview n cs : error_safe (preview n cs).
Proof.
  unfold preview.
  apply safe_bind; [apply read_only_ensure_loaded|]. intros d.
  apply safe_bind.
  - repeat read_only_step.
  - intros out. apply total_safe. repeat total_step.
Qed.

Lemma safe_describe_numeric : error_safe describe_numeric.
Proof.
  unfold describe_numeric.
  apply safe_bind; [apply read_only_ensure_loaded|]. intros d.
  apply safe_bind; [apply read_only_pure|]. intros desc.
  apply total_safe. repeat total_step.
Qed.

Lemma safe_value_counts c n norm dn : error_safe (value_counts c n norm dn).
Proof.
  unfold value_counts.
  apply safe_bind; [apply read_only_ensure_loaded|]. intros d.
  destruct (negb (bool_decide (c ∈ columns d))).
  - apply read_only_safe, read_only_pure.
  - apply safe_bind; [apply read_only_pure|]. intros s. cbv zeta.
    apply total_safe. repeat total_step.
Qed.

Lemma safe_filter_rows fs logic n : error_safe (filter_rows fs logic n).
Proof.
  unfold filter_rows.
  apply safe_bind; [apply read_only_ensure_loaded|]. intros d.
  destruct (negb (bool_decide (logic ∈ ["and"; "or"]))).
  - apply read_only_safe, read_only_pure.
  - apply safe_bind; [apply read_only_pure|]. intros mask. cbv zeta.
    apply total_safe. repeat total_step.
Qed.

Lemma safe_groupby_aggregate gs aggs n : error_safe (groupby_aggregate gs aggs n).
Proof.
  unfold groupby_aggregate.
  apply safe_bind; [apply read_only_ensure_loaded|]. intros d. cbv zeta.
  destruct (List.filter _ gs).
  - apply safe_bind; [apply read_only_pure|]. intros agg_map.
    apply safe_bind; [apply read_only_pure|]. intros grouped.
    apply safe_bind; [apply read_only_pure|]. intros flat.
    apply total_safe. repeat total_step.
  - apply read_only_safe, read_only_pure.
Qed.

Lemma safe_export_last_result p : error_safe (export_last_result p).
Proof. apply read_only_safe. unfold export_last_result. repeat read_only_step. Qed.

(** C2.  Whatever the operation and its arguments, a call that ends in an
    error result or in an exception leaves [csv_path], [df],
    [last_result] and [base_dir] exactly as they were. *)
Theorem error_leaves_state_unchanged (r : Request) (st : State) :
  is_error (fst (handle r st)) = true -> snd (handle r st) = st.
Proof.
  revert st. change (error_safe (handle r)).
  destruct r; simpl.
  - apply safe_set_base_directory.
  - apply safe_get_base_directory.
  - apply safe_load_csv.
  - apply safe_get_schema.
  - apply safe_preview.
  - apply safe_describe_numeric.
  - apply safe_value_counts.
  - apply safe_filter_rows.
  - apply safe_groupby_aggregate.
  - apply safe_export_last_result.
Qed.

(** ** Running a tool by hand *)

Lemma run_bind_done {A B} (m : M A) (k : A -> M B) st a st' :
  m st = (Done a, st') -> (m ≫= k) st = k a st'.
Proof. intros Hm. unfold mbind, M_bind. rewrite Hm. reflexivity. Qed.

Lemma run_bind_failed {A B} (m : M A) (k : A -> M B) st e st' :
  m st = (Failed e, st') -> (m ≫= k) st = (Failed e, st').
Proof. intros Hm. unfold mbind, M_bind. rewrite Hm. reflexivity. Qed.

Lemma run_bind_thrown {A B} (m : M A) (k : A -> M B) st x st' :
  m st = (Thrown x, st') -> (m ≫= k) st = (Thrown x, st').
Proof. intros Hm. unfold mbind, M_bind. rewrite Hm. reflexivity. Qed.

Lemma run_ensure_loaded st d : df st = Some d -> _ensure_loaded st = (Done d, st).
Proof.
  intros Hd. unfold _ensure_loaded.
  rewrite (run_bind_done _ _ st st st) by reflexivity. rewrite Hd. reflexivity.
Qed.

(** ** Path resolution (C1, C10) *)

Lemma run_resolve_csv_path st user_path p :
  resolve_under (base_dir st) user_path = Returned p ->
  match csv_path_verdict (base_dir st) p with
  | Some cls => exists x, _resolve_csv_path user_path st = (Thrown x, st)
                          /\ exc_class x = cls
  | None => _resolve_csv_path user_path st = (Done p, st)
  end.
Proof.
  intros Hp. unfold _resolve_csv_path, csv_path_verdict.
  rewrite (run_bind_done _ _ st st st) by reflexivity.
  rewrite (run_bind_done _ _ st p st) by (unfold call, pure; rewrite Hp; reflexivity).
  destruct (negb (endswith _ _)); [eexists; split; reflexivity|].
  destruct (negb (fs_exists p) || negb (fs_is_file p)); [eexists; split; reflexivity|].
  cbv zeta.
  destruct (negb (is_relative_to p (base_dir st))); [eexists; split; reflexivity|].
  reflexivity.
Qed.

(** C1, as the code has it.  A path that resolves outside the sandbox root
    is never accepted and the state is left alone, but the error is
    [PermissionError] (AccessDenied) only when the resolved path ends in
    [.csv] and names an existing regular file: a wrong extension is
    reported first, as [ValueError] (InvalidPath), and a missing file
    second, as [FileNotFoundError] (NotFound). *)
Theorem resolve_outside_root_fails (st : State) (user_path : string) (p : PurePath) :
  resolve_under (base_dir st) user_path = Returned p ->
  is_relative_to p (base_dir st) = false ->
  exists x,
    _resolve_csv_path user_path st = (Thrown x, st)
    /\ exc_class x =
         (if negb (endswith (py_lower (path_str p)) ".csv") then ValueError
          else if negb (fs_exists p) || negb (fs_is_file p) then FileNotFoundError
          else PermissionError).
Proof.
  intros Hp Hout. pose proof (run_resolve_csv_path st user_path p Hp) as Hrun.
  unfold csv_path_verdict in Hrun. rewrite Hout in Hrun. simpl in Hrun.
  destruct (negb (endswith _ _)); [exact Hrun|].
  destruct (negb (fs_exists p) || negb (fs_is_file p)); exact Hrun.
Qed.

(** C10.  [export_last_result] puts the output path through the
    containment check and nothing else: once the path resolves under the
    base directory the call goes on to create the parent directories and
    to write, whatever the suffix, and its result is that of the two
    library calls.  [load_csv] turns away, with "Only .csv files are
    allowed.", every path whose resolved form does not end in [.csv] once
    lower-cased. *)
Theorem export_checks_containment_only (st : State) (output_path : string)
    (result : DataFrame) (out : PurePath) :
  last_result st = Some result ->
  resolve_under (base_dir st) output_path = Returned out ->
  is_relative_to out (base_dir st) = true ->
  export_last_result output_path st =
    (of_exc (_ ← fs_mkdir (parent out);
             _ ← pd_to_csv result out;
             Returned (Exported (path_str out) (nrows result))), st)
  /\ (forall path sep enc n p,
        resolve_under (base_dir st) path = Returned p ->
        endswith (py_lower (path_str p)) ".csv" = false ->
        load_csv path sep enc n st =
          (Thrown (mkExc ValueError "Only .csv files are allowed."), st)).
Proof.
  intros Hres Hout Hin. split.
  - unfold export_last_result.
    rewrite (run_bind_done _ _ st st st) by reflexivity.
    rewrite Hres.
    rewrite (run_bind_done _ _ st out st)
      by (unfold call, pure; rewrite Hout; reflexivity).
    cbv zeta. rewrite Hin. simpl.
    unfold mbind, M_bind, call, pure, mret, M_ret.
    destruct (fs_mkdir (parent out)) as [[]|e]; simpl; [|reflexivity].
    destruct (pd_to_csv result out) as [[]|e]; reflexivity.
  - intros path sep enc n p Hp Hsuffix. unfold load_csv.
    apply run_bind_thrown.
    unfold _resolve_csv_path.
    rewrite (run_bind_done _ _ st st st) by reflexivity.
    rewrite (run_bind_done _ _ st p st)
      by (unfold call, pure; rewrite Hp; reflexivity).
    rewrite Hsuffix. reflexivity.
Qed.

(** ** Rows and limits (C4, C9) *)

Lemma df_to_rows_firstn (d : DataFrame) (limit : Z) :
  _df_to_rows d limit = firstn (Z.to_nat limit) (to_dict_records d).
Proof.
  unfold _df_to_rows. destruct (limit <=? 0)%Z eqn:E.
  - apply Z.leb_le in E. replace (Z.to_nat limit) with 0%nat by lia. reflexivity.
  - apply Z.leb_gt in E. unfold to_dict_records, df_head, py_head, columns. simpl.
    destruct (0 <=? limit)%Z eqn:E'; [|apply Z.leb_gt in E'; lia].
    symmetry. apply List.firstn_map.
Qed.

Lemma df_to_rows_nonpositive (d : DataFrame) (limit : Z) :
  (limit <= 0)%Z -> _df_to_rows d limit = [].
Proof.
  intros Hle. unfold _df_to_rows.
  destruct (limit <=? 0)%Z eqn:E; [reflexivity|]. apply Z.leb_gt in E. lia.
Qed.

(** [filter_rows] on a loaded table with a valid [logic]: the loop decides
    the outcome, and only a completed loop assigns [last_result]. *)
Lemma run_filter_rows st d filters logic limit :
  df st = Some d -> logic ∈ ["and"; "or"] ->
  filter_rows filters logic limit st =
    match filter_loop d logic None filters with
    | Done mask =>
        (Done (Selected (nrows (select_rows d mask))
                        (_df_to_rows (select_rows d mask) limit)),
         snd (set_last_result (Some (select_rows d mask)) st))
    | Failed e => (Failed e, st)
    | Thrown x => (Thrown x, st)
    end.
Proof.
  intros Hd Hlogic. unfold filter_rows.
  rewrite (run_bind_done _ _ st d st) by (apply run_ensure_loaded; exact Hd).
  rewrite bool_decide_eq_true_2 by exact Hlogic. simpl.
  unfold mbind at 1. unfold M_bind, pure.
  destruct (filter_loop d logic None filters); reflexivity.
Qed.

Lemma filter_rows_done_inv st filters logic limit r st' :
  filter_rows filters logic limit st = (Done r, st') ->
  exists d mask,
    df st = Some d /\ logic ∈ ["and"; "or"]
    /\ filter_loop d logic None filters = Done mask
    /\ r = Selected (nrows (select_rows d mask))
                    (_df_to_rows (select_rows d mask) limit)
    /\ st' = snd (set_last_result (Some (select_rows d mask)) st).
Proof.
  intros Hrun. destruct (df st) as [d|] eqn:Hd.
  - destruct (decide (logic ∈ ["and"; "or"])) as [Hlogic|Hlogic].
    + rewrite (run_filter_rows st d) in Hrun by assumption.
      destruct (filter_loop d logic None filters) as [mask| |] eqn:Hloop;
        inversion Hrun; subst.
      exists d, mask. auto.
    + unfold filter_rows in Hrun.
      rewrite (run_bind_done _ _ st d st) in Hrun
        by (apply run_ensure_loaded; exact Hd).
      rewrite bool_decide_eq_false_2 in Hrun by exact Hlogic. discriminate.
  - unfold filter_rows, _ensure_loaded in Hrun.
    unfold mbind, M_bind, get_state in Hrun. rewrite Hd in Hrun. discriminate.
Qed.

(** C4.  With an empty filter list every row is selected: [row_count] is
    the number of rows of the loaded table, the rows returned are its
    first [limit] rows, and the whole table becomes the last result. *)
Theorem filter_rows_no_filters (st : State) (d : DataFrame) (logic : string)
    (limit : Z) :
  df st = Some d -> logic ∈ ["and"; "or"] ->
  filter_rows [] logic limit st =
    (Done (Selected (nrows d) (firstn (Z.to_nat limit) (to_dict_records d))),
     snd (set_last_result (Some d) st)).
Proof.
  intros Hd Hlogic. rewrite (run_filter_rows st d) by assumption.
  simpl. rewrite df_to_rows_firstn. reflexivity.
Qed.

(** C9.  A limit that is zero or negative is accepted.  Whatever the
    filters, if the call succeeds with some limit it succeeds with a
    non-positive one too, with the same [row_count] -- the number of rows
    the filters select, all of which are kept as the last result -- and
    with no row in [rows]. *)
Theorem nonpositive_limit_truncates (st st' : State)
    (filters : list (gmap string PyVal)) (logic : string) (limit limit' : Z)
    (n : nat) (rows_ : list Record_) :
  (limit <= 0)%Z ->
  filter_rows filters logic limit' st = (Done (Selected n rows_), st') ->
  filter_rows filters logic limit st = (Done (Selected n []), st')
  /\ exists d mask,
       df st = Some d
       /\ filter_loop d logic None filters = Done mask
       /\ last_result st' = Some (select_rows d mask)
       /\ n = nrows (select_rows d mask).
Proof.
  intros Hle Hrun.
  destruct (filter_rows_done_inv _ _ _ _ _ _ Hrun)
    as (d & mask & Hd & Hlogic & Hloop & Hr & Hst).
  inversion Hr; subst n rows_. split.
  - rewrite (run_filter_rows st d) by assumption. rewrite Hloop.
    rewrite df_to_rows_nonpositive by exact Hle. subst st'. reflexivity.
  - exists d, mask. subst st'. auto.
Qed.

(** ** describe_numeric (C3) *)

Lemma number_columns_without_columns (d : DataFrame) :
  ncols d = 0 -> number_columns d = [].
Proof.
  unfold number_columns, ncols. intros Hn.
  destruct (schema d); [reflexivity | discriminate].
Qed.

Lemma describe_number_empty (d : DataFrame) :
  number_columns d = [] ->
  exists x, describe_number d = Raised x /\ exc_class x = ValueError.
Proof.
  intros Hsel. unfold describe_number.
  destruct (bool_decide (ncols d = 0)); [eexists; split; reflexivity|].
  rewrite Hsel. eexists; split; reflexivity.
Qed.

Lemma describe_number_some (d : DataFrame) :
  number_columns d <> [] ->
  exists desc, describe_number d = Returned desc
               /\ nrows desc = length (number_columns d)
               /\ columns desc = "column" :: describe_stats
               /\ map (fun r => cell 0 r) (rows desc)
                  = map (fun c => Str (fst (snd c))) (number_columns d).
Proof.
  intros Hsel. unfold describe_number.
  destruct (bool_decide (ncols d = 0)) eqn:E.
  - apply bool_decide_eq_true in E.
    apply number_columns_without_columns in E. contradiction.
  - destruct (number_columns d) as [|c sel] eqn:Hcols; [contradiction|].
    eexists. split; [reflexivity|]. unfold nrows, columns. simpl.
    rewrite length_map. repeat split. f_equal.
    rewrite map_map. reflexivity.
Qed.

(** C3, as the code has it.  [describe_numeric] succeeds on a table with
    at least one numeric-typed column, with one summary row per such
    column, named after it.  On a table with no numeric-typed column the
    library's [describe] raises [ValueError]; the tool does not catch it:
    the call ends in that exception and the state is unchanged. *)
Theorem describe_numeric_needs_a_number_column (st : State) (d : DataFrame) :
  df st = Some d ->
  (number_columns d <> [] ->
   exists desc,
     describe_numeric st =
       (Done (Summary (to_dict_records desc)),
        snd (set_last_result (Some desc) st))
     /\ nrows desc = length (number_columns d)
     /\ map (fun r => cell 0 r) (rows desc)
        = map (fun c => Str (fst (snd c))) (number_columns d))
  /\ (number_columns d = [] ->
      exists x, describe_numeric st = (Thrown x, st)
                /\ exc_class x = ValueError).
Proof.
  intros Hd. split; intros Hsel.
  - destruct (describe_number_some d Hsel) as (desc & Hdesc & Hn & _ & Hnames).
    exists desc. split; [|split; assumption].
    unfold describe_numeric.
    rewrite (run_bind_done _ _ st d st) by (apply run_ensure_loaded; exact Hd).
    rewrite (run_bind_done _ _ st desc st)
      by (unfold call, pure; rewrite Hdesc; reflexivity).
    reflexivity.
  - destruct (describe_number_empty d Hsel) as (x & Hx & Hcls).
    exists x. split; [|exact Hcls].
    unfold describe_numeric.
    rewrite (run_bind_done _ _ st d st) by (apply run_ensure_loaded; exact Hd).
    apply run_bind_thrown. unfold call, pure. rewrite Hx. reflexivity.
Qed.

(** ** AND against OR (C5) *)

Lemma mask_le_refl (m : Mask) : mask_le m m.
Proof. induction m; constructor; auto. Qed.

Lemma mask_le_and_or (a1 a2 m : Mask) :
  mask_le a1 a2 -> mask_le (zip_with andb a1 m) (zip_with orb a2 m).
Proof.
  intros Hle. revert m. induction Hle as [|x y a1 a2 Hxy Hle IH]; intros m.
  - constructor.
  - destruct m as [|b m]; simpl; constructor; [|apply IH].
    destruct x, y, b; simpl; auto.
Qed.

Lemma select_mask_le {A} (m1 m2 : Mask) (l : list A) :
  mask_le m1 m2 -> sublist (select m1 l) (select m2 l).
Proof.
  intros Hle. revert l. induction Hle as [|x y m1 m2 Hxy Hle IH]; intros l.
  - simpl. constructor.
  - destruct l as [|r l]; simpl; [constructor|].
    destruct x.
    + rewrite Hxy by reflexivity. constructor. apply IH.
    + destruct y; [constructor|]; apply IH.
Qed.

Lemma mask_le_lookup (m1 m2 : Mask) (i : nat) :
  mask_le m1 m2 ->
  default false (m1 !! i) = true -> default false (m2 !! i) = true.
Proof.
  intros Hle. revert i. induction Hle as [|x y m1 m2 Hxy Hle IH]; intros i.
  - destruct i; simpl; auto.
  - destruct i; simpl; auto.
Qed.

(** Run side by side from accumulators in the relation, the AND loop and
    the OR loop end alike, and in the relation when they complete. *)
Lemma filter_loop_and_or (d : DataFrame) (filters : list (gmap string PyVal))
    (a1 a2 : Mask) :
  mask_le a1 a2 ->
  match filter_loop d "and" (Some a1) filters,
        filter_loop d "or" (Some a2) filters with
  | Done (Some m1), Done (Some m2) => mask_le m1 m2
  | Failed e1, Failed e2 => e1 = e2
  | Thrown x1, Thrown x2 => x1 = x2
  | _, _ => False
  end.
Proof.
  revert a1 a2. induction filters as [|f filters IH]; intros a1 a2 Hle; simpl.
  - exact Hle.
  - unfold mbind, Outcome_bind.
    destruct (eval_filter d f) as [m| |]; [|reflexivity|reflexivity].
    apply IH. apply mask_le_and_or. exact Hle.
Qed.

Lemma filter_loop_and_or_none (d : DataFrame) (filters : list (gmap string PyVal)) :
  match filter_loop d "and" None filters,
        filter_loop d "or" None filters with
  | Done None, Done None => filters = []
  | Done (Some m1), Done (Some m2) => mask_le m1 m2
  | Failed e1, Failed e2 => e1 = e2
  | Thrown x1, Thrown x2 => x1 = x2
  | _, _ => False
  end.
Proof.
  destruct filters as [|f filters]; simpl; [reflexivity|].
  unfold mbind, Outcome_bind.
  destruct (eval_filter d f) as [m| |]; [|reflexivity|reflexivity].
  pose proof (filter_loop_and_or d filters m m (mask_le_refl m)) as Hrel.
  simpl. destruct (filter_loop d "and" (Some m) filters) as [[m1|]| |];
    destruct (filter_loop d "or" (Some m) filters) as [[m2|]| |];
    try contradiction; auto.
Qed.

(** C5.  On one table and one filter list, when the call with
    [logic="and"] and the call with [logic="or"] both succeed, every row
    position selected under AND is selected under OR; the table kept as
    last result under AND is, row for row and in order, a sub-table of the
    one kept under OR, and its [row_count] is no larger. *)
Theorem and_selection_within_or (st st_and st_or : State)
    (filters : list (gmap string PyVal)) (limit : Z)
    (n_and n_or : nat) (rows_and rows_or : list Record_) :
  filter_rows filters "and" limit st = (Done (Selected n_and rows_and), st_and) ->
  filter_rows filters "or" limit st = (Done (Selected n_or rows_or), st_or) ->
  exists d mask_and mask_or,
    df st = Some d
    /\ filter_loop d "and" None filters = Done mask_and
    /\ filter_loop d "or" None filters = Done mask_or
    /\ last_result st_and = Some (select_rows d mask_and)
    /\ last_result st_or = Some (select_rows d mask_or)
    /\ (forall i, row_selected mask_and i = true -> row_selected mask_or i = true)
    /\ sublist (rows (select_rows d mask_and)) (rows (select_rows d mask_or))
    /\ n_and <= n_or.
Proof.
  intros Hand Hor.
  destruct (filter_rows_done_inv _ _ _ _ _ _ Hand)
    as (d & m1 & Hd & _ & Hloop1 & Hr1 & Hst1).
  destruct (filter_rows_done_inv _ _ _ _ _ _ Hor)
    as (d' & m2 & Hd' & _ & Hloop2 & Hr2 & Hst2).
  rewrite Hd in Hd'. inversion Hd'; subst d'.
  inversion Hr1; subst n_and rows_and. inversion Hr2; subst n_or rows_or.
  exists d, m1, m2.
  assert (Hsub : sublist (rows (select_rows d m1)) (rows (select_rows d m2))
                 /\ forall i, row_selected m1 i = true -> row_selected m2 i = true).
  { pose proof (filter_loop_and_or_none d filters) as Hrel.
    rewrite Hloop1, Hloop2 in Hrel.
    destruct m1 as [m1|], m2 as [m2|]; try contradiction; simpl.
    - split; [apply select_mask_le; exact Hrel|].
      intros i. apply mask_le_lookup. exact Hrel.
    - split; [reflexivity | auto]. }
  destruct Hsub as [Hsub Hsel].
  subst st_and st_or. repeat split; auto.
  unfold nrows. apply sublist_length. exact Hsub.
Qed.

(** ** One descriptor (C6, C7) *)

Lemma exc_map_lookup {A B} (f : A -> Exc B) (xs : list A) (ys : list B) i x :
  exc_map f xs = Returned ys -> xs !! i = Some x ->
  exists y, f x = Returned y /\ ys !! i = Some y.
Proof.
  revert ys i. induction xs as [|x0 xs IH]; intros ys i Hmap Hx; [discriminate|].
  simpl in Hmap. destruct (f x0) as [y0|] eqn:Hy0; [|discriminate].
  destruct (exc_map f xs) as [ys0|] eqn:Hys0; [|discriminate].
  inversion Hmap; subst ys. destruct i as [|i]; simpl in *.
  - inversion Hx; subst. eauto.
  - eapply IH; eauto.
Qed.

Lemma exc_map_length {A B} (f : A -> Exc B) (xs : list A) (ys : list B) :
  exc_map f xs = Returned ys -> length ys = length xs.
Proof.
  revert ys. induction xs as [|x0 xs IH]; intros ys Hmap; simpl in Hmap.
  - inversion Hmap. reflexivity.
  - destruct (f x0); [|discriminate].
    destruct (exc_map f xs) as [ys0|]; [|discriminate].
    inversion Hmap. simpl. f_equal. apply IH. reflexivity.
Qed.

Lemma exc_map_raises {A B} (f : A -> Exc B) (xs : list A) (P : PyExc -> Prop) :
  (forall x e, f x = Raised e -> P e) ->
  (exists x e, x ∈ xs /\ f x = Raised e) ->
  exists e, exc_map f xs = Raised e /\ P e.
Proof.
  intros HP. induction xs as [|x0 xs IH]; intros (x & e & Hin & He).
  - inversion Hin.
  - simpl. destruct (f x0) as [y0|e0] eqn:Hy0.
    + destruct IH as (e' & -> & HPe').
      { inversion Hin; subst; [congruence|]. eauto. }
      eauto.
    + eauto.
Qed.

Lemma index_of_Some_elem (c : string) (cs : list string) i :
  index_of c cs = Some i -> c ∈ cs.
Proof.
  revert i. induction cs as [|c' cs IH]; intros i Hi; [discriminate|].
  simpl in Hi. destruct (String.eqb c' c) eqn:E.
  - apply String.eqb_eq in E. subst. left.
  - right. destruct (index_of c cs); [|discriminate]. eapply IH. reflexivity.
Qed.

Lemma getitem_elem (d : DataFrame) (c : string) (s : Series) :
  getitem d c = Returned s -> c ∈ columns d /\ length (s_values s) = nrows d.
Proof.
  unfold getitem. destruct (index_of c (columns d)) as [i|] eqn:Hi; [|discriminate].
  intros [= <-]. split; [eapply index_of_Some_elem; exact Hi|].
  unfold column_at, nrows. simpl. apply length_map.
Qed.

Lemma check_column_named (d : DataFrame) err (c : string) :
  c <> "" -> c ∈ columns d -> check_column d err (VStr c) = Done c.
Proof.
  intros Hne Hin. unfold check_column. simpl.
  apply String.eqb_neq in Hne. rewrite Hne. simpl.
  rewrite bool_decide_eq_true_2 by exact Hin. reflexivity.
Qed.

Lemma filter_loop_app d logic acc pre rest :
  filter_loop d logic acc (pre ++ rest) =
    (mask ← filter_loop d logic acc pre; filter_loop d logic mask rest).
Proof.
  revert acc. induction pre as [|f pre IH]; intros acc; simpl; [reflexivity|].
  unfold mbind at 1 3. unfold Outcome_bind.
  destruct (eval_filter d f); [apply IH | reflexivity | reflexivity].
Qed.

(** The comparison branch of the loop body. *)
Lemma eval_filter_comparison d f c o cop s :
  dict_get f "column" = VStr c -> c <> "" -> getitem d c = Returned s ->
  dict_get f "op" = VStr o -> cmp_of_string o = Some cop ->
  eval_filter d f =
    match series_cmp cop s (dict_get f "value") with
    | Returned m => Done m
    | Raised e => Failed (ComparisonFailed c o (dict_get f "value") e)
    end.
Proof.
  intros Hcol Hne Hs Hop Hcmp. unfold eval_filter.
  rewrite Hcol, Hop.
  rewrite check_column_named by (try exact Hne; apply (getitem_elem d c s Hs)).
  simpl. rewrite Hs. simpl. rewrite Hcmp. reflexivity.
Qed.

Lemma py_cmp_unordered op x v :
  py_order x v = None ->
  py_cmp op x v =
    if is_ordering op
    then Raised (mkExc TypeError "'<' not supported between instances")
    else Returned (cmp_unequal op).
Proof. intros Hord. unfold py_cmp. rewrite Hord. destruct op; reflexivity. Qed.

Lemma object_cmp_equality op v x :
  is_ordering op = false -> exists b, object_cmp op v x = Returned b.
Proof.
  intros Hop. unfold object_cmp, py_cmp.
  destruct x; try (eexists; reflexivity);
    destruct (py_order _ v); try (eexists; reflexivity);
    destruct op; try discriminate; eexists; reflexivity.
Qed.

Lemma object_cmp_unordered op v x :
  py_order x v = None -> is_ordering op = false ->
  object_cmp op v x = Returned (cmp_unequal op).
Proof.
  intros Hord Hop. unfold object_cmp.
  destruct x; try reflexivity; rewrite py_cmp_unordered by exact Hord;
    rewrite Hop; reflexivity.
Qed.

Lemma object_cmp_raises_TypeError op v x e :
  object_cmp op v x = Raised e -> exc_class e = TypeError.
Proof.
  unfold object_cmp, py_cmp.
  destruct x; try discriminate;
    destruct (py_order _ v); try discriminate;
    destruct op; try discriminate; intros [= <-]; reflexivity.
Qed.

Lemma mixed_cell_raises op v (xs : list Scalar) :
  is_ordering op = true ->
  existsb (fun x => negb (bool_decide (x = Null))
                    && bool_decide (py_order x v = None)) xs = true ->
  exists e, exc_map (object_cmp op v) xs = Raised e /\ exc_class e = TypeError.
Proof.
  intros Hop Hmixed.
  apply exc_map_raises; [apply object_cmp_raises_TypeError|].
  apply existsb_exists in Hmixed. destruct Hmixed as (x & Hin & Hx).
  apply andb_true_iff in Hx. destruct Hx as [Hnull Hord].
  apply negb_true_iff, bool_decide_eq_false in Hnull.
  apply bool_decide_eq_true in Hord.
  exists x. eexists. split; [apply list_elem_of_In; exact Hin|].
  unfold object_cmp. destruct x; try congruence;
    rewrite py_cmp_unordered by exact Hord; rewrite Hop; reflexivity.
Qed.

(** An ordering against a value the column cannot be compared with
    raises [TypeError]. *)
Lemma series_cmp_incomparable_ordering op s v :
  incomparable s v = true -> is_ordering op = true ->
  exists e, series_cmp op s v = Raised e /\ exc_class e = TypeError.
Proof.
  intros Hinc Hop. unfold incomparable in Hinc. unfold series_cmp.
  destruct v; try discriminate.
  - apply andb_true_iff in Hinc. destruct Hinc as [Hkind Hmixed].
    apply negb_true_iff in Hkind. rewrite Hkind.
    apply mixed_cell_raises; assumption.
  - apply andb_true_iff in Hinc. destruct Hinc as [Hkind Hmixed].
    apply negb_true_iff in Hkind. rewrite Hkind.
    apply mixed_cell_raises; assumption.
  - destruct (is_numeric_kind (s_dtype s)); simpl in Hinc.
    + destruct op; try discriminate; eexists; split; reflexivity.
    + apply mixed_cell_raises; assumption.
Qed.

Lemma repeat_lookup {A} (a : A) n i : i < n -> repeat a n !! i = Some a.
Proof.
  revert i. induction n as [|n IH]; intros i Hi; [lia|].
  destruct i; simpl; [reflexivity|]. apply IH. lia.
Qed.

(** [==] and [!=] against such a value do not raise: the value is unequal
    to every cell it has no common type with. *)
Lemma series_cmp_incomparable_equality op s v :
  incomparable s v = true -> is_ordering op = false ->
  exists m, series_cmp op s v = Returned m
            /\ length m = length (s_values s)
            /\ forall i x, s_values s !! i = Some x -> py_order x v = None ->
                           m !! i = Some (cmp_unequal op).
Proof.
  intros Hinc Hop.
  assert (Hobject :
    exists m, exc_map (object_cmp op v) (s_values s) = Returned m
              /\ length m = length (s_values s)
              /\ forall i x, s_values s !! i = Some x -> py_order x v = None ->
                             m !! i = Some (cmp_unequal op)).
  { destruct (exc_map_returns (object_cmp op v) (s_values s)) as [m Hm].
    { intros x _. apply object_cmp_equality. exact Hop. }
    exists m. split; [exact Hm|]. split; [eapply exc_map_length; exact Hm|].
    intros i x Hx Hord.
    destruct (exc_map_lookup _ _ _ _ _ Hm Hx) as (b & Hb & Hi).
    rewrite object_cmp_unordered in Hb by assumption.
    inversion Hb; subst. exact Hi. }
  unfold incomparable in Hinc. unfold series_cmp.
  destruct v; try discriminate.
  - apply andb_true_iff in Hinc. destruct Hinc as [Hkind _].
    apply negb_true_iff in Hkind. rewrite Hkind. exact Hobject.
  - apply andb_true_iff in Hinc. destruct Hinc as [Hkind _].
    apply negb_true_iff in Hkind. rewrite Hkind. exact Hobject.
  - destruct (is_numeric_kind (s_dtype s)); [|exact Hobject].
    unfold invalid_comparison.
    destruct op; try discriminate; eexists;
      (split; [reflexivity|]); (split; [apply repeat_length|]);
      intros i x Hx _; apply repeat_lookup;
      apply lookup_lt_Some in Hx; exact Hx.
Qed.

(** C6, as the code has it.  A descriptor whose value does not compare
    with its column (text against a numeric column, say) makes
    [filter_rows] return the "Comparison failed" error, with the state
    unchanged, when its operator is an ordering ([>], [>=], [<], [<=]).
    With [==] or [!=] nothing is raised: the descriptor yields a mask, in
    which the value is unequal to every cell of another type. *)
Theorem incomparable_value_fails_orderings (st : State) (d : DataFrame)
    (pre post : list (gmap string PyVal)) (f : gmap string PyVal)
    (logic : string) (limit : Z) (c o : string) (cop : CmpOp) (s : Series)
    (mask : option Mask) :
  df st = Some d -> logic ∈ ["and"; "or"] ->
  filter_loop d logic None pre = Done mask ->
  dict_get f "column" = VStr c -> c <> "" -> getitem d c = Returned s ->
  dict_get f "op" = VStr o -> cmp_of_string o = Some cop ->
  incomparable s (dict_get f "value") = true ->
  if is_ordering cop then
    exists e,
      exc_class e = TypeError
      /\ filter_rows (pre ++ f :: post) logic limit st =
           (Failed (ComparisonFailed c o (dict_get f "value") e), st)
  else
    exists m,
      eval_filter d f = Done m
      /\ length m = nrows d
      /\ forall i x, s_values s !! i = Some x ->
                     py_order x (dict_get f "value") = None ->
                     m !! i = Some (cmp_unequal cop).
Proof.
  intros Hd Hlogic Hpre Hcol Hne Hs Hop Hcmp Hinc.
  pose proof (eval_filter_comparison d f c o cop s Hcol Hne Hs Hop Hcmp) as Heval.
  destruct (is_ordering cop) eqn:Hord.
  - destruct (series_cmp_incomparable_ordering cop s _ Hinc Hord) as (e & He & Hcls).
    exists e. split; [exact Hcls|].
    rewrite (run_filter_rows st d) by assumption.
    rewrite filter_loop_app, Hpre. simpl.
    rewrite Heval, He. reflexivity.
  - destruct (series_cmp_incomparable_equality cop s _ Hinc Hord)
      as (m & Hm & Hlen & Hcells).
    exists m. rewrite Heval, Hm. split; [reflexivity|].
    split; [|exact Hcells].
    rewrite Hlen. apply (getitem_elem d c s Hs).
Qed.

Lemma strop_is_not_comparison o sop :
  strop_of_string o = Some sop -> cmp_of_string o = None.
Proof.
  unfold strop_of_string.
  destruct (String.eqb o "contains") eqn:E1;
    [apply String.eqb_eq in E1; subst; reflexivity|].
  destruct (String.eqb o "startswith") eqn:E2;
    [apply String.eqb_eq in E2; subst; reflexivity|].
  destruct (String.eqb o "endswith") eqn:E3;
    [apply String.eqb_eq in E3; subst; reflexivity|].
  discriminate.
Qed.

Lemma map_lookup {A B} (g : A -> B) (l : list A) i x :
  l !! i = Some x -> map g l !! i = Some (g x).
Proof.
  revert i. induction l as [|y l IH]; intros i Hx; [discriminate|].
  destruct i; simpl in *; [congruence | auto].
Qed.

Lemma str_predicate_spec sop needle (l : list (option string)) :
  match str_predicate sop needle l with
  | Returned m =>
      length m = length l
      /\ forall i c, l !! i = Some c ->
                     exists b, m !! i = Some b /\ str_cell_spec sop needle c b
  | Raised e => sop = Contains /\ re_compile needle = None
  end.
Proof.
  unfold str_predicate. destruct sop.
  - destruct (re_compile needle) as [search|] eqn:Hre; [|auto].
    split; [apply length_map|]. intros i c Hc.
    rewrite (map_lookup _ _ _ _ Hc). eexists. split; [reflexivity|].
    destruct c; simpl; eauto.
  - split; [apply length_map|]. intros i c Hc.
    rewrite (map_lookup _ _ _ _ Hc). eexists. split; [reflexivity|].
    destruct c; reflexivity.
  - split; [apply length_map|]. intros i c Hc.
    rewrite (map_lookup _ _ _ _ Hc). eexists. split; [reflexivity|].
    destruct c; reflexivity.
Qed.

Lemma str_predicate_fails_iff sop needle (l : list (option string)) :
  (exists e, str_predicate sop needle l = Raised e)
  <-> sop = Contains /\ re_compile needle = None.
Proof.
  unfold str_predicate. destruct sop.
  - destruct (re_compile needle).
    + split; [intros [e He]; discriminate | intros [_ Hre]; discriminate].
    + split; [auto | eauto].
  - split; [intros [e He]; discriminate | intros [Hop _]; discriminate].
  - split; [intros [e He]; discriminate | intros [Hop _]; discriminate].
Qed.

(** The string branch of the loop body: the predicate is applied to the
    folded needle and the folded cells. *)
Lemma eval_filter_string d f c o sop s :
  dict_get f "column" = VStr c -> c <> "" -> getitem d c = Returned s ->
  dict_get f "op" = VStr o -> strop_of_string o = Some sop ->
  eval_filter d f =
    of_exc (str_predicate sop
              (case_fold (case_sensitive_of f) (py_str (dict_get f "value")))
              (map (fun x => case_fold (case_sensitive_of f)
                               <$> astype_string (s_dtype s) x) (s_values s))).
Proof.
  intros Hcol Hne Hs Hop Hsop. unfold eval_filter.
  rewrite Hcol, Hop.
  rewrite check_column_named by (try exact Hne; apply (getitem_elem d c s Hs)).
  simpl. rewrite Hs. simpl.
  rewrite (strop_is_not_comparison o sop Hsop), Hsop.
  cbv zeta. unfold case_fold.
  destruct (case_sensitive_of f).
  - f_equal. f_equal. apply map_ext. intros x.
    destruct (astype_string (s_dtype s) x); reflexivity.
  - f_equal. f_equal. rewrite map_map. reflexivity.
Qed.

(** C7.  For a [contains], [startswith] or [endswith] descriptor on an
    existing column:
    - the descriptor fails in one case only, [contains] with a needle that
      is not a regular expression; no cell, missing or not, can make it
      fail;
    - in the mask it yields, a missing cell is [false];
    - every other cell is tested as text against the needle, and when
      [case_sensitive] is false the cell and the needle are both
      lower-cased first. *)
Theorem string_filter_nulls_and_case (d : DataFrame) (f : gmap string PyVal)
    (c o : string) (sop : StrOp) (s : Series) :
  dict_get f "column" = VStr c -> c <> "" -> getitem d c = Returned s ->
  dict_get f "op" = VStr o -> strop_of_string o = Some sop ->
  let fold := case_fold (case_sensitive_of f) in
  let needle := fold (py_str (dict_get f "value")) in
  (is_error (eval_filter d f) = true <-> sop = Contains /\ re_compile needle = None)
  /\ forall m, eval_filter d f = Done m ->
       length m = nrows d
       /\ forall i x, s_values s !! i = Some x ->
            (x = Null -> m !! i = Some false)
            /\ forall t, astype_string (s_dtype s) x = Some t ->
                 match sop with
                 | Contains =>
                     exists search, re_compile needle = Some search
                                    /\ m !! i = Some (search (fold t))
                 | Startswith => m !! i = Some (startswith (fold t) needle)
                 | Endswith => m !! i = Some (endswith (fold t) needle)
                 end.
Proof.
  intros Hcol Hne Hs Hop Hsop fold needle.
  rewrite (eval_filter_string d f c o sop s Hcol Hne Hs Hop Hsop).
  fold fold. fold needle.
  pose proof (str_predicate_spec sop needle
                (map (fun x => fold <$> astype_string (s_dtype s) x) (s_values s)))
    as Hspec.
  pose proof (str_predicate_fails_iff sop needle
                (map (fun x => fold <$> astype_string (s_dtype s) x) (s_values s)))
    as Hfails.
  destruct (str_predicate sop needle _) as [m0|e]; simpl.
  - destruct Hspec as [Hlen Hcells]. split.
    + split; [intros Hfalse; inversion Hfalse|]. intros Hbad.
      apply Hfails in Hbad. destruct Hbad as [e He]. discriminate.
    + intros m [= <-]. split.
      * rewrite Hlen, length_map. apply (getitem_elem d c s Hs).
      * intros i x Hx.
        destruct (Hcells i (fold <$> astype_string (s_dtype s) x))
          as (b & Hb & Hcell).
        { apply (map_lookup (fun x => fold <$> astype_string (s_dtype s) x)).
          exact Hx. }
        split.
        -- intros ->. simpl in Hcell. subst b. exact Hb.
        -- intros t Ht. rewrite Ht in Hcell. simpl in Hcell.
           destruct sop.
           ++ destruct Hcell as (search & Hre & ->). eauto.
           ++ subst b. exact Hb.
           ++ subst b. exact Hb.
  - split; [|intros m Hm; discriminate Hm].
    split; [intros _; exact Hspec | reflexivity].
Qed.

(** ** groupby_aggregate (C8) *)

Lemma check_column_done d err col c :
  check_column d err col = Done c -> col = VStr c /\ c ∈ columns d.
Proof.
  unfold check_column. destruct (negb (truthy col)); [discriminate|].
  destruct col as [| | |name| |]; try discriminate.
  destruct (bool_decide (name ∈ columns d)) eqn:E; [|discriminate].
  intros [= <-]. split; [reflexivity|]. apply bool_decide_eq_true in E. exact E.
Qed.

Lemma in_agg_pairs_setdefault c f m p :
  In p (agg_pairs (setdefault_append c f m)) <-> p = (c, f) \/ In p (agg_pairs m).
Proof.
  induction m as [|[c0 fns] m IH]; simpl.
  - unfold agg_pairs. simpl. intuition.
  - destruct (String.eqb c0 c) eqn:E.
    + apply String.eqb_eq in E. subst c0. unfold agg_pairs. simpl.
      rewrite map_app, !in_app_iff. simpl. intuition.
    + unfold agg_pairs in *. simpl. rewrite !in_app_iff, IH. intuition.
Qed.

Lemma agg_loop_pairs d m0 aggs m :
  agg_loop d m0 aggs = Done m ->
  forall p, In p (agg_pairs m)
            <-> In p (agg_pairs m0) \/ exists a, In a aggs /\ requests a p.
Proof.
  revert m0. induction aggs as [|a aggs IH]; intros m0 Hloop p; simpl in Hloop.
  - inversion Hloop; subst. split; [auto|]. intros [Hin|(a & [] & _)]. exact Hin.
  - unfold mbind, Outcome_bind in Hloop.
    destruct (check_column d UnknownAggColumn (dict_get a "column")) as [c| |] eqn:Hcol;
      try discriminate.
    apply check_column_done in Hcol. destruct Hcol as [Hcol _].
    destruct (dict_get a "agg") as [| | |f| |] eqn:Hfn; try discriminate.
    destruct (bool_decide (f ∈ agg_functions)); [|discriminate].
    rewrite (IH _ Hloop p), in_agg_pairs_setdefault. split.
    + intros [[->|Hin]|(a' & Hin & Hreq)].
      * right. exists a. split; [left; reflexivity|]. split; assumption.
      * left. exact Hin.
      * right. exists a'. split; [right; exact Hin|exact Hreq].
    + intros [Hin|(a' & [<-|Hin] & Hreq)].
      * left. right. exact Hin.
      * left. left. destruct Hreq as [Hc Hf]. rewrite Hcol in Hc. rewrite Hfn in Hf.
        destruct p. simpl in *. congruence.
      * right. exists a'. auto.
Qed.

Lemma exc_map_tagged {A B} (g : A -> Exc B) (l : list A) (specs : list (A * B)) :
  exc_map (fun x => y ← g x; Returned (x, y)) l = Returned specs ->
  map fst specs = l.
Proof.
  revert specs. induction l as [|x l IH]; intros specs Hmap; simpl in Hmap.
  - inversion Hmap. reflexivity.
  - unfold mbind at 1 in Hmap. unfold Exc_bind in Hmap.
    destruct (g x); [|discriminate].
    destruct (exc_map _ l) as [specs0|]; [|discriminate].
    inversion Hmap. simpl. f_equal. apply IH. reflexivity.
Qed.

Lemma groupby_agg_returned d gc dropna agg_map g :
  groupby_agg d gc dropna agg_map = Returned g ->
  exists levels,
    exc_map (lookup_column d) gc = Returned levels
    /\ g_levels g = combine gc (map snd levels)
    /\ g_keys g = group_keys dropna (map fst levels) (rows d)
    /\ map fst (g_columns g) = agg_pairs agg_map
    /\ length (g_data g) = length (g_keys g).
Proof.
  unfold groupby_agg. destruct (bool_decide (gc = [])); [discriminate|].
  unfold mbind at 1. unfold Exc_bind at 1.
  destruct (exc_map (lookup_column d) gc) as [levels|]; [|discriminate].
  destruct (bool_decide (agg_map = [])); [discriminate|].
  unfold mbind at 1. unfold Exc_bind at 1.
  destruct (exc_map _ (agg_pairs agg_map)) as [specs|] eqn:Hspecs; [|discriminate].
  cbv zeta. unfold mbind at 1. unfold Exc_bind at 1.
  destruct (exc_map _ (group_keys _ _ _)) as [data|] eqn:Hdata; [|discriminate].
  intros [= <-]. exists levels. simpl. repeat split.
  - rewrite map_map. simpl. apply exc_map_tagged in Hspecs. exact Hspecs.
  - eapply exc_map_length. exact Hdata.
Qed.

Lemma insert_levels_returned levels_rev cols sch :
  insert_levels levels_rev cols = Returned sch -> sch = (rev levels_rev ++ cols)%list.
Proof.
  revert cols. induction levels_rev as [|l rest IH]; intros cols Hins; simpl in Hins.
  - inversion Hins. reflexivity.
  - destruct (bool_decide _); [discriminate|].
    apply IH in Hins. subst sch. simpl. rewrite <- app_assoc. reflexivity.
Qed.

Lemma reset_index_returned f out :
  reset_index f = Returned out ->
  schema out = (ix_levels f ++ schema (ix_body f))%list
  /\ rows out = zip_with app (ix_keys f) (rows (ix_body f)).
Proof.
  unfold reset_index. unfold mbind, Exc_bind.
  destruct (insert_levels _ _) as [sch|] eqn:Hins; [|discriminate].
  intros [= <-]. simpl. split; [|reflexivity].
  apply insert_levels_returned in Hins. rewrite rev_involutive in Hins. exact Hins.
Qed.

Lemma group_keys_NoDup dropna ixs rs : NoDup (group_keys dropna ixs rs).
Proof. unfold group_keys. rewrite merge_sort_Permutation. apply NoDup_remove_dups. Qed.

Lemma group_keys_all ixs rs :
  group_keys false ixs rs ≡ₚ remove_dups (map (group_key ixs) rs).
Proof. unfold group_keys. apply merge_sort_Permutation. Qed.

(** With [dropna=True], by contrast, no key with a missing component
    survives. *)
Lemma group_keys_dropna ixs rs k :
  k ∈ group_keys true ixs rs -> has_null k = false.
Proof.
  unfold group_keys. rewrite merge_sort_Permutation, elem_of_remove_dups.
  rewrite list_elem_of_In, filter_In. intros [_ Hk].
  apply negb_true_iff in Hk. exact Hk.
Qed.

Lemma group_keys_length dropna ixs rs k :
  k ∈ group_keys dropna ixs rs -> length k = length ixs.
Proof.
  unfold group_keys. rewrite merge_sort_Permutation, elem_of_remove_dups.
  rewrite list_elem_of_In. intros Hin.
  assert (Hmap : In k (map (group_key ixs) rs)).
  { destruct dropna; [apply filter_In in Hin; tauto | exact Hin]. }
  apply in_map_iff in Hmap. destruct Hmap as (r & <- & _).
  unfold group_key. apply length_map.
Qed.

Lemma keys_of_rows n (keys data : list (list Scalar)) :
  length data = length keys -> (forall k, k ∈ keys -> length k = n) ->
  map (take n) (zip_with app keys data) = keys.
Proof.
  revert data. induction keys as [|k keys IH]; intros data Hlen Hk.
  - reflexivity.
  - destruct data as [|r data]; [discriminate|]. simpl. f_equal.
    + apply take_app_length'. symmetry. apply Hk. left.
    + apply IH; [simpl in Hlen; lia|]. intros k' Hin. apply Hk. right. exact Hin.
Qed.

Lemma combine_fst {A B} (l : list A) (l' : list B) :
  length l = length l' -> map fst (combine l l') = l.
Proof.
  revert l'. induction l as [|x l IH]; intros l' Hlen; [reflexivity|].
  destruct l' as [|y l']; [discriminate|]. simpl. f_equal. apply IH.
  simpl in Hlen. lia.
Qed.

(** C8.  After a successful [groupby_aggregate]:
    - the result has the group columns, in order, followed by one column
      per (column, function) pair, named [<column>_<function>]; the pairs
      are exactly those the aggregation descriptors ask for;
    - the key parts of the result rows are, without repetition, the
      distinct keys of the rows of the table, missing values included: a
      row with a missing value in a group column finds its key among
      them, so such rows make a group of their own and are not dropped;
    - [row_count] is the number of these groups. *)
Theorem groupby_keeps_null_keys_and_names_columns (st st' : State) (d : DataFrame)
    (group_columns : list string) (aggregations : list (gmap string PyVal))
    (limit : Z) (n : nat) (rows_ : list Record_) :
  df st = Some d ->
  groupby_aggregate group_columns aggregations limit st
    = (Done (Selected n rows_), st') ->
  exists (agg_map : list (string * list string)) (levels : list (nat * Dtype))
         (g : DataFrame),
    last_result st' = Some g
    /\ agg_loop d [] aggregations = Done agg_map
    /\ exc_map (lookup_column d) group_columns = Returned levels
    /\ columns g
       = (group_columns
          ++ map (fun p => (fst p ++ "_" ++ snd p)%string) (agg_pairs agg_map))%list
    /\ (forall p, p ∈ agg_pairs agg_map
                   <-> exists a, a ∈ aggregations /\ requests a p)
    /\ map (take (length group_columns)) (rows g)
         ≡ₚ remove_dups (map (group_key (map fst levels)) (rows d))
    /\ (forall r, r ∈ rows d ->
                  exists out, out ∈ rows g
                              /\ take (length group_columns) out
                                 = group_key (map fst levels) r)
    /\ n = nrows g.
Proof.
  intros Hd Hrun. unfold groupby_aggregate in Hrun.
  rewrite (run_bind_done _ _ st d st) in Hrun by (apply run_ensure_loaded; exact Hd).
  cbv zeta in Hrun. destruct (List.filter _ group_columns); [|discriminate].
  unfold mbind, M_bind, call, pure in Hrun.
  destruct (agg_loop d [] aggregations) as [agg_map| |] eqn:Hloop; try discriminate.
  destruct (groupby_agg d group_columns false agg_map) as [grouped|] eqn:Hgroup;
    try discriminate. simpl in Hrun.
  destruct (reset_index (flatten_columns grouped)) as [g|] eqn:Hreset;
    try discriminate. simpl in Hrun.
  inversion Hrun; subst n rows_ st'. clear Hrun.
  destruct (groupby_agg_returned _ _ _ _ _ Hgroup)
    as (levels & Hlevels & Hglev & Hgkeys & Hgcols & Hglen).
  destruct (reset_index_returned _ _ Hreset) as [Hschema Hrows].
  simpl in Hschema, Hrows.
  assert (Hlen : length group_columns = length (map fst levels)).
  { rewrite length_map. symmetry. eapply exc_map_length. exact Hlevels. }
  assert (Hkeys : map (take (length group_columns)) (rows g) = g_keys grouped).
  { rewrite Hrows. apply keys_of_rows; [exact Hglen|].
    intros k Hk. rewrite Hgkeys in Hk. rewrite Hlen.
    eapply group_keys_length. exact Hk. }
  exists agg_map, levels, g. repeat split; auto.
  - unfold columns. rewrite Hschema, map_app, Hglev. f_equal.
    + apply combine_fst. rewrite length_map. symmetry.
      eapply exc_map_length. exact Hlevels.
    + rewrite map_map. simpl. rewrite <- Hgcols, map_map. reflexivity.
  - rewrite list_elem_of_In. intros Hin.
    apply (agg_loop_pairs d [] aggregations agg_map Hloop p) in Hin.
    destruct Hin as [[]|(a & Hin & Hreq)]. exists a.
    split; [apply list_elem_of_In; exact Hin | exact Hreq].
  - intros (a & Hin & Hreq). apply list_elem_of_In.
    apply (agg_loop_pairs d [] aggregations agg_map Hloop p). right.
    exists a. split; [apply list_elem_of_In; exact Hin | exact Hreq].
  - rewrite Hkeys, Hgkeys. apply group_keys_all.
  - intros r Hr.
    assert (Hk : group_key (map fst levels) r ∈ map (take (length group_columns)) (rows g)).
    { rewrite Hkeys, Hgkeys, group_keys_all, elem_of_remove_dups.
      apply list_elem_of_In, in_map, list_elem_of_In. exact Hr. }
    apply list_elem_of_In, in_map_iff in Hk. destruct Hk as (out & Hout & Hin).
    exists out. split; [apply list_elem_of_In; exact Hin | exact Hout].
Qed.
End Properties.

(* ================================================================== *)
(** * Further properties of the tools *)

Section Coverage.
Context `{Library} `{FileSystem}.

(** ** Which parts of [STATE] a tool touches *)

(** A computation that leaves the field [f] of [STATE] as it was. *)
Lemma keeps_bind {A B X} (f : State -> X) (m : M A) (k : A -> M B) :
  (forall st, f (snd (m st)) = f st) ->
  (forall a st, f (snd (k a st)) = f st) ->
  forall st, f (snd ((m ≫= k) st)) = f st.
Proof.
  intros Hm Hk st. unfold mbind, M_bind.
  specialize (Hm st). destruct (m st) as [[a|e|x] st1]; simpl in *; auto.
  rewrite Hk. exact Hm.
Qed.

Lemma keeps_read_only {A X} (f : State -> X) (m : M A) :
  read_only m -> forall st, f (snd (m st)) = f st.
Proof. intros Hm st. rewrite Hm. reflexivity. Qed.

Ltac read_only_tac :=
  repeat first
    [ apply read_only_ensure_loaded
    | apply read_only_resolve_csv_path
    | apply read_only_get
    | apply read_only_ret
    | apply read_only_pure
    | apply read_only_bind; [|intros ?]
    | match goal with
      | |- read_only (if ?b then _ else _) => destruct b
      | |- read_only (match ?x with _ => _ end) => destruct x
      | |- read_only (let _ := _ in _) => cbv zeta
      end ].

Ltac keeps_tac :=
  repeat first
    [ solve [apply keeps_read_only; read_only_tac]
    | solve [intros ?; reflexivity]
    | apply keeps_bind; [|intros ?]
    | match goal with
      | |- forall st, _ (snd ((if ?b then _ else _) st)) = _ => destruct b
      | |- forall st, _ (snd ((match ?x with _ => _ end) st)) = _ => destruct x
      | |- forall st, _ (snd ((let _ := _ in _) st)) = _ => cbv zeta
      end ].

Lemma handle_frame (r : Request) (st : State) :
  (if is_set_base_directory r then True
   else base_dir (snd (handle r st)) = base_dir st)
  /\ (if is_load_csv r then True
      else df (snd (handle r st)) = df st
           /\ csv_path (snd (handle r st)) = csv_path st)
  /\ (if assigns_last_result r then True
      else last_result (snd (handle r st)) = last_result st).
Proof.
  destruct r; simpl; repeat split; trivial; revert st;
    unfold set_base_directory, get_base_directory, load_csv, get_schema, preview,
      describe_numeric, value_counts, filter_rows, groupby_aggregate,
      export_last_result;
    keeps_tac.
Qed.

(** X2.  The sandbox root is assigned by [set_base_directory] alone, the
    table and its path by [load_csv] alone, and [set_base_directory],
    [get_base_directory], [get_schema] and [export_last_result] never
    assign the last result -- whether the call succeeds or not. *)
Theorem tools_change_only_their_fields (r : Request) (st : State) :
  (if is_set_base_directory r then True
   else base_dir (snd (handle r st)) = base_dir st)
  /\ (if is_load_csv r then True
      else df (snd (handle r st)) = df st
           /\ csv_path (snd (handle r st)) = csv_path st)
  /\ (if assigns_last_result r then True
      else last_result (snd (handle r st)) = last_result st).
Proof. apply handle_frame. Qed.

(** ** Tools that need a table *)

Lemma run_ensure_loaded_none st :
  df st = None -> _ensure_loaded st = (Thrown not_loaded, st).
Proof.
  intros Hd. unfold _ensure_loaded.
  rewrite (run_bind_done _ _ st st st) by reflexivity. rewrite Hd. reflexivity.
Qed.

(** X1.  Before any table is loaded, [get_schema], [preview],
    [describe_numeric], [value_counts], [filter_rows] and
    [groupby_aggregate] all end in [RuntimeError] "No CSV loaded. Call
    load_csv first.", whatever their arguments, and change nothing. *)
Theorem table_tools_need_a_table (r : Request) (st : State) :
  needs_table r = true -> df st = None ->
  handle r st = (Thrown not_loaded, st).
Proof.
  intros Hr Hd. destruct r; try discriminate Hr; simpl;
    unfold get_schema, preview, describe_numeric, value_counts, filter_rows,
      groupby_aggregate;
    apply run_bind_thrown; apply run_ensure_loaded_none; exact Hd.
Qed.

(** ** The last result is read by [export_last_result] only *)

(** X3.  Apart from [export_last_result], no tool looks at the last
    result: with any other last result in place the response is the same,
    and so is the state after a successful call of a tool that records a
    result.  In particular a second [filter_rows] filters the loaded table
    again, not the rows the first one selected. *)
Theorem only_export_reads_last_result (r : Request) (st : State)
    (x : option DataFrame) :
  is_export r = false ->
  fst (handle r (snd (set_last_result x st))) = fst (handle r st)
  /\ (assigns_last_result r = true ->
      is_error (fst (handle r st)) = false ->
      snd (handle r (snd (set_last_result x st))) = snd (handle r st)).
Proof.
  intros Hr. destruct r; try discriminate Hr; simpl;
    unfold set_base_directory, get_base_directory, load_csv, get_schema, preview,
      describe_numeric, value_counts, filter_rows, groupby_aggregate,
      _resolve_csv_path, _ensure_loaded, set_last_result, set_csv_path, set_df,
      set_base_dir, get_state, call, reply_error, throw, pure,
      mbind, M_bind, mret, M_ret;
    repeat (simpl;
            match goal with
            | |- context [match ?t with _ => _ end] =>
                lazymatch t with
                | context [match _ with _ => _ end] => fail
                | _ => destruct t eqn:?
                end
            end); simpl;
    repeat match goal with
           | E : ?l = _ |- context [?l] => rewrite E
           end;
    (split; [reflexivity | intros Ha He; try discriminate Ha; try discriminate He;
                          reflexivity]).
Qed.

(** ** Loading *)

(** X4.  [_resolve_csv_path] returns a path exactly when the user path
    resolves to it and the resolved path ends in [.csv] (in any case), is
    an existing regular file and lies under the base directory. *)
Theorem resolve_csv_path_accepts_exactly (st : State) (user_path : string)
    (p : PurePath) :
  _resolve_csv_path user_path st = (Done p, st)
  <-> resolve_under (base_dir st) user_path = Returned p
      /\ endswith (py_lower (path_str p)) ".csv" = true
      /\ fs_exists p = true
      /\ fs_is_file p = true
      /\ is_relative_to p (base_dir st) = true.
Proof.
  unfold _resolve_csv_path.
  rewrite (run_bind_done _ _ st st st) by reflexivity.
  unfold mbind, M_bind, call, pure, throw, mret, M_ret. cbv zeta.
  destruct (resolve_under (base_dir st) user_path) as [q|e]; simpl.
  - destruct (endswith (py_lower (path_str q)) ".csv") eqn:Hsuffix; simpl.
    + destruct (fs_exists q) eqn:Hex; simpl.
      * destruct (fs_is_file q) eqn:Hfile; simpl.
        -- destruct (is_relative_to q (base_dir st)) eqn:Hrel; simpl.
           ++ split.
              ** intros [= <-]. auto.
              ** intros ([= <-] & _). reflexivity.
           ++ split; [discriminate|]. intros ([= <-] & _ & _ & _ & Hq). congruence.
        -- split; [discriminate|]. intros ([= <-] & _ & _ & Hq & _). congruence.
      * split; [discriminate|]. intros ([= <-] & _ & Hq & _). congruence.
    + split; [discriminate|]. intros ([= <-] & Hq & _). congruence.
  - split; [discriminate|]. intros (Hq & _). discriminate.
Qed.

(** [if encoding: read_kwargs["encoding"] = encoding] *)
Lemma load_csv_done_inv st path sep enc n resp st' :
  load_csv path sep enc n st = (Done resp, st') ->
  exists p d prof,
    _resolve_csv_path path st = (Done p, st)
    /\ pd_read_csv p sep (match enc with
                          | Some e => if String.eqb e "" then None else Some e
                          | None => None
                          end) = Returned d
    /\ _basic_profile d = Returned prof
    /\ st' = {| csv_path := Some (path_str p); df := Some d;
                last_result := None; base_dir := base_dir st |}
    /\ resp = Loaded (Some (path_str p)) prof
                     (firstn (Z.to_nat n) (to_dict_records d)).
Proof.
  unfold load_csv. intros Hrun.
  pose proof (read_only_resolve_csv_path path st) as Hro.
  unfold mbind at 1 in Hrun. unfold M_bind at 1 in Hrun.
  destruct (_resolve_csv_path path st) as [[p| |] st1] eqn:Hp; try discriminate.
  simpl in Hro. subst st1. cbv zeta in Hrun.
  unfold mbind, M_bind, call, pure, set_csv_path, set_df, set_last_result,
    get_state, mret, M_ret in Hrun.
  destruct (pd_read_csv p sep _) as [d|] eqn:Hd; try discriminate. simpl in Hrun.
  destruct (_basic_profile d) as [prof|] eqn:Hprof; try discriminate. simpl in Hrun.
  inversion Hrun; subst resp st'. exists p, d, prof.
  rewrite df_to_rows_firstn. auto.
Qed.

(** X5.  A successful [load_csv] has read a file that [_resolve_csv_path]
    accepted (so one under the base directory); afterwards the state holds
    that file's path and table, no last result, and the base directory it
    had; the response carries the profile of the table and its first
    [sample_rows] rows. *)
Theorem load_csv_success (st st' : State) (path sep : string)
    (enc : option string) (n : Z) (resp : Response) :
  load_csv path sep enc n st = (Done resp, st') ->
  exists p d prof,
    _resolve_csv_path path st = (Done p, st)
    /\ is_relative_to p (base_dir st) = true
    /\ pd_read_csv p sep (match enc with
                          | Some e => if String.eqb e "" then None else Some e
                          | None => None
                          end) = Returned d
    /\ _basic_profile d = Returned prof
    /\ st' = {| csv_path := Some (path_str p); df := Some d;
                last_result := None; base_dir := base_dir st |}
    /\ resp = Loaded (Some (path_str p)) prof
                     (firstn (Z.to_nat n) (to_dict_records d)).
Proof.
  intros Hrun.
  destruct (load_csv_done_inv _ _ _ _ _ _ _ Hrun) as (p & d & prof & Hp & Hrest).
  exists p, d, prof. split; [exact Hp|]. split; [|exact Hrest].
  unfold _resolve_csv_path in Hp.
  rewrite (run_bind_done _ _ st st st) in Hp by reflexivity.
  unfold mbind, M_bind, call, pure, throw, mret, M_ret in Hp. cbv zeta in Hp.
  destruct (resolve_under (base_dir st) path) as [q|]; simpl in Hp; try discriminate.
  destruct (negb (endswith _ _)); simpl in Hp; try discriminate.
  destruct (negb (fs_exists q) || negb (fs_is_file q)); simpl in Hp; try discriminate.
  destruct (is_relative_to q (base_dir st)) eqn:Hrel; simpl in Hp; try discriminate.
  inversion Hp; subst q. exact Hrel.
Qed.

(** X25.  Right after a successful [load_csv], [get_schema] returns the
    path and the profile that [load_csv] returned, and changes nothing. *)
Theorem get_schema_after_load (st st' : State) (path sep : string)
    (enc : option string) (n : Z) (p : option string) (prof : Profile)
    (rows_ : list Record_) :
  load_csv path sep enc n st = (Done (Loaded p prof rows_), st') ->
  get_schema st' = (Done (Schema p prof), st').
Proof.
  intros Hrun.
  destruct (load_csv_done_inv _ _ _ _ _ _ _ Hrun)
    as (q & d & prof' & _ & _ & Hprof & Hst & Hresp).
  inversion Hresp; subst p prof' rows_.
  unfold get_schema.
  rewrite (run_bind_done _ _ st' d st')
    by (apply run_ensure_loaded; subst st'; reflexivity).
  rewrite (run_bind_done _ _ st' st' st') by reflexivity.
  unfold mbind, M_bind, call, pure. rewrite Hprof. simpl. subst st'. reflexivity.
Qed.

(** X26.  [load_csv] clears the last result: an [export_last_result] that
    follows a successful load directly has nothing to export, whatever the
    output path. *)
Theorem export_after_load_has_nothing (st st' : State) (path sep : string)
    (enc : option string) (n : Z) (resp : Response) (output_path : string) :
  load_csv path sep enc n st = (Done resp, st') ->
  export_last_result output_path st' = (Failed NoLastResult, st').
Proof.
  intros Hrun.
  destruct (load_csv_done_inv _ _ _ _ _ _ _ Hrun)
    as (q & d & prof & _ & _ & _ & Hst & _).
  unfold export_last_result.
  rewrite (run_bind_done _ _ st' st' st') by reflexivity.
  subst st'. reflexivity.
Qed.

(** X6.  [set_base_directory] accepts the resolved path exactly when it
    exists and is a directory; it then becomes the base directory and
    [get_base_directory] reports the same string.  Otherwise the call ends
    in [FileNotFoundError] and the base directory stays. *)
Theorem set_base_directory_spec (st : State) (path : string) (base : PurePath) :
  (p ← expanduser (parse_path path); fs_realpath p) = Returned base ->
  set_base_directory path st =
    (if fs_exists base && fs_is_dir base
     then (Done (BaseDirSet (path_str base)), snd (set_base_dir base st))
     else (Thrown (mkExc FileNotFoundError
                     ("Directory not found: " ++ path_str base)), st))
  /\ get_base_directory (snd (set_base_dir base st))
     = (Done (BaseDir (path_str base)), snd (set_base_dir base st)).
Proof.
  intros Hbase. split; [|reflexivity].
  unfold set_base_directory.
  rewrite (run_bind_done _ _ st base st)
    by (unfold call, pure; rewrite Hbase; reflexivity).
  destruct (fs_exists base), (fs_is_dir base); reflexivity.
Qed.

(** ** Profiles *)

Lemma exc_map_Forall2 {A B} (f : A -> Exc B) (xs : list A) (ys : list B) :
  exc_map f xs = Returned ys -> Forall2 (fun x y => f x = Returned y) xs ys.
Proof.
  revert ys. induction xs as [|x xs IH]; intros ys Hmap; simpl in Hmap.
  - inversion Hmap. constructor.
  - destruct (f x) as [y|] eqn:Hy; [|discriminate].
    destruct (exc_map f xs) as [ys0|]; [|discriminate].
    inversion Hmap. constructor; [exact Hy | apply IH; reflexivity].
Qed.

Lemma exc_map_keys {A B C} (g : A -> Exc B) (h : A -> B -> C)
    (xs : list A) (ys : list (A * C)) :
  exc_map (fun x => y ← g x; Returned (x, h x y)) xs = Returned ys ->
  map fst ys = xs.
Proof.
  intros Hmap. apply exc_map_Forall2 in Hmap.
  induction Hmap as [|x y xs ys Hy _ IH]; [reflexivity|].
  simpl. f_equal; [|exact IH].
  unfold mbind, Exc_bind in Hy. destruct (g x); [|discriminate].
  inversion Hy. reflexivity.
Qed.

Lemma exc_map_Forall {A B} (f : A -> Exc B) (P : B -> Prop)
    (xs : list A) (ys : list B) :
  (forall x y, f x = Returned y -> P y) ->
  exc_map f xs = Returned ys -> Forall P ys.
Proof.
  intros HP Hmap. apply exc_map_Forall2 in Hmap.
  induction Hmap as [|x y xs ys Hy _ IH]; constructor; [|exact IH].
  eapply HP. exact Hy.
Qed.

Lemma count_na_le (s : Series) : count_na s <= length (s_values s).
Proof. unfold count_na. apply filter_length_le. Qed.

Lemma list_sum_bound (l : list nat) (n : nat) :
  Forall (fun x => x <= n) l -> list_sum l <= n * length l.
Proof.
  induction 1 as [|x l Hx Hl IH]; simpl; [lia|].
  rewrite Nat.mul_succ_r. lia.
Qed.

(** X24.  On a table with distinct column names [_basic_profile] returns:
    the row and column counts are those of the table, the dtypes and the
    missing counts are listed column by column in table order, no column
    misses more values than there are rows, and the missing counts add up to
    no more than the number of cells. *)
Theorem basic_profile_spec (d : DataFrame) :
  NoDup (columns d) ->
  exists prof,
    _basic_profile d = Returned prof
    /\ row_count prof = nrows d
    /\ column_count prof = length (columns d)
    /\ profile_columns prof = columns d
    /\ map fst (profile_dtypes prof) = columns d
    /\ map fst (missing_by_column prof) = columns d
    /\ Forall (fun cm => snd cm <= nrows d) (missing_by_column prof)
    /\ list_sum (map snd (missing_by_column prof)) <= nrows d * ncols d.
Proof.
  intros Hnd. destruct (basic_profile_returns d Hnd) as [prof Hprof].
  exists prof. split; [exact Hprof|].
  unfold _basic_profile in Hprof. unfold mbind at 1 in Hprof.
  unfold Exc_bind at 1 in Hprof.
  destruct (exc_map (fun c => s ← profile_column d c;
                              Returned (c, dtype_name (s_dtype s))) (columns d))
    as [dts|] eqn:Hdts; [|discriminate].
  unfold mbind at 1 in Hprof. unfold Exc_bind at 1 in Hprof.
  destruct (exc_map (fun c => s ← profile_column d c; Returned (c, count_na s))
                    (columns d))
    as [miss|] eqn:Hmiss; [|discriminate].
  injection Hprof as <-. simpl.
  assert (Hkeys1 : map fst dts = columns d).
  { apply (exc_map_keys (profile_column d) (fun _ s => dtype_name (s_dtype s))).
    exact Hdts. }
  assert (Hkeys2 : map fst miss = columns d).
  { apply (exc_map_keys (profile_column d) (fun _ s => count_na s)).
    exact Hmiss. }
  assert (Hbound : Forall (fun cm => snd cm <= nrows d) miss).
  { eapply exc_map_Forall; [|exact Hmiss]. intros c y Hy. simpl in Hy.
    unfold mbind, Exc_bind in Hy.
    destruct (profile_column d c) as [s|] eqn:Hs; [|discriminate].
    inversion Hy; subst y. simpl.
    unfold profile_column in Hs. destruct (bool_decide _); [|discriminate].
    rewrite <- (proj2 (getitem_elem d c s Hs)). apply count_na_le. }
  repeat split; auto.
  - unfold ncols, columns. rewrite length_map. reflexivity.
  - assert (Hlen : length miss = ncols d).
    { rewrite <- (length_map fst miss), Hkeys2. unfold columns, ncols.
      apply length_map. }
    rewrite <- Hlen, <- (length_map snd miss).
    apply list_sum_bound. apply Forall_map. exact Hbound.
Qed.

(** ** From start-up on *)

Lemma handle_well_formed (r : Request) (st : State) :
  well_formed st -> well_formed (snd (handle r st)).
Proof.
  intros Hwf. destruct (is_load_csv r) eqn:Hload.
  - destruct r; try discriminate Hload. simpl.
    destruct (load_csv path delimiter encoding sample_rows st) as [[resp| |] st'] eqn:Hrun.
    + destruct (load_csv_done_inv _ _ _ _ _ _ _ Hrun)
        as (p & d & prof & _ & Hread & _ & Hst & _).
      subst st'. simpl. split.
      * split; discriminate.
      * simpl. intros d' [= <-]. eapply pd_read_csv_unique. exact Hread.
    + pose proof (safe_load_csv path delimiter encoding sample_rows st) as Hsafe.
      rewrite Hrun in Hsafe. simpl in Hsafe. rewrite Hsafe by reflexivity. exact Hwf.
    + pose proof (safe_load_csv path delimiter encoding sample_rows st) as Hsafe.
      rewrite Hrun in Hsafe. simpl in Hsafe. rewrite Hsafe by reflexivity. exact Hwf.
  - destruct (handle_frame r st) as (_ & Htable & _). rewrite Hload in Htable.
    destruct Htable as [Hdf Hpath]. unfold well_formed. rewrite Hdf, Hpath. exact Hwf.
Qed.

Lemma run_requests_well_formed (rs : list Request) (st : State) :
  well_formed st -> well_formed (run_requests rs st).
Proof.
  revert st. induction rs as [|r rs IH]; intros st Hwf; simpl; [exact Hwf|].
  apply IH. apply handle_well_formed. exact Hwf.
Qed.

(** X27.  After any sequence of calls on a freshly started server, the
    path and the table are both set or both unset, and [get_schema]
    succeeds exactly when a table is loaded: it then returns the recorded
    path and a profile of that table, and otherwise ends in "No CSV
    loaded". *)
Theorem get_schema_succeeds_when_loaded (env_dir : option string) (st0 : State)
    (rs : list Request) :
  initial_state env_dir = Returned st0 ->
  well_formed (run_requests rs st0)
  /\ match df (run_requests rs st0) with
     | None =>
         get_schema (run_requests rs st0) = (Thrown not_loaded, run_requests rs st0)
     | Some d =>
         exists prof,
           get_schema (run_requests rs st0)
             = (Done (Schema (csv_path (run_requests rs st0)) prof),
                run_requests rs st0)
           /\ row_count prof = nrows d
           /\ profile_columns prof = columns d
     end.
Proof.
  intros Hinit.
  assert (Hwf0 : well_formed st0).
  { unfold initial_state, mbind, Exc_bind in Hinit.
    destruct (_default_base_dir env_dir); [|discriminate].
    inversion Hinit. split; [split; reflexivity | discriminate]. }
  pose proof (run_requests_well_formed rs st0 Hwf0) as Hwf.
  split; [exact Hwf|].
  set (st := run_requests rs st0) in *.
  destruct (df st) as [d|] eqn:Hd.
  - destruct Hwf as [_ Hnd]. specialize (Hnd d Hd).
    destruct (basic_profile_returns d Hnd) as [prof Hprof].
    exists prof. split.
    + unfold get_schema.
      rewrite (run_bind_done _ _ st d st) by (apply run_ensure_loaded; exact Hd).
      rewrite (run_bind_done _ _ st st st) by reflexivity.
      unfold mbind, M_bind, call, pure. rewrite Hprof. reflexivity.
    + unfold _basic_profile in Hprof. unfold mbind at 1 in Hprof.
      unfold Exc_bind at 1 in Hprof.
      destruct (exc_map (fun c => s ← profile_column d c;
                                  Returned (c, dtype_name (s_dtype s))) (columns d));
        [|discriminate].
      unfold mbind at 1 in Hprof. unfold Exc_bind at 1 in Hprof.
      destruct (exc_map (fun c => s ← profile_column d c; Returned (c, count_na s))
                        (columns d)); [|discriminate].
      injection Hprof as <-. auto.
  - unfold get_schema. apply run_bind_thrown. apply run_ensure_loaded_none. exact Hd.
Qed.

(** ** Rows and limits *)

(** X10.  [_df_to_rows] returns [limit] rows when the table has that many
    and all of them otherwise; a limit of zero or below gives none. *)
Theorem df_to_rows_length (d : DataFrame) (limit : Z) :
  length (_df_to_rows d limit) = Nat.min (Z.to_nat limit) (nrows d).
Proof.
  rewrite df_to_rows_firstn, length_take. unfold to_dict_records, nrows.
  rewrite length_map. reflexivity.
Qed.

(** ** preview *)

Lemma run_preview st d n cs :
  df st = Some d ->
  preview n cs st =
    match cs with
    | Some (c :: cs') =>
        match List.filter (fun c => negb (bool_decide (c ∈ columns d))) (c :: cs') with
        | [] =>
            match getitem_list d (c :: cs') with
            | Returned out =>
                (Done (Rows (_df_to_rows out n)), snd (set_last_result (Some out) st))
            | Raised x => (Thrown x, st)
            end
        | m :: ms => (Failed (UnknownColumns (m :: ms)), st)
        end
    | _ => (Done (Rows (_df_to_rows d n)), snd (set_last_result (Some d) st))
    end.
Proof.
  intros Hd. unfold preview.
  rewrite (run_bind_done _ _ st d st) by (apply run_ensure_loaded; exact Hd).
  destruct cs as [[|c cs']|]; try reflexivity.
  unfold mbind, M_bind, call, reply_error, pure.
  destruct (List.filter _ (c :: cs')); [|reflexivity].
  destruct (getitem_list d (c :: cs')); reflexivity.
Qed.

(** X7.  When [preview] is asked for a name that is not a column, it
    returns the "Unknown columns" error listing every such name of the
    request, in request order, and changes nothing. *)
Theorem preview_unknown_columns (st : State) (d : DataFrame) (n : Z)
    (cs : list string) (c : string) :
  df st = Some d -> c ∈ cs -> c ∉ columns d ->
  preview n (Some cs) st =
    (Failed (UnknownColumns
               (List.filter (fun c => negb (bool_decide (c ∈ columns d))) cs)), st)
  /\ c ∈ List.filter (fun c => negb (bool_decide (c ∈ columns d))) cs.
Proof.
  intros Hd Hin Hnot.
  assert (Hc : c ∈ List.filter (fun c => negb (bool_decide (c ∈ columns d))) cs).
  { apply list_elem_of_In, filter_In. split; [apply list_elem_of_In; exact Hin|].
    rewrite bool_decide_eq_false_2 by exact Hnot. reflexivity. }
  split; [|exact Hc].
  rewrite (run_preview st d) by exact Hd.
  destruct cs as [|c0 cs']; [inversion Hin|].
  destruct (List.filter _ (c0 :: cs')); [inversion Hc | reflexivity].
Qed.

Lemma index_of_nth (c : string) (cs : list string) (i : nat) (dflt : string) :
  index_of c cs = Some i -> nth i cs dflt = c /\ i < length cs.
Proof.
  revert i. induction cs as [|c' cs IH]; intros i Hi; [discriminate|].
  simpl in Hi. destruct (String.eqb c' c) eqn:E.
  - apply String.eqb_eq in E. inversion Hi; subst. simpl. split; [reflexivity|lia].
  - destruct (index_of c cs) as [j|]; [|discriminate]. inversion Hi; subst.
    destruct (IH j eq_refl) as [Hn Hl]. simpl. split; [exact Hn|lia].
Qed.

Lemma getitem_list_returned (d : DataFrame) (cs : list string) (out : DataFrame) :
  getitem_list d cs = Returned out ->
  columns out = cs
  /\ nrows out = nrows d
  /\ forall j c, cs !! j = Some c -> getitem d c = Returned (column_at out j).
Proof.
  unfold getitem_list. unfold mbind, Exc_bind.
  destruct (exc_map _ cs) as [ixs|] eqn:Hixs; [|discriminate].
  intros [= <-]. apply exc_map_Forall2 in Hixs.
  assert (Hix : Forall2 (fun c i => index_of c (columns d) = Some i) cs ixs).
  { induction Hixs as [|c i cs ixs Hi _ IH]; constructor; [|exact IH].
    destruct (index_of c (columns d)); [|discriminate]. inversion Hi. reflexivity. }
  clear Hixs. repeat split.
  - unfold columns at 1. simpl. rewrite map_map.
    induction Hix as [|c i cs ixs Hi _ IH]; [reflexivity|]. simpl. f_equal; [|exact IH].
    destruct (index_of_nth c (columns d) i "" Hi) as [Hn _].
    unfold columns in Hn.
    rewrite <- Hn. symmetry. apply (map_nth fst (schema d) ("", ObjectT) i).
  - unfold nrows. simpl. apply length_map.
  - intros j c Hj. unfold getitem.
    destruct (Forall2_lookup_l _ _ _ _ _ Hix Hj) as (i & Hi & Hc).
    rewrite Hc. f_equal. unfold column_at. simpl. f_equal.
    + rewrite map_map.
      assert (Hnth : forall (l : list nat) (k : nat), l !! k = Some i ->
                nth k (map (fun i => snd (nth i (schema d) ("", ObjectT))) l) ObjectT
                = nth i (map snd (schema d)) ObjectT).
      { induction l as [|a l IH]; intros k Hl; [discriminate|].
        destruct k; simpl in *.
        - inversion Hl; subst. symmetry.
          apply (map_nth snd (schema d) ("", ObjectT) i).
        - apply IH. exact Hl. }
      symmetry. apply Hnth. exact Hi.
    + rewrite map_map. apply map_ext. intros r. unfold cell.
      assert (Hnth : forall (l : list nat) (k : nat), l !! k = Some i ->
                nth k (map (fun i => nth i r Null) l) Null = nth i r Null).
      { induction l as [|a l IH]; intros k Hl; [discriminate|].
        destruct k; simpl in *; [inversion Hl; reflexivity | apply IH; exact Hl]. }
      symmetry. apply Hnth. exact Hi.
Qed.

(** X8.  When every requested name is a column, [preview] succeeds on the
    projection of the table: its columns are the requested names in the
    requested order, each holding the values of the column of that name; it
    has all the rows of the table.  The whole projection, not only the
    rows returned, becomes the last result. *)
Theorem preview_projection (st : State) (d : DataFrame) (n : Z)
    (c : string) (cs : list string) :
  df st = Some d -> (forall c', c' ∈ c :: cs -> c' ∈ columns d) ->
  exists out,
    preview n (Some (c :: cs)) st
      = (Done (Rows (firstn (Z.to_nat n) (to_dict_records out))),
         snd (set_last_result (Some out) st))
    /\ columns out = c :: cs
    /\ nrows out = nrows d
    /\ forall j c', (c :: cs) !! j = Some c' ->
                    getitem d c' = Returned (column_at out j).
Proof.
  intros Hd Hall.
  assert (Hout : exists out, getitem_list d (c :: cs) = Returned out).
  { unfold getitem_list.
    destruct (exc_map_returns
                (fun c => match index_of c (columns d) with
                          | Some i => Returned i
                          | None => Raised (mkExc KeyError c)
                          end) (c :: cs)) as [ixs Hixs].
    { intros c' Hc'. destruct (index_of_elem c' (columns d) (Hall c' Hc')) as [i ->].
      eexists; reflexivity. }
    rewrite Hixs. eexists; reflexivity. }
  destruct Hout as [out Hout]. exists out.
  split; [|apply getitem_list_returned; exact Hout].
  rewrite (run_preview st d) by exact Hd.
  assert (Hnone : List.filter (fun c => negb (bool_decide (c ∈ columns d))) (c :: cs) = []).
  { destruct (List.filter _ (c :: cs)) as [|m ms] eqn:Hf; [reflexivity|].
    assert (Hm : In m (List.filter (fun c => negb (bool_decide (c ∈ columns d))) (c :: cs)))
      by (rewrite Hf; left; reflexivity).
    apply filter_In in Hm. destruct Hm as [Hin Hm].
    rewrite bool_decide_eq_true_2 in Hm by (apply Hall, list_elem_of_In; exact Hin).
    discriminate. }
  rewrite Hnone, Hout, df_to_rows_firstn. reflexivity.
Qed.

(** ** export_last_result *)

Lemma run_export_last_result st output_path :
  export_last_result output_path st =
    match last_result st with
    | None => (Failed NoLastResult, st)
    | Some result =>
        match resolve_under (base_dir st) output_path with
        | Returned out =>
            if is_relative_to out (base_dir st) then
              (of_exc (_ ← fs_mkdir (parent out);
                       _ ← pd_to_csv result out;
                       Returned (Exported (path_str out) (nrows result))), st)
            else (Failed (OutputAccessDenied (base_dir st)), st)
        | Raised x => (Thrown x, st)
        end
    end.
Proof.
  unfold export_last_result.
  rewrite (run_bind_done _ _ st st st) by reflexivity.
  destruct (last_result st) as [result|]; [|reflexivity].
  unfold mbind, M_bind, call, reply_error, pure, mret, M_ret. cbv zeta.
  destruct (resolve_under (base_dir st) output_path) as [out|]; simpl; [|reflexivity].
  destruct (is_relative_to out (base_dir st)); simpl; [|reflexivity].
  destruct (fs_mkdir (parent out)) as [[]|]; simpl; [|reflexivity].
  destruct (pd_to_csv result out) as [[]|]; reflexivity.
Qed.

(** X28.  [export_last_result] refuses without writing in two cases, both
    as error results and with the state unchanged: there is no last result
    (checked first, whatever the path), or the output path resolves outside
    the base directory. *)
Theorem export_refusals (st : State) (output_path : string) :
  match last_result st with
  | None => export_last_result output_path st = (Failed NoLastResult, st)
  | Some _ =>
      forall out, resolve_under (base_dir st) output_path = Returned out ->
                  is_relative_to out (base_dir st) = false ->
                  export_last_result output_path st
                    = (Failed (OutputAccessDenied (base_dir st)), st)
  end.
Proof.
  rewrite run_export_last_result. destruct (last_result st); [|reflexivity].
  intros out Hout Hrel. rewrite Hout, Hrel. reflexivity.
Qed.

(** X9.  An export that follows a successful [filter_rows] writes the
    whole selection: when the two library calls return, [rows_written] is
    the [row_count] of the filter call, however small its [limit] was. *)
Theorem export_after_filter_writes_all_matches (st st' : State)
    (filters : list (gmap string PyVal)) (logic : string) (limit : Z)
    (n : nat) (rows_ : list Record_) (output_path : string) (out : PurePath) :
  filter_rows filters logic limit st = (Done (Selected n rows_), st') ->
  resolve_under (base_dir st) output_path = Returned out ->
  is_relative_to out (base_dir st) = true ->
  fs_mkdir (parent out) = Returned tt ->
  exists selection,
    last_result st' = Some selection
    /\ nrows selection = n
    /\ length rows_ = Nat.min (Z.to_nat limit) n
    /\ (pd_to_csv selection out = Returned tt ->
        export_last_result output_path st'
          = (Done (Exported (path_str out) n), st')).
Proof.
  intros Hrun Hout Hrel Hmk.
  destruct (filter_rows_done_inv _ _ _ _ _ _ Hrun)
    as (d & mask & Hd & _ & _ & Hr & Hst).
  inversion Hr; subst n rows_. exists (select_rows d mask).
  split; [subst st'; reflexivity|]. split; [reflexivity|].
  split; [apply df_to_rows_length|].
  intros Hcsv. rewrite run_export_last_result. subst st'. simpl.
  rewrite Hout, Hrel, Hmk. simpl. rewrite Hcsv. reflexivity.
Qed.

(** ** value_counts *)

(** X23.  On an existing column [value_counts] returns the library's
    counts cut by [head(limit)]: the first [limit] entries for a limit of
    zero or more, and for a negative limit all but the last [-limit]
    entries (the value is not treated as zero here).  A name that is not a
    column gives the "Unknown column" error and changes nothing. *)
Theorem value_counts_limit (st : State) (d : DataFrame) (c : string) (s : Series)
    (limit : Z) (normalize dropna : bool) :
  df st = Some d -> getitem d c = Returned s ->
  value_counts c limit normalize dropna st
    = (Done (Counts c (py_head limit (pd_value_counts s dropna normalize))),
       snd (set_last_result
              (Some (counts_frame (s_dtype s) normalize
                       (py_head limit (pd_value_counts s dropna normalize)))) st))
  /\ length (py_head limit (pd_value_counts s dropna normalize))
     = (if (0 <=? limit)%Z
        then Nat.min (Z.to_nat limit) (length (pd_value_counts s dropna normalize))
        else length (pd_value_counts s dropna normalize) - Z.to_nat (- limit))
  /\ forall c', c' ∉ columns d ->
       value_counts c' limit normalize dropna st = (Failed (UnknownColumn c'), st).
Proof.
  intros Hd Hs. repeat split.
  - unfold value_counts.
    rewrite (run_bind_done _ _ st d st) by (apply run_ensure_loaded; exact Hd).
    rewrite bool_decide_eq_true_2 by (apply (getitem_elem d c s Hs)). simpl.
    rewrite (run_bind_done _ _ st s st)
      by (unfold call, pure; rewrite Hs; reflexivity).
    reflexivity.
  - unfold py_head. destruct (0 <=? limit)%Z; rewrite length_take; [reflexivity|lia].
  - intros c' Hc'. unfold value_counts.
    rewrite (run_bind_done _ _ st d st) by (apply run_ensure_loaded; exact Hd).
    rewrite bool_decide_eq_false_2 by exact Hc'. reflexivity.
Qed.

(** ** Masks *)

Lemma series_cmp_length op (s : Series) v m :
  series_cmp op s v = Returned m -> length m = length (s_values s).
Proof.
  unfold series_cmp. destruct v.
  - intros [= <-]. apply length_map.
  - destruct (is_numeric_kind (s_dtype s)).
    + intros [= <-]. apply length_map.
    + apply exc_map_length.
  - destruct (is_numeric_kind (s_dtype s)).
    + intros [= <-]. apply length_map.
    + apply exc_map_length.
  - destruct (is_numeric_kind (s_dtype s)).
    + unfold invalid_comparison. destruct op; try discriminate;
        intros [= <-]; apply repeat_length.
    + apply exc_map_length.
  - destruct (bool_decide (length l = length (s_values s))) eqn:E; [|discriminate].
    apply bool_decide_eq_true in E. intros Hm. apply exc_map_length in Hm.
    rewrite Hm, length_combine. lia.
  - apply exc_map_length.
Qed.

(** The mask of a descriptor has one entry per row of the table. *)
Lemma eval_filter_length d f m :
  eval_filter d f = Done m -> length m = nrows d.
Proof.
  unfold eval_filter. unfold mbind at 1. unfold Outcome_bind at 1.
  destruct (check_column d UnknownFilterColumn (dict_get f "column")) as [c| |];
    try discriminate.
  unfold mbind at 1. unfold Outcome_bind at 1.
  destruct (getitem d c) as [s|] eqn:Hs; simpl; try discriminate.
  destruct (getitem_elem d c s Hs) as [_ Hlen].
  destruct (dict_get f "op") as [| | |o| |]; try discriminate.
  destruct (cmp_of_string o) as [cop|].
  - destruct (series_cmp cop s (dict_get f "value")) as [m0|] eqn:Hm; try discriminate.
    intros [= <-]. rewrite (series_cmp_length _ _ _ _ Hm). exact Hlen.
  - destruct (strop_of_string o) as [sop|].
    + cbv zeta.
      match goal with
      | |- of_exc (str_predicate sop ?needle ?l) = _ -> _ =>
          pose proof (str_predicate_spec sop needle l) as Hspec;
          destruct (str_predicate sop needle l) as [m0|]; simpl; try discriminate
      end.
      intros [= <-]. destruct Hspec as [Hm _]. rewrite Hm.
      destruct (case_sensitive_of f); rewrite ?length_map; exact Hlen.
    + destruct (String.eqb o "in"); try discriminate.
      destruct (dict_get f "value") as [| | | |l|]; try discriminate.
      destruct (exc_map _ (s_values s)) as [m0|] eqn:Hm; simpl; try discriminate.
      intros [= <-]. rewrite (exc_map_length _ _ _ Hm). exact Hlen.
Qed.

Lemma filter_loop_length d logic acc filters m :
  (forall a, acc = Some a -> length a = nrows d) ->
  filter_loop d logic acc filters = Done (Some m) -> length m = nrows d.
Proof.
  revert acc. induction filters as [|f filters IH]; intros acc Hacc; simpl.
  - intros [= ->]. apply Hacc. reflexivity.
  - unfold mbind, Outcome_bind.
    destruct (eval_filter d f) as [m0| |] eqn:Hm0; try discriminate.
    apply IH. intros a. unfold combine_mask.
    pose proof (eval_filter_length d f m0 Hm0) as Hlen0.
    destruct acc as [a0|]; intros [= <-].
    + specialize (Hacc a0 eq_refl).
      destruct (String.eqb logic "and"); rewrite length_zip_with; lia.
    + exact Hlen0.
Qed.

Lemma filter_loop_some d logic a filters mask :
  filter_loop d logic (Some a) filters = Done mask -> exists m, mask = Some m.
Proof.
  revert a. induction filters as [|f filters IH]; intros a; simpl.
  - intros [= <-]. eauto.
  - unfold mbind, Outcome_bind. destruct (eval_filter d f) as [m0| |]; try discriminate.
    simpl. apply IH.
Qed.

Lemma filter_loop_nonempty d logic f filters mask :
  filter_loop d logic None (f :: filters) = Done mask -> exists m, mask = Some m.
Proof.
  simpl. unfold mbind, Outcome_bind.
  destruct (eval_filter d f) as [m0| |]; try discriminate.
  simpl. apply filter_loop_some.
Qed.

Lemma select_length (m : Mask) {A} (l : list A) :
  length m = length l -> length (select m l) = count_true m.
Proof.
  revert l. induction m as [|b m IH]; intros l Hlen; [reflexivity|].
  destruct l as [|x l]; [discriminate|]. unfold count_true in *. simpl.
  destruct b; simpl; rewrite IH by (simpl in Hlen; lia); reflexivity.
Qed.

(** X11.  The combined mask of a successful [filter_rows] has one entry
    per row of the loaded table, and [row_count] is the number of its
    [True] entries; without descriptors there is no mask and [row_count]
    is the number of rows. *)
Theorem row_count_counts_the_mask (st st' : State)
    (filters : list (gmap string PyVal)) (logic : string) (limit : Z)
    (n : nat) (rows_ : list Record_) :
  filter_rows filters logic limit st = (Done (Selected n rows_), st') ->
  exists d mask,
    df st = Some d
    /\ filter_loop d logic None filters = Done mask
    /\ match mask with
       | None => filters = [] /\ n = nrows d
       | Some m => filters <> [] /\ length m = nrows d /\ n = count_true m
       end.
Proof.
  intros Hrun.
  destruct (filter_rows_done_inv _ _ _ _ _ _ Hrun)
    as (d & mask & Hd & _ & Hloop & Hr & _).
  inversion Hr; subst n rows_. exists d, mask. split; [exact Hd|].
  split; [exact Hloop|].
  destruct mask as [m|].
  - assert (Hlen : length m = nrows d).
    { eapply filter_loop_length; [|exact Hloop]. discriminate. }
    split; [intros ->; discriminate Hloop|]. split; [exact Hlen|].
    unfold nrows at 1. simpl. apply select_length. exact Hlen.
  - split; [|reflexivity].
    destruct filters as [|f filters]; [reflexivity|].
    destruct (filter_loop_nonempty _ _ _ _ _ Hloop) as [m Hm]. discriminate Hm.
Qed.

(** ** One more descriptor *)

Lemma select_sublist {A} (m : Mask) (l : list A) : sublist (select m l) l.
Proof.
  revert l. induction m as [|b m IH]; intros l; simpl; [apply sublist_nil_l|].
  destruct l as [|x l]; [constructor|].
  destruct b; [constructor|apply sublist_cons]; apply IH.
Qed.

Lemma select_and_sublist {A} (a m : Mask) (l : list A) :
  sublist (select (zip_with andb a m) l) (select a l).
Proof.
  revert m l. induction a as [|x a IH]; intros m l; simpl; [constructor|].
  destruct m as [|y m]; simpl; [apply sublist_nil_l|].
  destruct l as [|r l]; [constructor|].
  destruct x, y; simpl.
  - constructor. apply IH.
  - apply sublist_cons. apply IH.
  - apply IH.
  - apply IH.
Qed.

Lemma mask_le_or (a m : Mask) :
  length a = length m -> mask_le a (zip_with orb a m).
Proof.
  revert m. induction a as [|x a IH]; intros m Hlen.
  - constructor.
  - destruct m as [|y m]; [discriminate|]. simpl. constructor.
    + intros ->. reflexivity.
    + apply IH. simpl in Hlen. lia.
Qed.

Lemma filter_loop_snoc d logic filters f :
  filter_loop d logic None (filters ++ [f]) =
    (mask ← filter_loop d logic None filters;
     m ← eval_filter d f;
     Done (combine_mask logic mask m)).
Proof.
  rewrite filter_loop_app. unfold mbind, Outcome_bind.
  destruct (filter_loop d logic None filters); reflexivity.
Qed.

(** X12.  Under [logic="and"], a descriptor added at the end of the list
    never adds a row: the new selection is a sub-table of the old one. *)
Theorem one_more_filter_narrows_and (st st1 st2 : State)
    (filters : list (gmap string PyVal)) (f : gmap string PyVal) (limit : Z)
    (n1 n2 : nat) (rows1 rows2 : list Record_) :
  filter_rows filters "and" limit st = (Done (Selected n1 rows1), st1) ->
  filter_rows (filters ++ [f]) "and" limit st = (Done (Selected n2 rows2), st2) ->
  exists sel1 sel2,
    last_result st1 = Some sel1
    /\ last_result st2 = Some sel2
    /\ sublist (rows sel2) (rows sel1)
    /\ n2 <= n1.
Proof.
  intros Hrun1 Hrun2.
  destruct (filter_rows_done_inv _ _ _ _ _ _ Hrun1)
    as (d & m1 & Hd & _ & Hl1 & Hr1 & Hs1).
  destruct (filter_rows_done_inv _ _ _ _ _ _ Hrun2)
    as (d' & m2 & Hd' & _ & Hl2 & Hr2 & Hs2).
  rewrite Hd in Hd'. inversion Hd'; subst d'.
  inversion Hr1; subst n1 rows1. inversion Hr2; subst n2 rows2.
  exists (select_rows d m1), (select_rows d m2).
  assert (Hsub : sublist (rows (select_rows d m2)) (rows (select_rows d m1))).
  { rewrite filter_loop_snoc, Hl1 in Hl2. simpl in Hl2.
    unfold mbind, Outcome_bind in Hl2.
    destruct (eval_filter d f) as [m| |]; try discriminate.
    inversion Hl2; subst m2. destruct m1 as [a|]; simpl.
    - apply select_and_sublist.
    - apply select_sublist. }
  subst st1 st2. repeat split; auto.
  unfold nrows. apply sublist_length. exact Hsub.
Qed.

(** X13.  Under [logic="or"], a descriptor added at the end of a list
    that is not empty never removes a row.  (An empty list selects every
    row, so its first descriptor can only remove rows.) *)
Theorem one_more_filter_widens_or (st st1 st2 : State)
    (filters : list (gmap string PyVal)) (f : gmap string PyVal) (limit : Z)
    (n1 n2 : nat) (rows1 rows2 : list Record_) :
  filters <> [] ->
  filter_rows filters "or" limit st = (Done (Selected n1 rows1), st1) ->
  filter_rows (filters ++ [f]) "or" limit st = (Done (Selected n2 rows2), st2) ->
  exists sel1 sel2,
    last_result st1 = Some sel1
    /\ last_result st2 = Some sel2
    /\ sublist (rows sel1) (rows sel2)
    /\ n1 <= n2.
Proof.
  intros Hne Hrun1 Hrun2.
  destruct (filter_rows_done_inv _ _ _ _ _ _ Hrun1)
    as (d & m1 & Hd & _ & Hl1 & Hr1 & Hs1).
  destruct (filter_rows_done_inv _ _ _ _ _ _ Hrun2)
    as (d' & m2 & Hd' & _ & Hl2 & Hr2 & Hs2).
  rewrite Hd in Hd'. inversion Hd'; subst d'.
  inversion Hr1; subst n1 rows1. inversion Hr2; subst n2 rows2.
  exists (select_rows d m1), (select_rows d m2).
  assert (Hsub : sublist (rows (select_rows d m1)) (rows (select_rows d m2))).
  { destruct filters as [|f0 filters]; [contradiction|].
    destruct (filter_loop_nonempty _ _ _ _ _ Hl1) as [a ->].
    assert (Ha : length a = nrows d)
      by (eapply filter_loop_length; [|exact Hl1]; discriminate).
    rewrite filter_loop_snoc, Hl1 in Hl2. simpl in Hl2.
    unfold mbind, Outcome_bind in Hl2.
    destruct (eval_filter d f) as [m| |] eqn:Hm; try discriminate.
    inversion Hl2; subst m2. simpl.
    apply select_mask_le, mask_le_or.
    rewrite Ha. symmetry. eapply eval_filter_length. exact Hm. }
  subst st1 st2. repeat split; auto.
  unfold nrows. apply sublist_length. exact Hsub.
Qed.

(** X14.  The first descriptor that fails decides the outcome: when the
    descriptors before it yield their masks, its error result or its
    exception is what [filter_rows] ends in, whatever comes after it, and
    the state is unchanged. *)
Theorem first_failing_descriptor_decides (st : State) (d : DataFrame)
    (pre post : list (gmap string PyVal)) (f : gmap string PyVal)
    (logic : string) (limit : Z) (mask : option Mask) :
  df st = Some d -> logic ∈ ["and"; "or"] ->
  filter_loop d logic None pre = Done mask ->
  match eval_filter d f with
  | Done _ => True
  | Failed e => filter_rows (pre ++ f :: post) logic limit st = (Failed e, st)
  | Thrown x => filter_rows (pre ++ f :: post) logic limit st = (Thrown x, st)
  end.
Proof.
  intros Hd Hlogic Hpre.
  destruct (eval_filter d f) as [m|e|x] eqn:Hf; [exact I| |];
    rewrite (run_filter_rows st d) by assumption;
    rewrite filter_loop_app, Hpre; simpl; rewrite Hf; reflexivity.
Qed.

(** ** Validation of one descriptor *)

Lemma check_column_failed d err col :
  unknown_column d col = true <-> check_column d err col = Failed (err col).
Proof.
  unfold unknown_column, check_column.
  destruct (truthy col); simpl; [|split; reflexivity].
  destruct col as [| | |c| |];
    try (split; intros Hx; first [reflexivity | discriminate Hx]).
  destruct (bool_decide (c ∈ columns d)); simpl;
    split; intros Hx; first [reflexivity | discriminate Hx].
Qed.

(** X15.  A descriptor ends in the "Unknown or missing column" error
    exactly when its ["column"] is absent or falsy, a name that is not a
    column of the table, or a number; the operator and the value are not
    looked at before that. *)
Theorem unknown_filter_column (d : DataFrame) (f : gmap string PyVal) :
  unknown_column d (dict_get f "column") = true
  <-> eval_filter d f = Failed (UnknownFilterColumn (dict_get f "column")).
Proof.
  rewrite (check_column_failed d UnknownFilterColumn).
  unfold eval_filter. unfold mbind at 1. unfold Outcome_bind at 1.
  destruct (check_column d UnknownFilterColumn (dict_get f "column")) as [c|e|x].
  - split; [discriminate|].
    unfold mbind, Outcome_bind.
    destruct (getitem d c) as [s|]; simpl; [|discriminate].
    destruct (dict_get f "op") as [| | |o| |]; try discriminate.
    destruct (cmp_of_string o).
    + destruct (series_cmp _ _ _); discriminate.
    + destruct (strop_of_string o).
      * cbv zeta. destruct (str_predicate _ _ _); discriminate.
      * destruct (String.eqb o "in"); [|discriminate].
        destruct (dict_get f "value"); try discriminate.
        destruct (exc_map _ _); discriminate.
  - split; intros [= ->]; reflexivity.
  - split; discriminate.
Qed.

(** X16.  On a descriptor whose column exists: an ["op"] that is none of
    the ten operator names (or is absent, or not a string) gives the
    "Unsupported op" error, and [op = "in"] with a value that is not a list
    gives "For op='in', value must be a list." *)
Theorem unsupported_operator (d : DataFrame) (f : gmap string PyVal) (c : string) :
  check_column d UnknownFilterColumn (dict_get f "column") = Done c ->
  (unknown_op (dict_get f "op") = true ->
   eval_filter d f = Failed (UnsupportedOp (dict_get f "op")))
  /\ (dict_get f "op" = VStr "in" ->
      (forall l, dict_get f "value" <> VList l) ->
      eval_filter d f = Failed InValueNotList).
Proof.
  intros Hcol. unfold eval_filter. rewrite Hcol.
  apply check_column_done in Hcol. destruct Hcol as [_ Hin].
  destruct (getitem_returns d c Hin) as [s Hs].
  unfold mbind, Outcome_bind. rewrite Hs. simpl. split.
  - unfold unknown_op. destruct (dict_get f "op") as [| | |o| |]; try reflexivity.
    destruct (cmp_of_string o); [discriminate|].
    destruct (strop_of_string o); [discriminate|].
    destruct (String.eqb o "in"); [discriminate | reflexivity].
  - intros -> Hval. simpl.
    destruct (dict_get f "value") as [| | | |l|]; try reflexivity.
    exfalso. apply (Hval l). reflexivity.
Qed.

Lemma dict_get_insert_ne (f : gmap string PyVal) (k k' : string) (v : PyVal) :
  k <> k' -> dict_get (<[k := v]> f) k' = dict_get f k'.
Proof. intros Hne. unfold dict_get. rewrite lookup_insert_ne by exact Hne. reflexivity. Qed.

(** X17.  [case_sensitive] matters to [contains], [startswith] and
    [endswith] only: for any other operator, whatever is put under
    ["case_sensitive"], the descriptor evaluates alike.  A comparison with
    [==] is therefore always case sensitive. *)
Theorem case_sensitive_is_for_string_operators (d : DataFrame)
    (f : gmap string PyVal) (v : PyVal) :
  (forall o, dict_get f "op" = VStr o -> strop_of_string o = None) ->
  eval_filter d (<["case_sensitive" := v]> f) = eval_filter d f.
Proof.
  intros Hop. unfold eval_filter.
  rewrite !dict_get_insert_ne by discriminate.
  destruct (check_column d UnknownFilterColumn (dict_get f "column")) as [c| |];
    try reflexivity.
  unfold mbind, Outcome_bind.
  destruct (getitem d c) as [s|]; simpl; try reflexivity.
  destruct (dict_get f "op") as [| | |o| |] eqn:Ho; try reflexivity.
  destruct (cmp_of_string o); try reflexivity.
  rewrite (Hop o eq_refl). reflexivity.
Qed.

(** ** What a comparison selects *)

Lemma series_cmp_missing op (s : Series) v m i :
  match v with VList _ | VDict _ => False | _ => True end ->
  series_cmp op s v = Returned m ->
  s_values s !! i = Some Null ->
  m !! i = Some (cmp_unequal op).
Proof.
  intros Hv Hm Hi. unfold series_cmp in Hm.
  assert (Hobj : forall m0, exc_map (object_cmp op v) (s_values s) = Returned m0 ->
                            m0 !! i = Some (cmp_unequal op)).
  { intros m0 Hm0. destruct (exc_map_lookup _ _ _ _ _ Hm0 Hi) as (b & Hb & Hbi).
    simpl in Hb. inversion Hb; subst b. exact Hbi. }
  assert (Hnum : map (numeric_cmp op v) (s_values s) !! i = Some (cmp_unequal op)).
  { rewrite (map_lookup _ _ _ _ Hi). reflexivity. }
  destruct v; try contradiction.
  - inversion Hm; subst m. rewrite (map_lookup _ _ _ _ Hi). reflexivity.
  - destruct (is_numeric_kind (s_dtype s)); [inversion Hm; subst m; exact Hnum|].
    apply Hobj. exact Hm.
  - destruct (is_numeric_kind (s_dtype s)); [inversion Hm; subst m; exact Hnum|].
    apply Hobj. exact Hm.
  - destruct (is_numeric_kind (s_dtype s)); [|apply Hobj; exact Hm].
    unfold invalid_comparison in Hm.
    destruct op; try discriminate; inversion Hm; subst m; apply repeat_lookup;
      apply lookup_lt_Some in Hi; exact Hi.
Qed.

(** X18.  In a comparison with a single value -- [null] included -- a
    missing cell satisfies [!=] and no other operator: [== null] selects
    no row, and rows with a missing cell are never selected by [==], [>],
    [>=], [<] or [<=]. *)
Theorem missing_cells_satisfy_only_not_equal (d : DataFrame)
    (f : gmap string PyVal) (c o : string) (cop : CmpOp) (s : Series) (m : Mask) :
  dict_get f "column" = VStr c -> c <> "" -> getitem d c = Returned s ->
  dict_get f "op" = VStr o -> cmp_of_string o = Some cop ->
  match dict_get f "value" with VList _ | VDict _ => False | _ => True end ->
  eval_filter d f = Done m ->
  forall i, s_values s !! i = Some Null -> m !! i = Some (cmp_unequal cop).
Proof.
  intros Hcol Hne Hs Hop Hcmp Hval Hm i Hi.
  rewrite (eval_filter_comparison d f c o cop s Hcol Hne Hs Hop Hcmp) in Hm.
  destruct (series_cmp cop s (dict_get f "value")) as [m0|] eqn:Hm0; [|discriminate].
  inversion Hm; subst m0.
  eapply series_cmp_missing; eauto.
Qed.

(** X19.  [==] with a text value on a text (object) column never fails and
    selects exactly the rows whose cell is that very string: the test is
    exact and case sensitive, and a missing cell is not selected. *)
Theorem equality_on_text_is_exact (d : DataFrame) (f : gmap string PyVal)
    (c t : string) (s : Series) :
  dict_get f "column" = VStr c -> c <> "" -> getitem d c = Returned s ->
  dict_get f "op" = VStr "==" -> dict_get f "value" = VStr t ->
  s_dtype s = ObjectT ->
  exists m,
    eval_filter d f = Done m
    /\ forall i x, s_values s !! i = Some x -> (m !! i = Some true <-> x = Str t).
Proof.
  intros Hcol Hne Hs Hop Hval Hdt.
  rewrite (eval_filter_comparison d f c "==" OpEq s Hcol Hne Hs Hop eq_refl).
  rewrite Hval. unfold series_cmp. rewrite Hdt. simpl.
  destruct (exc_map_returns (object_cmp OpEq (VStr t)) (s_values s)) as [m Hm].
  { intros x _. apply object_cmp_equality. reflexivity. }
  rewrite Hm. exists m. split; [reflexivity|].
  intros i x Hx. destruct (exc_map_lookup _ _ _ _ _ Hm Hx) as (b & Hb & Hbi).
  rewrite Hbi. unfold object_cmp, py_cmp in Hb.
  destruct x as [|a|a|a]; simpl in Hb; inversion Hb; subst b.
  - split; discriminate.
  - split; discriminate.
  - split; discriminate.
  - destruct (String.compare a t) eqn:Hcmp; simpl.
    + apply String.compare_eq_iff in Hcmp. subst a. split; reflexivity.
    + split; [discriminate|]. intros [= ->].
      pose proof (String.compare_antisym t t) as Ha. rewrite Hcmp in Ha.
      discriminate Ha.
    + split; [discriminate|]. intros [= ->].
      pose proof (String.compare_antisym t t) as Ha. rewrite Hcmp in Ha.
      discriminate Ha.
Qed.

(** ** groupby_aggregate *)

Lemma first_seen_snoc (l : list string) (c : string) :
  first_seen (l ++ [c]) =
    if bool_decide (c ∈ first_seen l) then first_seen l
    else (first_seen l ++ [c])%list.
Proof. unfold first_seen. rewrite fold_left_app. reflexivity. Qed.

Lemma first_seen_elem (l : list string) (c : string) :
  c ∈ first_seen l <-> c ∈ l.
Proof.
  induction l as [|x l IH] using rev_ind.
  - reflexivity.
  - rewrite first_seen_snoc, elem_of_app, list_elem_of_singleton.
    destruct (bool_decide (x ∈ first_seen l)) eqn:E.
    + apply bool_decide_eq_true in E. rewrite IH. split; [auto|].
      intros [Hc| ->]; [exact Hc | apply IH; exact E].
    + rewrite elem_of_app, list_elem_of_singleton, IH. reflexivity.
Qed.

Lemma first_seen_NoDup (l : list string) : NoDup (first_seen l).
Proof.
  induction l as [|x l IH] using rev_ind.
  - constructor.
  - rewrite first_seen_snoc.
    destruct (bool_decide (x ∈ first_seen l)) eqn:E; [exact IH|].
    apply bool_decide_eq_false in E.
    apply NoDup_app. split; [exact IH|]. split.
    + intros y Hy Hx. apply list_elem_of_singleton in Hx. subst y. contradiction.
    + apply NoDup_singleton.
Qed.

Lemma pairs_of_snoc c ps p :
  pairs_of c (ps ++ [p]) =
    (pairs_of c ps ++ if String.eqb (fst p) c then [p] else [])%list.
Proof. unfold pairs_of. rewrite List.filter_app. reflexivity. Qed.

Lemma pairs_of_absent c (ps : list (string * string)) :
  c ∉ map fst ps -> pairs_of c ps = [].
Proof.
  induction ps as [|p ps IH]; intros Hc; [reflexivity|]. simpl.
  destruct (String.eqb (fst p) c) eqn:E.
  - apply String.eqb_eq in E. exfalso. apply Hc. simpl. rewrite E. left.
  - apply IH. intros Hin. apply Hc. simpl. right. exact Hin.
Qed.

Lemma setdefault_append_absent c f (h : string -> list string) (cols : list string) :
  c ∉ cols ->
  setdefault_append c f (map (fun c' => (c', h c')) cols)
    = (map (fun c' => (c', h c')) cols ++ [(c, [f])])%list.
Proof.
  induction cols as [|c0 cols IH]; intros Hc; [reflexivity|]. simpl.
  destruct (String.eqb c0 c) eqn:E.
  - apply String.eqb_eq in E. subst c0. exfalso. apply Hc. left.
  - f_equal. apply IH. intros Hin. apply Hc. right. exact Hin.
Qed.

Lemma setdefault_append_present c f (h h' : string -> list string)
    (cols : list string) :
  NoDup cols -> c ∈ cols ->
  h' c = (h c ++ [f])%list -> (forall c', c' <> c -> h' c' = h c') ->
  setdefault_append c f (map (fun c' => (c', h c')) cols)
    = map (fun c' => (c', h' c')) cols.
Proof.
  intros Hnd Hin Hc Hother.
  induction Hnd as [|c0 cols Hnot Hnd IH]; [inversion Hin|]. simpl.
  destruct (String.eqb c0 c) eqn:E.
  - apply String.eqb_eq in E. subst c0. rewrite Hc. f_equal.
    apply map_ext_in. intros c' Hc'. rewrite Hother; [reflexivity|].
    intros ->. apply Hnot. apply list_elem_of_In. exact Hc'.
  - apply String.eqb_neq in E. rewrite (Hother c0 E). f_equal.
    apply IH. inversion Hin; subst; [congruence | assumption].
Qed.

Lemma grouped_by_column_snoc (ps : list (string * string)) (c f : string) :
  setdefault_append c f (grouped_by_column ps) = grouped_by_column (ps ++ [(c, f)]).
Proof.
  unfold grouped_by_column. rewrite map_app. simpl. rewrite first_seen_snoc.
  destruct (bool_decide (c ∈ first_seen (map fst ps))) eqn:E.
  - apply bool_decide_eq_true in E.
    apply (setdefault_append_present c f
             (fun c' => map snd (pairs_of c' ps))
             (fun c' => map snd (pairs_of c' (ps ++ [(c, f)])))).
    + apply first_seen_NoDup.
    + exact E.
    + rewrite pairs_of_snoc. simpl. rewrite String.eqb_refl, map_app. reflexivity.
    + intros c' Hne. rewrite pairs_of_snoc. simpl.
      assert (Hneq : String.eqb c c' = false) by (apply String.eqb_neq; congruence).
      rewrite Hneq, app_nil_r. reflexivity.
  - apply bool_decide_eq_false in E.
    rewrite (setdefault_append_absent c f _ _ E), map_app. f_equal.
    + apply map_ext_in. intros c' Hc'. f_equal. rewrite pairs_of_snoc. simpl.
      assert (Hneq : String.eqb c c' = false).
      { apply String.eqb_neq. intros ->. apply E, list_elem_of_In. exact Hc'. }
      rewrite Hneq, app_nil_r. reflexivity.
    + simpl. rewrite pairs_of_snoc. simpl. rewrite String.eqb_refl.
      rewrite pairs_of_absent; [reflexivity|].
      rewrite <- first_seen_elem. exact E.
Qed.

Lemma agg_loop_grouped d (ps : list (string * string))
    (aggregations : list (gmap string PyVal)) agg_map :
  agg_loop d (grouped_by_column ps) aggregations = Done agg_map ->
  agg_map = grouped_by_column (ps ++ requested_pairs aggregations)
  /\ length (requested_pairs aggregations) = length aggregations.
Proof.
  revert ps. induction aggregations as [|a aggs IH]; intros ps Hloop;
    simpl in Hloop.
  - inversion Hloop. rewrite app_nil_r. auto.
  - unfold mbind, Outcome_bind in Hloop.
    destruct (check_column d UnknownAggColumn (dict_get a "column")) as [c| |] eqn:Hcol;
      try discriminate.
    apply check_column_done in Hcol. destruct Hcol as [Hcol _].
    destruct (dict_get a "agg") as [| | |f| |] eqn:Hfn; try discriminate.
    destruct (bool_decide (f ∈ agg_functions)); [|discriminate].
    rewrite grouped_by_column_snoc in Hloop.
    destruct (IH _ Hloop) as [-> Hlen].
    assert (Hreq : requested_pairs (a :: aggs) = (c, f) :: requested_pairs aggs).
    { unfold requested_pairs. simpl. unfold requested_pair at 1.
      rewrite Hcol, Hfn. reflexivity. }
    rewrite Hreq, <- app_assoc. simpl. split; [reflexivity|]. f_equal. exact Hlen.
Qed.

(** X20.  When every aggregation descriptor is accepted, the dict that is
    passed to [agg] groups the requests by column: the columns come in the
    order in which they are first requested, each with its functions in
    request order.  So [A sum, B max, A mean] is aggregated, and named, as
    [A_sum, A_mean, B_max]. *)
Theorem aggregations_are_grouped_by_column (d : DataFrame)
    (aggregations : list (gmap string PyVal))
    (agg_map : list (string * list string)) :
  agg_loop d [] aggregations = Done agg_map ->
  agg_map = grouped_by_column (requested_pairs aggregations)
  /\ length (requested_pairs aggregations) = length aggregations
  /\ NoDup (map fst agg_map).
Proof.
  intros Hloop.
  destruct (agg_loop_grouped d [] aggregations agg_map Hloop) as [-> Hlen].
  simpl. repeat split; [exact Hlen|].
  unfold grouped_by_column. rewrite map_map. simpl. rewrite map_id.
  apply first_seen_NoDup.
Qed.

Lemma agg_loop_app d m pre rest :
  agg_loop d m (pre ++ rest) = (m' ← agg_loop d m pre; agg_loop d m' rest).
Proof.
  revert m. induction pre as [|a pre IH]; intros m; simpl; [reflexivity|].
  unfold mbind at 1 3. unfold Outcome_bind at 1 3.
  destruct (check_column d UnknownAggColumn (dict_get a "column")); try reflexivity.
  destruct (dict_get a "agg"); try reflexivity.
  destruct (bool_decide _); [apply IH | reflexivity].
Qed.

Lemma run_groupby_aggregate st d group_columns aggregations limit :
  df st = Some d ->
  groupby_aggregate group_columns aggregations limit st =
    match List.filter (fun c => negb (bool_decide (c ∈ columns d))) group_columns with
    | m :: ms => (Failed (UnknownGroupColumns (m :: ms)), st)
    | [] =>
        match agg_loop d [] aggregations with
        | Done agg_map =>
            match groupby_agg d group_columns false agg_map with
            | Returned grouped =>
                match reset_index (flatten_columns grouped) with
                | Returned g =>
                    (Done (Selected (nrows g) (_df_to_rows g limit)),
                     snd (set_last_result (Some g) st))
                | Raised x => (Thrown x, st)
                end
            | Raised x => (Thrown x, st)
            end
        | Failed e => (Failed e, st)
        | Thrown x => (Thrown x, st)
        end
    end.
Proof.
  intros Hd. unfold groupby_aggregate.
  rewrite (run_bind_done _ _ st d st) by (apply run_ensure_loaded; exact Hd).
  cbv zeta. destruct (List.filter _ group_columns); [|reflexivity].
  unfold mbind, M_bind, call, pure.
  destruct (agg_loop d [] aggregations); try reflexivity.
  destruct (groupby_agg d group_columns false a); try reflexivity. simpl.
  destruct (reset_index (flatten_columns a0)); reflexivity.
Qed.

(** X21.  [groupby_aggregate] validates before it groups.  Group columns
    that do not exist give the "Unknown group columns" error, listing them,
    before any aggregation is looked at.  Otherwise the first aggregation
    descriptor that is not acceptable decides: an unknown column gives
    "Unknown agg column", and on a known column a function outside the six
    names gives "Unsupported agg".  The state is unchanged in each case. *)
Theorem groupby_validation (st : State) (d : DataFrame)
    (group_columns : list string) (pre post : list (gmap string PyVal))
    (a : gmap string PyVal) (limit : Z) (agg_map : list (string * list string)) :
  df st = Some d ->
  agg_loop d [] pre = Done agg_map ->
  match List.filter (fun c => negb (bool_decide (c ∈ columns d))) group_columns with
  | m :: ms =>
      groupby_aggregate group_columns (pre ++ a :: post) limit st
        = (Failed (UnknownGroupColumns (m :: ms)), st)
  | [] =>
      (unknown_column d (dict_get a "column") = true ->
       groupby_aggregate group_columns (pre ++ a :: post) limit st
         = (Failed (UnknownAggColumn (dict_get a "column")), st))
      /\ (forall c, check_column d UnknownAggColumn (dict_get a "column") = Done c ->
                    unsupported_agg (dict_get a "agg") = true ->
                    groupby_aggregate group_columns (pre ++ a :: post) limit st
                      = (Failed (UnsupportedAgg (dict_get a "agg")), st))
  end.
Proof.
  intros Hd Hpre. rewrite (run_groupby_aggregate st d) by exact Hd.
  destruct (List.filter _ group_columns); [|reflexivity].
  rewrite agg_loop_app, Hpre. simpl. split.
  - intros Hcol. apply (check_column_failed d UnknownAggColumn) in Hcol.
    unfold mbind, Outcome_bind. rewrite Hcol. reflexivity.
  - intros c Hcol Hfn. unfold mbind, Outcome_bind. rewrite Hcol.
    unfold unsupported_agg in Hfn.
    destruct (dict_get a "agg") as [| | |f| |]; try reflexivity.
    destruct (bool_decide (f ∈ agg_functions)); [discriminate|reflexivity].
Qed.

Lemma remove_dups_length {A} `{EqDecision A} (l : list A) :
  length (remove_dups l) <= length l.
Proof.
  induction l as [|x l IH]; simpl; [lia|].
  destruct (decide_rel elem_of x l); simpl; lia.
Qed.

Lemma remove_dups_nil {A} `{EqDecision A} (l : list A) :
  remove_dups l = [] -> l = [].
Proof.
  destruct l as [|x l]; [reflexivity|]. intros Hnil.
  assert (Hx : x ∈ remove_dups (x :: l)) by (apply elem_of_remove_dups; left).
  rewrite Hnil in Hx. inversion Hx.
Qed.

(** X22.  A successful [groupby_aggregate] returns one row per distinct
    key of the table: [row_count] is the number of distinct key tuples
    (missing values included), it never exceeds the number of rows of the
    table, it is zero only for a table without rows, and [rows] holds
    [limit] of the groups at most. *)
Theorem groupby_row_count (st st' : State) (d : DataFrame)
    (group_columns : list string) (aggregations : list (gmap string PyVal))
    (limit : Z) (n : nat) (rows_ : list Record_) :
  df st = Some d ->
  groupby_aggregate group_columns aggregations limit st
    = (Done (Selected n rows_), st') ->
  exists levels,
    exc_map (lookup_column d) group_columns = Returned levels
    /\ n = length (remove_dups (map (group_key (map fst levels)) (rows d)))
    /\ n <= nrows d
    /\ (n = 0 <-> nrows d = 0)
    /\ length rows_ = Nat.min (Z.to_nat limit) n.
Proof.
  intros Hd Hrun. rewrite (run_groupby_aggregate st d) in Hrun by exact Hd.
  destruct (List.filter _ group_columns); [|discriminate].
  destruct (agg_loop d [] aggregations) as [agg_map| |]; try discriminate.
  destruct (groupby_agg d group_columns false agg_map) as [grouped|] eqn:Hgroup;
    try discriminate.
  destruct (reset_index (flatten_columns grouped)) as [g|] eqn:Hreset;
    try discriminate.
  inversion Hrun; subst n rows_ st'. clear Hrun.
  destruct (groupby_agg_returned _ _ _ _ _ Hgroup)
    as (levels & Hlevels & _ & Hgkeys & _ & Hglen).
  destruct (reset_index_returned _ _ Hreset) as [_ Hrows]. simpl in Hrows.
  exists levels. split; [exact Hlevels|].
  assert (Hn : nrows g = length (remove_dups (map (group_key (map fst levels)) (rows d)))).
  { unfold nrows. rewrite Hrows, length_zip_with, Hglen, Hgkeys.
    rewrite Nat.min_id. apply Permutation_length. apply group_keys_all. }
  split; [exact Hn|]. rewrite Hn.
  split; [|split].
  - etransitivity; [apply remove_dups_length|]. rewrite length_map. reflexivity.
  - unfold nrows. split.
    + intros Hzero. apply length_zero_iff_nil in Hzero.
      apply remove_dups_nil in Hzero. apply map_eq_nil in Hzero.
      rewrite Hzero. reflexivity.
    + intros Hzero. apply length_zero_iff_nil in Hzero. rewrite Hzero. reflexivity.
  - rewrite <- Hn. apply df_to_rows_length.
Qed.

(** ** The request counter of the client *)

Lemma next_ids_spec (n : nat) (k : Z) :
  next_ids n k = (map (fun i => (k + Z.of_nat i)%Z) (seq 0 n), (k + Z.of_nat n)%Z).
Proof.
  revert k. induction n as [|n IH]; intros k.
  - simpl. f_equal. lia.
  - simpl. rewrite IH. f_equal.
    + f_equal; [f_equal; lia|]. rewrite <- seq_shift, map_map.
      apply map_ext. intros i. lia.
    + lia.
Qed.
End Coverage.

(** X29.  [n] calls of [_next_id] in a row return the [n] consecutive
    integers from the current value of the counter, no two of them equal,
    and leave the counter [n] higher. *)
Theorem next_ids_are_consecutive_and_distinct (n : nat) (k : Z) :
  fst (next_ids n k) = map (fun i => (k + Z.of_nat i)%Z) (seq 0 n)
  /\ NoDup (fst (next_ids n k))
  /\ snd (next_ids n k) = (k + Z.of_nat n)%Z.
Proof.
  rewrite next_ids_spec. simpl. repeat split.
  apply NoDup_fmap_2_strong; [|apply NoDup_seq].
  intros i j _ _ Hij. lia.
Qed.

(* ================================================================== *)
(** * Scenarios in the sample world *)

#[local] Existing Instance Sample.ZNumber.
#[local] Existing Instance Sample.pandas.
#[local] Existing Instance Sample.disk.

Import Sample.

(** The two scenarios of the specification on a three-row table whose
    [Status] column is Open, Closed, Open. *)
Example value_counts_of_status :
  fst (value_counts "Status" 25 false true (loaded tickets))
    = Done (Counts "Status" [(Str "Open", int 2); (Str "Closed", int 1)]).
Proof. vm_compute. reflexivity. Qed.

Example filter_status_open :
  filter_rows [status_open] "and" 200 (loaded tickets)
    = (Done (Selected 2 (to_dict_records (keep [ticket1; ticket3]))),
       with_result (keep [ticket1; ticket3])).
Proof. vm_compute. reflexivity. Qed.

(** The same (column, function) pair asked for twice is no error: the
    result has the column [Id_sum] twice, and a record, being a dict,
    holds it once. *)
Example groupby_repeated_pair :
  groupby_aggregate ["Owner"] [aggregation "Id" "sum"; aggregation "Id" "sum"] 200
    (loaded tickets)
    = (Done (Selected 2 [ [("Owner", Str "Ann"); ("Id_sum", int 1)];
                          [("Owner", Null); ("Id_sum", int 5)] ]),
       with_result by_owner_sum_twice).
Proof. vm_compute. reflexivity. Qed.

(** C1, refuted as stated.  With the root [/srv/data], ["../../etc/passwd"]
    resolves to [/etc/passwd], outside the root, and the call ends in
    [ValueError] "Only .csv files are allowed.", not in [PermissionError]. *)
Lemma etc_passwd_is_not_access_denied :
  resolve_under (base_dir fresh) "../../etc/passwd"
    = Returned (mkPath "/" ["etc"; "passwd"])
  /\ is_relative_to (mkPath "/" ["etc"; "passwd"]) (base_dir fresh) = false
  /\ _resolve_csv_path "../../etc/passwd" fresh
     = (Thrown (mkExc ValueError "Only .csv files are allowed."), fresh)
  /\ ~ (exists x, _resolve_csv_path "../../etc/passwd" fresh = (Thrown x, fresh)
                   /\ exc_class x = PermissionError).
Proof.
  repeat split; try reflexivity.
  intros (x & Hx & Hcls). vm_compute in Hx. inversion Hx; subst x. discriminate Hcls.
Qed.

(** An existing [.csv] file outside the root is the case that ends in
    [PermissionError]. *)
Lemma resolve_outside_root_fails_witness :
  exists x, _resolve_csv_path "../other/secret.csv" fresh = (Thrown x, fresh)
            /\ exc_class x = PermissionError.
Proof.
  exact (resolve_outside_root_fails fresh "../other/secret.csv"
           (mkPath "/" ["srv"; "other"; "secret.csv"]) eq_refl eq_refl).
Defined.

(** A comparison that fails on the second descriptor leaves the state as
    it was. *)
Lemma error_leaves_state_unchanged_witness :
  is_error (fst (handle (FilterRows [status_open; id_above_text] "and" 200)
                        (loaded tickets))) = true
  /\ snd (handle (FilterRows [status_open; id_above_text] "and" 200)
                 (loaded tickets)) = loaded tickets.
Proof.
  split; [reflexivity|].
  apply (error_leaves_state_unchanged
           (FilterRows [status_open; id_above_text] "and" 200) (loaded tickets)).
  reflexivity.
Defined.

(** C3, refuted as stated.  [notes] has two text columns and no numeric
    one; [describe_numeric] ends in [ValueError] and returns no summary. *)
Lemma describe_numeric_fails_without_number_columns :
  df (loaded notes) = Some notes
  /\ number_columns notes = []
  /\ describe_numeric (loaded notes)
     = (Thrown (mkExc ValueError "No objects to concatenate"), loaded notes)
  /\ ~ (exists summary st', describe_numeric (loaded notes)
                             = (Done (Summary summary), st')).
Proof.
  repeat split; try reflexivity.
  intros (summary & st' & Hrun). vm_compute in Hrun. discriminate Hrun.
Qed.

Lemma describe_numeric_needs_a_number_column_witness :
  exists desc,
    describe_numeric (loaded tickets)
      = (Done (Summary (to_dict_records desc)),
         snd (set_last_result (Some desc) (loaded tickets)))
    /\ nrows desc = length (number_columns tickets)
    /\ map (fun r => cell 0 r) (rows desc)
       = map (fun c => Str (fst (snd c))) (number_columns tickets).
Proof.
  apply (proj1 (describe_numeric_needs_a_number_column (loaded tickets) tickets eq_refl)).
  discriminate.
Defined.

Lemma filter_rows_no_filters_witness :
  filter_rows [] "or" 2 (loaded tickets)
    = (Done (Selected 3 (to_dict_records (keep [ticket1; ticket2]))),
       with_result tickets).
Proof.
  apply (filter_rows_no_filters (loaded tickets) tickets "or" 2 eq_refl).
  right. left.
Defined.

Lemma and_selection_within_or_witness :
  exists d mask_and mask_or,
    df (loaded tickets) = Some d
    /\ filter_loop d "and" None [status_open; owner_has_an] = Done mask_and
    /\ filter_loop d "or" None [status_open; owner_has_an] = Done mask_or
    /\ last_result (with_result (keep [ticket1])) = Some (select_rows d mask_and)
    /\ last_result (with_result (keep [ticket1; ticket3])) = Some (select_rows d mask_or)
    /\ (forall i, row_selected mask_and i = true -> row_selected mask_or i = true)
    /\ sublist (rows (select_rows d mask_and)) (rows (select_rows d mask_or))
    /\ 1 <= 2.
Proof.
  exact (and_selection_within_or (loaded tickets)
           (with_result (keep [ticket1])) (with_result (keep [ticket1; ticket3]))
           [status_open; owner_has_an] 200 1 2
           (to_dict_records (keep [ticket1]))
           (to_dict_records (keep [ticket1; ticket3]))
           eq_refl eq_refl).
Defined.

(** C6, refuted as stated.  [Id] is an int64 column and ["Open"] is text;
    with [==] the call succeeds and selects no row. *)
Lemma equality_with_text_on_numeric_column_succeeds :
  getitem tickets "Id" = Returned (mkSeries Int64 [int 1; int 2; int 3])
  /\ incomparable (mkSeries Int64 [int 1; int 2; int 3]) (VStr "Open") = true
  /\ filter_rows [id_equals_text] "and" 200 (loaded tickets)
     = (Done (Selected 0 []), with_result (keep []))
  /\ ~ (exists c o v e st', filter_rows [id_equals_text] "and" 200 (loaded tickets)
                             = (Failed (ComparisonFailed c o v e), st')).
Proof.
  repeat split; try reflexivity.
  intros (c & o & v & e & st' & Hrun). vm_compute in Hrun. discriminate Hrun.
Qed.

Lemma incomparable_value_fails_orderings_witness :
  exists e,
    exc_class e = TypeError
    /\ filter_rows ([status_open] ++ id_above_text :: []) "and" 200 (loaded tickets)
       = (Failed (ComparisonFailed "Id" ">" (dict_get id_above_text "value") e),
          loaded tickets).
Proof.
  assert (Hlogic : "and" ∈ ["and"; "or"]) by left.
  assert (Hne : "Id" <> "") by discriminate.
  exact (incomparable_value_fails_orderings (loaded tickets) tickets
           [status_open] [] id_above_text "and" 200 "Id" ">" OpGt
           (mkSeries Int64 [int 1; int 2; int 3]) (Some [true; false; true])
           eq_refl Hlogic eq_refl eq_refl Hne eq_refl eq_refl eq_refl eq_refl).
Defined.

(** [Owner] is "Ann" in the first row and missing in the other two: the
    missing cells do not match, and "Ann" is tested lower-cased against the
    lower-cased needle. *)
Lemma string_filter_nulls_and_case_witness :
  exists m,
    eval_filter tickets owner_starts_an = Done m
    /\ m !! 0 = Some (startswith (py_lower "Ann") (py_lower "AN"))
    /\ m !! 1 = Some false
    /\ m !! 2 = Some false.
Proof.
  assert (Hne : "Owner" <> "") by discriminate.
  pose proof (string_filter_nulls_and_case tickets owner_starts_an
                "Owner" "startswith" Startswith
                (mkSeries ObjectT [Str "Ann"; Null; Null])
                eq_refl Hne eq_refl eq_refl eq_refl) as [_ Hmask].
  exists [true; false; false].
  destruct (Hmask [true; false; false] eq_refl) as [_ Hcells].
  split; [reflexivity|]. split; [|split].
  - exact (proj2 (Hcells 0 (Str "Ann") eq_refl) "Ann" eq_refl).
  - exact (proj1 (Hcells 1 Null eq_refl) eq_refl).
  - exact (proj1 (Hcells 2 Null eq_refl) eq_refl).
Defined.

(** Two of the three tickets have no owner: they are the second group. *)
Lemma groupby_keeps_null_keys_and_names_columns_witness :
  exists g,
    last_result (with_result by_owner) = Some g
    /\ columns g = ["Owner"; "Id_count"; "Id_max"]
    /\ exists out, out ∈ rows g /\ take 1 out = [Null].
Proof.
  assert (Hrun : groupby_aggregate ["Owner"]
                   [aggregation "Id" "count"; aggregation "Id" "max"] 200
                   (loaded tickets)
                 = (Done (Selected 2 (to_dict_records by_owner)), with_result by_owner))
    by (vm_compute; reflexivity).
  destruct (groupby_keeps_null_keys_and_names_columns
              (loaded tickets) (with_result by_owner) tickets ["Owner"]
              [aggregation "Id" "count"; aggregation "Id" "max"] 200 2
              (to_dict_records by_owner) eq_refl Hrun)
    as (agg_map & levels & g & Hlast & Hloop & Hlevels & Hcols & _ & _ & Hrows & _).
  exists g. split; [exact Hlast|].
  vm_compute in Hloop. inversion Hloop; subst agg_map.
  vm_compute in Hlevels. inversion Hlevels; subst levels.
  split; [exact Hcols|].
  apply (Hrows ticket2). right. left.
Defined.

Lemma nonpositive_limit_truncates_witness :
  filter_rows [status_open] "and" 0 (loaded tickets)
    = (Done (Selected 2 []), with_result (keep [ticket1; ticket3])).
Proof.
  assert (Hle : (0 <= 0)%Z) by reflexivity.
  exact (proj1 (nonpositive_limit_truncates (loaded tickets)
                  (with_result (keep [ticket1; ticket3]))
                  [status_open] "and" 0 200 2
                  (to_dict_records (keep [ticket1; ticket3])) Hle eq_refl)).
Defined.

(** The last result is written to [report.txt]; [notes.txt] is not read. *)
Lemma export_checks_containment_only_witness :
  export_last_result "report.txt" (with_result notes)
    = (Done (Exported "/srv/data/report.txt" 2), with_result notes)
  /\ load_csv "notes.txt" "," None 5 (with_result notes)
     = (Thrown (mkExc ValueError "Only .csv files are allowed."), with_result notes).
Proof.
  assert (Hout : resolve_under (base_dir (with_result notes)) "report.txt"
                 = Returned (mkPath "/" ["srv"; "data"; "report.txt"]))
    by reflexivity.
  assert (Hnotes : resolve_under (base_dir (with_result notes)) "notes.txt"
                   = Returned (mkPath "/" ["srv"; "data"; "notes.txt"]))
    by reflexivity.
  destruct (export_checks_containment_only (with_result notes) "report.txt" notes
              (mkPath "/" ["srv"; "data"; "report.txt"]) eq_refl Hout eq_refl)
    as [Hexport Hload].
  split; [exact Hexport|].
  exact (Hload "notes.txt" "," None 5%Z
           (mkPath "/" ["srv"; "data"; "notes.txt"]) Hnotes eq_refl).
Defined.

(** ** Scenarios for the further properties *)

Lemma table_tools_need_a_table_witness :
  handle (FilterRows [status_open] "and" 200) fresh = (Thrown not_loaded, fresh).
Proof.
  exact (table_tools_need_a_table (FilterRows [status_open] "and" 200) fresh
           eq_refl eq_refl).
Defined.

(** Filtering [tickets] gives the same answer and the same state whether
    or not [notes] was the last result before. *)
Lemma only_export_reads_last_result_witness :
  fst (handle (FilterRows [status_open] "and" 200) (with_result notes))
    = fst (handle (FilterRows [status_open] "and" 200) (loaded tickets))
  /\ snd (handle (FilterRows [status_open] "and" 200) (with_result notes))
     = snd (handle (FilterRows [status_open] "and" 200) (loaded tickets)).
Proof.
  destruct (only_export_reads_last_result
              (FilterRows [status_open] "and" 200) (loaded tickets) (Some notes)
              eq_refl) as [Hresponse Hstate].
  split; [exact Hresponse|]. apply Hstate; reflexivity.
Defined.

Lemma load_tickets :
  load_csv "tickets.csv" "," None 2 fresh
    = (Done (Loaded (Some "/srv/data/tickets.csv") tickets_profile
               (to_dict_records (keep [ticket1; ticket2]))),
       loaded tickets).
Proof. vm_compute. reflexivity. Defined.

Lemma load_csv_success_witness :
  exists p d prof,
    _resolve_csv_path "tickets.csv" fresh = (Done p, fresh)
    /\ is_relative_to p (base_dir fresh) = true
    /\ pd_read_csv p "," None = Returned d
    /\ _basic_profile d = Returned prof
    /\ loaded tickets
       = {| csv_path := Some (path_str p); df := Some d;
            last_result := None; base_dir := base_dir fresh |}
    /\ Loaded (Some "/srv/data/tickets.csv") tickets_profile
              (to_dict_records (keep [ticket1; ticket2]))
       = Loaded (Some (path_str p)) prof (firstn (Z.to_nat 2) (to_dict_records d)).
Proof.
  exact (load_csv_success fresh (loaded tickets) "tickets.csv" "," None 2 _ load_tickets).
Defined.

Lemma get_schema_after_load_witness :
  get_schema (loaded tickets)
    = (Done (Schema (Some "/srv/data/tickets.csv") tickets_profile), loaded tickets).
Proof.
  exact (get_schema_after_load fresh (loaded tickets) "tickets.csv" "," None 2
           _ _ _ load_tickets).
Defined.

Lemma export_after_load_has_nothing_witness :
  export_last_result "tickets-copy.csv" (loaded tickets)
    = (Failed NoLastResult, loaded tickets).
Proof.
  exact (export_after_load_has_nothing fresh (loaded tickets) "tickets.csv" "," None 2
           _ "tickets-copy.csv" load_tickets).
Defined.

Lemma set_base_directory_spec_witness :
  set_base_directory "/srv/other" (loaded tickets)
    = (Done (BaseDirSet "/srv/other"),
       snd (set_base_dir (mkPath "/" ["srv"; "other"]) (loaded tickets))).
Proof.
  assert (Hbase : (p ← expanduser (parse_path "/srv/other"); fs_realpath p)
                  = Returned (mkPath "/" ["srv"; "other"])) by reflexivity.
  exact (proj1 (set_base_directory_spec (loaded tickets) "/srv/other"
                  (mkPath "/" ["srv"; "other"]) Hbase)).
Defined.

Lemma preview_unknown_columns_witness :
  preview 5 (Some ["Id"; "Nope"; "Status"; "Zip"]) (loaded tickets)
    = (Failed (UnknownColumns ["Nope"; "Zip"]), loaded tickets).
Proof.
  assert (Hin : "Nope" ∈ ["Id"; "Nope"; "Status"; "Zip"]) by (right; left).
  assert (Hnot : "Nope" ∉ columns tickets)
    by (apply (proj1 (bool_decide_eq_false _)); vm_compute; reflexivity).
  exact (proj1 (preview_unknown_columns (loaded tickets) tickets 5
                  ["Id"; "Nope"; "Status"; "Zip"] "Nope" eq_refl Hin Hnot)).
Defined.

Lemma preview_projection_witness :
  exists out,
    preview 1 (Some ["Owner"; "Id"]) (loaded tickets)
      = (Done (Rows (firstn (Z.to_nat 1) (to_dict_records out))),
         snd (set_last_result (Some out) (loaded tickets)))
    /\ columns out = ["Owner"; "Id"]
    /\ nrows out = 3.
Proof.
  assert (Hall : forall c', c' ∈ ["Owner"; "Id"] -> c' ∈ columns tickets).
  { intros c' Hc'. apply list_elem_of_In in Hc'. apply list_elem_of_In.
    simpl in Hc'. destruct Hc' as [<-|[<-|[]]]; vm_compute; tauto. }
  destruct (preview_projection (loaded tickets) tickets 1 "Owner" ["Id"] eq_refl Hall)
    as (out & Hrun & Hcols & Hrows & _).
  exists out. split; [exact Hrun|]. split; [exact Hcols | exact Hrows].
Defined.

Lemma filter_open_limit_1 :
  filter_rows [status_open] "and" 1 (loaded tickets)
    = (Done (Selected 2 (to_dict_records (keep [ticket1]))),
       with_result (keep [ticket1; ticket3])).
Proof. vm_compute. reflexivity. Defined.

(** One row was returned, two are written. *)
Lemma export_after_filter_writes_all_matches_witness :
  export_last_result "open.csv" (with_result (keep [ticket1; ticket3]))
    = (Done (Exported "/srv/data/open.csv" 2), with_result (keep [ticket1; ticket3])).
Proof.
  assert (Hout : resolve_under (base_dir (loaded tickets)) "open.csv"
                 = Returned (mkPath "/" ["srv"; "data"; "open.csv"])) by reflexivity.
  destruct (export_after_filter_writes_all_matches
              (loaded tickets) (with_result (keep [ticket1; ticket3]))
              [status_open] "and" 1 2 (to_dict_records (keep [ticket1]))
              "open.csv" (mkPath "/" ["srv"; "data"; "open.csv"])
              filter_open_limit_1 Hout eq_refl eq_refl)
    as (selection & Hlast & _ & _ & Hexport).
  apply Hexport. reflexivity.
Defined.

Lemma row_count_counts_the_mask_witness :
  exists d mask,
    df (loaded tickets) = Some d
    /\ filter_loop d "and" None [status_open] = Done mask
    /\ match mask with
       | None => [status_open] = [] /\ 2 = nrows d
       | Some m => [status_open] <> [] /\ length m = nrows d /\ 2 = count_true m
       end.
Proof.
  exact (row_count_counts_the_mask (loaded tickets) _ [status_open] "and" 1 2 _
           filter_open_limit_1).
Defined.

Lemma filter_open_an :
  filter_rows ([status_open] ++ [owner_has_an]) "and" 1 (loaded tickets)
    = (Done (Selected 1 (to_dict_records (keep [ticket1]))),
       with_result (keep [ticket1])).
Proof. vm_compute. reflexivity. Defined.

Lemma one_more_filter_narrows_and_witness :
  exists sel1 sel2,
    last_result (with_result (keep [ticket1; ticket3])) = Some sel1
    /\ last_result (with_result (keep [ticket1])) = Some sel2
    /\ sublist (rows sel2) (rows sel1)
    /\ 1 <= 2.
Proof.
  exact (one_more_filter_narrows_and (loaded tickets) _ _ [status_open] owner_has_an
           1 2 1 _ _ filter_open_limit_1 filter_open_an).
Defined.

Lemma filter_an_or :
  filter_rows [owner_has_an] "or" 1 (loaded tickets)
    = (Done (Selected 1 (to_dict_records (keep [ticket1]))),
       with_result (keep [ticket1])).
Proof. vm_compute. reflexivity. Defined.

Lemma filter_an_or_open :
  filter_rows ([owner_has_an] ++ [status_open]) "or" 1 (loaded tickets)
    = (Done (Selected 2 (to_dict_records (keep [ticket1]))),
       with_result (keep [ticket1; ticket3])).
Proof. vm_compute. reflexivity. Defined.

Lemma one_more_filter_widens_or_witness :
  exists sel1 sel2,
    last_result (with_result (keep [ticket1])) = Some sel1
    /\ last_result (with_result (keep [ticket1; ticket3])) = Some sel2
    /\ sublist (rows sel1) (rows sel2)
    /\ 1 <= 2.
Proof.
  assert (Hne : [owner_has_an] <> []) by discriminate.
  exact (one_more_filter_widens_or (loaded tickets) _ _ [owner_has_an] status_open
           1 1 2 _ _ Hne filter_an_or filter_an_or_open).
Defined.

(** The comparison in the middle fails; the descriptor after it plays no
    part. *)
Lemma first_failing_descriptor_decides_witness :
  filter_rows ([status_open] ++ id_above_text :: [owner_has_an]) "or" 200 (loaded tickets)
    = (Failed (ComparisonFailed "Id" ">" (VStr "Open")
                 (mkExc TypeError "Invalid comparison between dtype and str")),
       loaded tickets).
Proof.
  assert (Hlogic : "or" ∈ ["and"; "or"]) by (right; left).
  assert (Hpre : filter_loop tickets "or" None [status_open]
                 = Done (Some [true; false; true])) by (vm_compute; reflexivity).
  assert (Heval : eval_filter tickets id_above_text
                  = Failed (ComparisonFailed "Id" ">" (VStr "Open")
                              (mkExc TypeError "Invalid comparison between dtype and str")))
    by (vm_compute; reflexivity).
  pose proof (first_failing_descriptor_decides (loaded tickets) tickets
                [status_open] [owner_has_an] id_above_text "or" 200 _
                eq_refl Hlogic Hpre) as Hdecides.
  rewrite Heval in Hdecides. exact Hdecides.
Defined.

Lemma unsupported_operator_witness :
  eval_filter tickets status_like = Failed (UnsupportedOp (dict_get status_like "op")).
Proof.
  assert (Hcol : check_column tickets UnknownFilterColumn (dict_get status_like "column")
                 = Done "Status") by (vm_compute; reflexivity).
  apply (proj1 (unsupported_operator tickets status_like "Status" Hcol)).
  vm_compute. reflexivity.
Defined.

Lemma case_sensitive_is_for_string_operators_witness :
  eval_filter tickets (<["case_sensitive" := VBool true]> status_open)
    = eval_filter tickets status_open.
Proof.
  apply case_sensitive_is_for_string_operators.
  intros o Ho. vm_compute in Ho. inversion Ho. reflexivity.
Defined.

(** [Owner != "Ann"] selects the two tickets without an owner. *)
Lemma missing_cells_satisfy_only_not_equal_witness :
  eval_filter tickets owner_not_ann = Done [false; true; true]
  /\ [false; true; true] !! 1 = Some (cmp_unequal OpNe).
Proof.
  assert (Heval : eval_filter tickets owner_not_ann = Done [false; true; true])
    by (vm_compute; reflexivity).
  assert (Hne : "Owner" <> "") by discriminate.
  split; [exact Heval|].
  apply (missing_cells_satisfy_only_not_equal tickets owner_not_ann "Owner" "!=" OpNe
           (mkSeries ObjectT [Str "Ann"; Null; Null]) [false; true; true]
           eq_refl Hne eq_refl eq_refl eq_refl I Heval 1).
  reflexivity.
Defined.

Lemma equality_on_text_is_exact_witness :
  exists m,
    eval_filter tickets status_open = Done m
    /\ (m !! 0 = Some true <-> @Str ZNumber "Open" = Str "Open")
    /\ (m !! 1 = Some true <-> @Str ZNumber "Closed" = Str "Open").
Proof.
  assert (Hne : "Status" <> "") by discriminate.
  destruct (equality_on_text_is_exact tickets status_open "Status" "Open"
              (mkSeries ObjectT [Str "Open"; Str "Closed"; Str "Open"])
              eq_refl Hne eq_refl eq_refl eq_refl eq_refl) as (m & Heval & Hcells).
  exists m. split; [exact Heval|]. split.
  - apply (Hcells 0). reflexivity.
  - apply (Hcells 1). reflexivity.
Defined.

(** [Id sum, Status max, Id mean] is aggregated as [Id: sum, mean] and
    [Status: max]. *)
Lemma aggregations_are_grouped_by_column_witness :
  agg_loop tickets []
    [aggregation "Id" "sum"; aggregation "Status" "max"; aggregation "Id" "mean"]
    = Done [("Id", ["sum"; "mean"]); ("Status", ["max"])]
  /\ [("Id", ["sum"; "mean"]); ("Status", ["max"])]
     = grouped_by_column
         (requested_pairs
            [aggregation "Id" "sum"; aggregation "Status" "max"; aggregation "Id" "mean"]).
Proof.
  assert (Hloop : agg_loop tickets []
                    [aggregation "Id" "sum"; aggregation "Status" "max";
                     aggregation "Id" "mean"]
                  = Done [("Id", ["sum"; "mean"]); ("Status", ["max"])])
    by (vm_compute; reflexivity).
  split; [exact Hloop|].
  exact (proj1 (aggregations_are_grouped_by_column tickets _ _ Hloop)).
Defined.

Lemma groupby_validation_witness :
  groupby_aggregate ["Owner"]
    ([aggregation "Id" "count"] ++ aggregation "Id" "median" :: []) 200 (loaded tickets)
    = (Failed (UnsupportedAgg (dict_get (aggregation "Id" "median") "agg")),
       loaded tickets).
Proof.
  assert (Hpre : agg_loop tickets [] [aggregation "Id" "count"]
                 = Done [("Id", ["count"])]) by (vm_compute; reflexivity).
  assert (Hcol : check_column tickets UnknownAggColumn
                   (dict_get (aggregation "Id" "median") "column") = Done "Id")
    by (vm_compute; reflexivity).
  pose proof (groupby_validation (loaded tickets) tickets ["Owner"]
                [aggregation "Id" "count"] [] (aggregation "Id" "median") 200 _
                eq_refl Hpre) as Hvalid.
  simpl in Hvalid. destruct Hvalid as [_ Hfn].
  apply (Hfn "Id" Hcol). vm_compute. reflexivity.
Defined.

Lemma groupby_row_count_witness :
  exists levels,
    exc_map (lookup_column tickets) ["Owner"] = Returned levels
    /\ 2 = length (remove_dups (map (group_key (map fst levels)) (rows tickets)))
    /\ 2 <= nrows tickets
    /\ (2 = 0 <-> nrows tickets = 0)
    /\ length (to_dict_records by_owner) = Nat.min (Z.to_nat 200) 2.
Proof.
  assert (Hrun : groupby_aggregate ["Owner"]
                   [aggregation "Id" "count"; aggregation "Id" "max"] 200
                   (loaded tickets)
                 = (Done (Selected 2 (to_dict_records by_owner)), with_result by_owner))
    by (vm_compute; reflexivity).
  exact (groupby_row_count (loaded tickets) _ tickets _ _ 200 2 _ eq_refl Hrun).
Defined.

(** With [limit = -1] the least frequent status is left out. *)
Lemma value_counts_limit_witness :
  value_counts "Status" (-1) false true (loaded tickets)
    = (Done (Counts "Status" [(Str "Open", int 2)]),
       with_result {| schema := [("value", ObjectT); ("metric", Int64)];
                      rows := [[Str "Open"; int 2]] |}).
Proof.
  assert (Hs : getitem tickets "Status"
               = Returned (mkSeries ObjectT [Str "Open"; Str "Closed"; Str "Open"]))
    by reflexivity.
  destruct (value_counts_limit (loaded tickets) tickets "Status" _ (-1) false true
              eq_refl Hs) as [Hrun _].
  rewrite Hrun. vm_compute. reflexivity.
Defined.

Lemma basic_profile_spec_witness :
  exists prof,
    _basic_profile tickets = Returned prof
    /\ row_count prof = nrows tickets
    /\ column_count prof = length (columns tickets)
    /\ profile_columns prof = columns tickets
    /\ map fst (profile_dtypes prof) = columns tickets
    /\ map fst (missing_by_column prof) = columns tickets
    /\ Forall (fun cm => snd cm <= nrows tickets) (missing_by_column prof)
    /\ list_sum (map snd (missing_by_column prof)) <= nrows tickets * ncols tickets.
Proof.
  apply basic_profile_spec.
  apply (bool_decide_unpack _). vm_compute. reflexivity.
Defined.

(** After the three calls of [session] the table is still there, and
    [get_schema] describes its three rows. *)
Lemma get_schema_succeeds_when_loaded_witness :
  exists prof,
    get_schema (run_requests session fresh)
      = (Done (Schema (csv_path (run_requests session fresh)) prof),
         run_requests session fresh)
    /\ row_count prof = 3.
Proof.
  assert (Hinit : initial_state (Some "/srv/data") = Returned fresh) by reflexivity.
  destruct (get_schema_succeeds_when_loaded (Some "/srv/data") fresh session Hinit)
    as [_ Hschema].
  assert (Hdf : df (run_requests session fresh) = Some tickets)
    by (vm_compute; reflexivity).
  rewrite Hdf in Hschema. destruct Hschema as (prof & Hrun & Hcount & _).
  exists prof. split; [exact Hrun | exact Hcount].
Defined.
